(** * genai-amep pipeline tasks: a shallow embedding

    The three task scripts of the repository

      - deploy/tasks/s3-integration/upload_model.py            (Model Uploader)
      - deploy/tasks/register-with-registry/register_s3_model.py (Registry Registrar)
      - deploy/tasks/s3-integration/s3_uploader.py             (Evaluation Storage Utility)

    are embedded as programs of a small state-and-exception monad.  The
    process state holds [os.environ], the text files of the shared workspace
    and the chronological trace of observable actions (console and log lines,
    client constructions, calls to the object store and to the registry, file
    writes).  The object store, the registry, the clock and the directory
    trees are outside the repository: they are fields of a [World], answering
    the calls the scripts make.

    Conventions.
      - A Python [str] is the string of its code points, which are taken to
        lie below 256 (the Latin-1 range); [lower] and [strip] act on that
        range as CPython does.
      - Paths are POSIX paths, as [pathlib] has them on Linux.
      - Console and log lines are kept as the format string of the source
        together with the interpolated values; pictographs at the head of a
        message are left out of the format string (the check mark and the
        cross of the per-file lines are written [v] and [x]).
      - The scripts are run with their dependencies importable (the
        [except ImportError] guards do not fire), and writes to the shared
        workspace succeed.
      - A paginator is lazy: it answers some pages, and the request for the
        page after them may raise.
      - Exit status follows CPython: falling off the end is 0, [sys.exit(n)]
        is [n], an exception nobody catches is 1. *)

From Stdlib Require Import String Ascii List Arith Lia Bool.
From stdpp Require Import base option list gmap strings.

Local Open Scope string_scope.
Local Open Scope list_scope.

(* ===================================================================== *)
(** ** Python string operations used by the scripts                       *)
(* ===================================================================== *)

Module Py.

(** [s.split(sep)] for a one-character separator: every occurrence
    splits, empty fields are kept, and the empty string splits into the
    one-element list holding the empty string. *)
Fixpoint split (sep : ascii) (s : string) : list string :=
  match s with
  | EmptyString => [EmptyString]
  | String c s' =>
      if Ascii.eqb c sep then EmptyString :: split sep s'
      else match split sep s' with
           | h :: t => String c h :: t
           | [] => [String c EmptyString]
           end
  end.

(** [x in l] where [x] may be [None]: [None] equals no string. *)
Definition contains (x : option string) (l : list string) : bool :=
  match x with
  | Some t => bool_decide (t ∈ l)
  | None => false
  end.

(** The code points below 256 that [lower] changes: A to Z, and the
    capital letters of the Latin-1 supplement (192 to 222, the multiplication
    sign 215 apart).  Each is 32 below its lower-case letter. *)
Definition is_upper (c : ascii) : bool :=
  let n := nat_of_ascii c in
  (((65 <=? n) && (n <=? 90)) ||
   ((192 <=? n) && (n <=? 222) && negb (n =? 215)))%nat.

Definition lower_char (c : ascii) : ascii :=
  if is_upper c then ascii_of_nat (nat_of_ascii c + 32) else c.

(** [s.lower()] *)
Fixpoint lower (s : string) : string :=
  match s with
  | EmptyString => EmptyString
  | String c s' => String (lower_char c) (lower s')
  end.

(** White space of [str.strip()] below 256: tab, LF, VT, FF, CR (9 to 13),
    the four separators FS, GS, RS, US (28 to 31), the space (32), NEL (133)
    and the no-break space (160). *)
Definition is_space (c : ascii) : bool :=
  let n := nat_of_ascii c in
  ((n =? 32) || ((9 <=? n) && (n <=? 13)) || ((28 <=? n) && (n <=? 31)) ||
   (n =? 133) || (n =? 160))%nat.

Fixpoint lstrip (s : string) : string :=
  match s with
  | EmptyString => EmptyString
  | String c s' => if is_space c then lstrip s' else s
  end.

Fixpoint rstrip (s : string) : string :=
  match s with
  | EmptyString => EmptyString
  | String c s' =>
      match rstrip s' with
      | EmptyString => if is_space c then EmptyString else String c EmptyString
      | r => String c r
      end
  end.

(** [s.strip()] *)
Definition strip (s : string) : string := rstrip (lstrip s).

(** Truth value of a string, and of an optional string ([None] and the
    empty string are false). *)
Definition nonempty (s : string) : bool :=
  match s with EmptyString => false | String _ _ => true end.

Definition truthy (o : option string) : bool :=
  match o with Some s => nonempty s | None => false end.

(** [all(l)] *)
Definition all (l : list bool) : bool := forallb id l.

(** How an optional string is rendered inside an f-string. *)
Definition fmt (o : option string) : string := default "None" o.

(** [s.startswith(p)] *)
Definition startswith (p s : string) : bool := String.prefix p s.

End Py.

(* ===================================================================== *)
(** ** Text and paths                                                     *)
(* ===================================================================== *)

Module Text.

(** [sep.join(l)] for a one-character separator. *)
Fixpoint join (sep : ascii) (l : list string) : string :=
  match l with
  | [] => EmptyString
  | [x] => x
  | x :: rest => x +:+ String sep (join sep rest)
  end.

(** The character occurs in the string. *)
Fixpoint occurs (c : ascii) (s : string) : bool :=
  match s with
  | EmptyString => false
  | String x s' => Ascii.eqb x c || occurs c s'
  end.

(** [s[n:]] *)
Fixpoint drop (n : nat) (s : string) : string :=
  match n, s with
  | O, _ => s
  | S n', EmptyString => EmptyString
  | S n', String _ s' => drop n' s'
  end.

(** [s.lstrip(c)] for a one-character set. *)
Fixpoint lstrip_char (c : ascii) (s : string) : string :=
  match s with
  | EmptyString => EmptyString
  | String x s' => if Ascii.eqb x c then lstrip_char c s' else s
  end.

End Text.

(** [pathlib] paths on POSIX, as a root and parts: a path string is cut at
    the slashes, and empty parts and single dots are dropped; [..] is kept.
    The root is [/] for a string that begins with one slash or with three or
    more, [//] for one that begins with exactly two, and empty for a
    relative path. *)
Module Paths.

Record path := mkPath {
  root : string;
  parts : list string
}.

Definition proper (part : string) : bool :=
  negb (String.eqb part "") && negb (String.eqb part ".").

Definition parse_parts (s : string) : list string :=
  List.filter proper (Py.split "/" s).

Definition root_of (s : string) : string :=
  match s with
  | String "/" (String "/" (String "/" _)) => "/"
  | String "/" (String "/" _) => "//"
  | String "/" _ => "/"
  | _ => ""
  end.

(** [Path(s)] *)
Definition Path (s : string) : path :=
  {| root := root_of s; parts := parse_parts s |}.

(** [p / s]: an absolute right operand replaces the left one. *)
Definition joinpath (p : path) (s : string) : path :=
  if Py.startswith "/" s then Path s
  else {| root := root p; parts := parts p ++ parse_parts s |}.

(** [p.parent] *)
Definition parent (p : path) : path :=
  {| root := root p; parts := removelast (parts p) |}.

(** [str(p)] *)
Definition str (p : path) : string :=
  match parts p with
  | [] => if String.eqb (root p) "" then "." else root p
  | l => root p +:+ Text.join "/" l
  end.

(** [str(Path(s))]: the string in its normal form. *)
Definition normal (s : string) : string := str (Path s).

End Paths.

(* ===================================================================== *)
(** ** The clock: [datetime.now()], [strftime], [isoformat]               *)
(* ===================================================================== *)

Record datetime := mkDatetime {
  year : nat; month : nat; day : nat;
  hour : nat; minute : nat; second : nat;
  microsecond : nat
}.

(** The field ranges of a [datetime] the clock gives: the ranges the class
    enforces, with a year of four digits (1000 to 9999), which [%Y] renders
    as such on every platform. *)
Definition valid_datetime (d : datetime) : Prop :=
  10 * 100 <= year d < 100 * 100 /\ 1 <= month d <= 12 /\ 1 <= day d <= 31 /\
  hour d < 24 /\ minute d < 60 /\ second d < 60 /\ microsecond d < 1000 * 1000.

(** The calendar second a timestamp falls in. *)
Definition second_of (d : datetime) : nat * nat * nat * nat * nat * nat :=
  (year d, month d, day d, hour d, minute d, second d).

Definition digit (n : nat) : ascii := ascii_of_nat (48 + n mod 10).

(** Zero-padded decimal fields of fixed width (the value is in range for
    every valid [datetime]). *)
Definition pad2 (n : nat) : string :=
  String (digit (n / 10)) (String (digit n) EmptyString).

Definition pad4 (n : nat) : string := pad2 (n / 100) +:+ pad2 n.

Definition pad6 (n : nat) : string := pad2 (n / 100 / 100) +:+ pad4 n.

(** [d.strftime("%Y%m%d_%H%M%S")] *)
Definition strftime_compact (d : datetime) : string :=
  pad4 (year d) +:+ pad2 (month d) +:+ pad2 (day d) +:+ "_" +:+
  pad2 (hour d) +:+ pad2 (minute d) +:+ pad2 (second d).

(** [d.isoformat()]: the fraction is printed only when it is not zero. *)
Definition isoformat (d : datetime) : string :=
  pad4 (year d) +:+ "-" +:+ pad2 (month d) +:+ "-" +:+ pad2 (day d) +:+ "T" +:+
  pad2 (hour d) +:+ ":" +:+ pad2 (minute d) +:+ ":" +:+ pad2 (second d) +:+
  (if (microsecond d =? 0)%nat then "" else "." +:+ pad6 (microsecond d)).

(* ===================================================================== *)
(** ** Exceptions, observable actions, the outside world                  *)
(* ===================================================================== *)

(** The exceptions that occur; all of them derive from [Exception].
    [SystemExit] does not, and is the [Exit] outcome below. *)
Inductive exn :=
| ClientError (code : string)        (* botocore.exceptions.ClientError *)
| StoreError                         (* model_registry.exceptions.StoreError *)
| ValueError (msg : string)
| AttributeError
| TypeError
| JSONDecodeError
| FileNotFoundError (path : string)
| OtherError (name : string).

Definition is_ClientError (e : exn) : bool :=
  match e with ClientError _ => true | _ => false end.

Definition is_StoreError (e : exn) : bool :=
  match e with StoreError => true | _ => false end.

(** [except Exception] *)
Definition is_Exception (e : exn) : bool := true.

(** An interpolated value of a console or log line. *)
Inductive arg :=
| AStr (s : string)
| ANat (n : nat)
| AGrouped (n : nat)                 (* the [{n:,}] rendering *)
| AExn (e : exn).

Inductive level := DEBUG | INFO | ERROR.

Inductive event :=
| Print (text : string) (args : list arg)
| Log (lvl : level) (text : string) (args : list arg)
| Traceback
| Boto3Client (config : list (string * string))
| HeadBucket (bucket : string)
| UploadFile (filename bucket key : string) (metadata : list (string * string))
| Paginate (bucket prefix delimiter : string)
| GetObject (bucket key : string)
| RegistryClient (server_address : string) (port : nat) (author : string) (is_secure : bool)
| RegisterModel (name uri : string) (version : option string)
                (description : string) (metadata : list (string * string))
| GetModelVersion (name : string) (version : option string)
| WriteFile (path content : string).

(** Constructing a storage or a registry client. *)
Definition is_client_construction (e : event) : bool :=
  match e with
  | Boto3Client _ | RegistryClient _ _ _ _ => true
  | _ => false
  end.

(** A call that goes to the object store or to the registry. *)
Definition is_network_call (e : event) : bool :=
  match e with
  | HeadBucket _ | UploadFile _ _ _ _ | Paginate _ _ _ | GetObject _ _
  | RegisterModel _ _ _ _ _ | GetModelVersion _ _ => true
  | _ => false
  end.

Definition is_file_write (e : event) : bool :=
  match e with WriteFile _ _ => true | _ => false end.

Definition is_upload (e : event) : bool :=
  match e with UploadFile _ _ _ _ => true | _ => false end.

(** The storage key of an upload attempt. *)
Definition upload_key (e : event) : option string :=
  match e with UploadFile _ _ k _ => Some k | _ => None end.

(** What a call to an outside service answers. *)
Inductive answer (A : Type) :=
| Ok (a : A)
| Err (e : exn).
Arguments Ok {A} a.
Arguments Err {A} e.

(** One entry of [Path.rglob('*')]: its path relative to the globbed
    directory, whether it is a regular file, and its size in bytes. *)
Record dir_entry := mkEntry {
  e_rel : string;
  e_is_file : bool;
  e_size : nat
}.

(** JSON documents; a Python [dict] keeps insertion order. *)
Inductive json :=
| JNull
| JBool (b : bool)
| JNum (n : nat)
| JStr (s : string)
| JArr (l : list json)
| JObj (d : list (string * json)).

Definition dict := list (string * json).

(** [d[k] = v] *)
Fixpoint dict_set (k : string) (v : json) (d : dict) : dict :=
  match d with
  | [] => [(k, v)]
  | (k', v') :: d' =>
      if String.eqb k k' then (k, v) :: d' else (k', v') :: dict_set k v d'
  end.

(** [d.get(k)] *)
Fixpoint dict_get (k : string) (d : dict) : option json :=
  match d with
  | [] => None
  | (k', v') :: d' => if String.eqb k k' then Some v' else dict_get k d'
  end.

(** The body of a stored object, by what [json.loads] makes of it. *)
Inductive body :=
| JsonText (v : json)
| Garbage (raw : string).

Definition json_loads (b : body) : answer json :=
  match b with
  | JsonText v => Ok v
  | Garbage _ => Err JSONDecodeError
  end.

(** One page of a [list_objects_v2] paginator: the [CommonPrefixes] key
    may be missing from the page. *)
Record page := mkPage {
  CommonPrefixes : option (list string)
}.

(** A model version as the registry client returns it: the [str()] of its
    [id] and its [name]. *)
Record model_version_rec := mkVersion {
  mv_id : string;
  mv_name : string
}.

Record World := mkWorld {
  w_environ : gmap string string;
  w_files : gmap string string;
  w_dirs : gmap string (list dir_entry);
  (** [datetime.now()] at the n-th reading of the clock *)
  w_now : nat -> datetime;
  (** [s3.head_bucket(Bucket=b)] *)
  w_head_bucket : string -> answer unit;
  (** [s3.upload_file(filename, bucket, key, ...)] *)
  w_upload_file : string -> string -> string -> answer unit;
  (** the pages [paginate(Bucket, Prefix, Delimiter)] yields *)
  w_paginate : string -> string -> string -> list page;
  (** the exception the request for the page after them raises, if it
      raises *)
  w_paginate_error : string -> string -> string -> option exn;
  (** [s3.get_object(Bucket, Key)['Body'].read()] *)
  w_get_object : string -> string -> answer body;
  (** [registry.register_model(name, uri, version=...)] *)
  w_register_model : string -> string -> option string -> answer unit;
  (** [registry.get_model_version(name, version)] at the n-th lookup *)
  w_get_model_version : nat -> string -> option string -> answer (option model_version_rec)
}.

(* ===================================================================== *)
(** ** Process state and the monad of the scripts                         *)
(* ===================================================================== *)

Record State := mkState {
  st_environ : gmap string string;
  st_files : gmap string string;
  st_trace : list event;
  st_clock : nat;
  st_lookups : nat
}.

Definition initial (w : World) : State :=
  {| st_environ := w_environ w; st_files := w_files w;
     st_trace := []; st_clock := 0; st_lookups := 0 |}.

Inductive outcome (A : Type) :=
| Ret (a : A)
| Exit (code : nat)
| Raise (e : exn).
Arguments Ret {A} a.
Arguments Exit {A} code.
Arguments Raise {A} e.

Definition M (A : Type) : Type := State -> outcome A * State.

Definition ret {A} (a : A) : M A := fun s => (Ret a, s).

Definition bind {A B} (m : M A) (k : A -> M B) : M B :=
  fun s =>
    match m s with
    | (Ret a, s') => k a s'
    | (Exit n, s') => (Exit n, s')
    | (Raise e, s') => (Raise e, s')
    end.

#[global] Instance M_ret : MRet M := @ret.
#[global] Instance M_bind : MBind M := fun A B k m => bind m k.

(** [sys.exit(n)] *)
Definition sys_exit {A} (n : nat) : M A := fun s => (Exit n, s).

(** [raise e] *)
Definition raise {A} (e : exn) : M A := fun s => (Raise e, s).

(** [try: body  except <handles> as e: handler e].  [SystemExit] passes. *)
Definition try_except {A} (body : M A) (handles : exn -> bool)
    (handler : exn -> M A) : M A :=
  fun s =>
    match body s with
    | (Raise e, s') => if handles e then handler e s' else (Raise e, s')
    | r => r
    end.

Definition emit (e : event) : M unit :=
  fun s => (Ret tt, {| st_environ := st_environ s; st_files := st_files s;
                       st_trace := st_trace s ++ [e];
                       st_clock := st_clock s; st_lookups := st_lookups s |}).

Definition print (text : string) (args : list arg) : M unit :=
  emit (Print text args).

Definition log (lvl : level) (text : string) (args : list arg) : M unit :=
  emit (Log lvl text args).

(** [os.environ.get(k)] *)
Definition getenv (k : string) : M (option string) :=
  fun s => (Ret (st_environ s !! k), s).

(** [os.environ[k] = v] *)
Definition setenv (k v : string) : M unit :=
  fun s => (Ret tt, {| st_environ := <[k := v]> (st_environ s);
                       st_files := st_files s; st_trace := st_trace s;
                       st_clock := st_clock s; st_lookups := st_lookups s |}).

(** [Path(p).exists()] for a text file *)
Definition file_exists (p : string) : M bool :=
  fun s => (Ret (bool_decide (is_Some (st_files s !! p))), s).

(** [open(p).read()] / [Path(p).read_text()] *)
Definition read_file (p : string) : M string :=
  fun s =>
    match st_files s !! p with
    | Some c => (Ret c, s)
    | None => (Raise (FileNotFoundError p), s)
    end.

(** [open(p, 'w').write(c)] / [Path(p).write_text(c)] *)
Definition write_file (p c : string) : M unit :=
  fun s => (Ret tt, {| st_environ := st_environ s;
                       st_files := <[p := c]> (st_files s);
                       st_trace := st_trace s ++ [WriteFile p c];
                       st_clock := st_clock s; st_lookups := st_lookups s |}).

(** [datetime.now()] *)
Definition now (w : World) : M datetime :=
  fun s => (Ret (w_now w (st_clock s)),
            {| st_environ := st_environ s; st_files := st_files s;
               st_trace := st_trace s;
               st_clock := S (st_clock s); st_lookups := st_lookups s |}).

(** Lift the answer of an outside call. *)
Definition of_answer {A} (a : answer A) : M A :=
  match a with
  | Ok x => ret x
  | Err e => raise e
  end.

(** Exit status of the process. *)
Definition exit_code {A} (o : outcome A) : nat :=
  match o with
  | Ret _ => 0
  | Exit n => n
  | Raise _ => 1
  end.

Definition run {A} (prog : World -> M A) (w : World) : outcome A * State :=
  prog w (initial w).

(* ===================================================================== *)
(** ** The skip check shared by the Uploader and the Registrar            *)
(* ===================================================================== *)

(** [os.environ.get('SKIP_TASK') in os.environ.get('SKIP_TASKS', '').split(',')] *)
Definition skip_requested (environ : gmap string string) : bool :=
  Py.contains (environ !! "SKIP_TASK")
              (Py.split "," (default "" (environ !! "SKIP_TASKS"))).

Definition banner : string :=
  "Developed by the Red Hat AI Customer Adoption and Innovation team (CAI)".

(* ===================================================================== *)
(** ** upload_model.py: the Model Uploader                                *)
(* ===================================================================== *)

Module Uploader.

Definition uri_file : string := "/workspace/shared-workspace/model_s3_uri".

(** [f"model-data/{model_name}/{model_version}"] *)
Definition s3_prefix (model_name model_version : string) : string :=
  "model-data/" +:+ model_name +:+ "/" +:+ model_version.

(** [f"s3://{bucket_name}/{s3_prefix}"] *)
Definition s3_uri (bucket_name model_name model_version : string) : string :=
  "s3://" +:+ bucket_name +:+ "/" +:+ s3_prefix model_name model_version.

(** The keyword arguments of [boto3.client]. *)
Definition s3_config (access_key secret_key : string)
    (endpoint_url : option string) : list (string * string) :=
  [("service_name", "s3");
   ("aws_access_key_id", access_key);
   ("aws_secret_access_key", secret_key)]
  ++ (if Py.truthy endpoint_url
      then [("endpoint_url", default "" endpoint_url)] else []).

Definition metadata (model_name model_version : string) (t : datetime)
    : list (string * string) :=
  [("model-name", model_name);
   ("model-version", model_version);
   ("upload-timestamp", isoformat t);
   ("source", "huggingface");
   ("pipeline", "modelcar-pipeline")].

(** [f"{s3_prefix}/{relative_path}"] of an entry. *)
Definition key_of (model_name model_version : string) (e : dir_entry) : string :=
  s3_prefix model_name model_version +:+ "/" +:+ e_rel e.

(** [str(file_path)] of an entry: the path of the directory with the
    relative path of the entry joined to it. *)
Definition path_of (model_dir : string) (e : dir_entry) : string :=
  Paths.str (Paths.joinpath (Paths.Path model_dir) (e_rel e)).

(** The body of the [for file_path in model_dir.rglob('*')] loop, over
    the entries still to visit; the accumulator is
    [(uploaded_count, total_size)]. *)
Fixpoint upload_loop (w : World) (model_dir bucket_name model_name model_version : string)
    (entries : list dir_entry) (acc : nat * nat) : M (nat * nat) :=
  match entries with
  | [] => ret acc
  | e :: rest =>
      if e_is_file e then
        let relative_path := e_rel e in
        let s3_key := key_of model_name model_version e in
        let file_path := path_of model_dir e in
        acc' ← try_except
                  (t ← now w;
                   emit (UploadFile file_path bucket_name s3_key
                           (metadata model_name model_version t)) ;;
                   of_answer (w_upload_file w file_path bucket_name s3_key) ;;
                   let file_size := e_size e in
                   log INFO "   v {} ({:,} bytes)"
                       [AStr relative_path; AGrouped file_size] ;;
                   ret (S (fst acc), snd acc + file_size))
                  is_ClientError
                  (fun err =>
                     log ERROR "   x Failed to upload {}: {}"
                         [AStr relative_path; AExn err] ;;
                     sys_exit 1);
        upload_loop w model_dir bucket_name model_name model_version rest acc'
      else
        upload_loop w model_dir bucket_name model_name model_version rest acc
  end.

(** Client construction and the bucket check. *)
Definition connect (w : World) (bucket_name access_key secret_key : string)
    (endpoint_url : option string) : M unit :=
  try_except
    (emit (Boto3Client (s3_config access_key secret_key endpoint_url)) ;;
     emit (HeadBucket bucket_name) ;;
     of_answer (w_head_bucket w bucket_name) ;;
     log INFO "Connected to S3 bucket: {}" [AStr bucket_name])
    is_ClientError
    (fun err =>
       match err with
       | ClientError "404" =>
           log ERROR "Bucket '{}' does not exist" [AStr bucket_name]
       | _ => log ERROR "Error accessing bucket: {}" [AExn err]
       end ;;
       sys_exit 1).

(** What follows the loop: the report, the locator file, the summary. *)
Definition finish (bucket_name model_name model_version : string)
    (acc : nat * nat) : M unit :=
  let prefix := s3_prefix model_name model_version in
  let uploaded_count := fst acc in
  let total_size := snd acc in
  log INFO "Uploaded {} files ({:,} bytes)"
      [ANat uploaded_count; AGrouped total_size] ;;
  log INFO "   S3 Location: s3://{}/{}/" [AStr bucket_name; AStr prefix] ;;
  let uri := s3_uri bucket_name model_name model_version in
  write_file uri_file uri ;;
  log INFO "   Saved S3 URI to: {}" [AStr uri_file] ;;
  print "Model upload complete!" [] ;;
  print "   Model: {} v{}" [AStr model_name; AStr model_version] ;;
  print "   S3 URI: {}" [AStr uri] ;;
  print "   Files: {} ({:,} bytes)" [ANat uploaded_count; AGrouped total_size].

(** The script from the client construction on, once the four required
    values are known to be present. *)
Definition upload (w : World) (bucket_name access_key secret_key model_name : string)
    (endpoint_url : option string) (model_version workspace_path : string) : M unit :=
  connect w bucket_name access_key secret_key endpoint_url ;;
  let model_dir := Paths.normal workspace_path in
  match w_dirs w !! model_dir with
  | None =>
      log ERROR "Model directory not found: {}" [AStr model_dir] ;;
      sys_exit 1
  | Some entries =>
      let prefix := s3_prefix model_name model_version in
      log INFO "Uploading model to S3..." [] ;;
      log INFO "   Local path: {}" [AStr model_dir] ;;
      log INFO "   S3 prefix: s3://{}/{}" [AStr bucket_name; AStr prefix] ;;
      acc ← upload_loop w model_dir bucket_name model_name model_version
               entries (0, 0);
      finish bucket_name model_name model_version acc
  end.

(** The script after the skip check: configuration, then the upload. *)
Definition task (w : World) : M unit :=
  bucket_name ← getenv "S3_BUCKET";
  endpoint_url ← getenv "S3_ENDPOINT_URL";
  access_key ← getenv "AWS_ACCESS_KEY_ID";
  secret_key ← getenv "AWS_SECRET_ACCESS_KEY";
  model_name ← getenv "MODEL_NAME";
  model_version ← getenv "MODEL_VERSION";
  workspace_path ← getenv "WORKSPACE_PATH";
  let model_version := default "1.0.0" model_version in
  let workspace_path := default "/workspace/shared-workspace/model" workspace_path in
  if negb (Py.all [Py.truthy bucket_name; Py.truthy access_key;
                   Py.truthy secret_key; Py.truthy model_name]) then
    log ERROR "Missing required environment variables" [] ;;
    log ERROR "Required: S3_BUCKET, AWS_ACCESS_KEY_ID, AWS_SECRET_ACCESS_KEY, MODEL_NAME" [] ;;
    sys_exit 1
  else
    upload w (default "" bucket_name) (default "" access_key)
             (default "" secret_key) (default "" model_name)
             endpoint_url model_version workspace_path.

(** The whole script. *)
Definition main (w : World) : M unit :=
  print banner [] ;;
  skip_task ← getenv "SKIP_TASK";
  skip_tasks ← getenv "SKIP_TASKS";
  if Py.contains skip_task (Py.split "," (default "" skip_tasks)) then
    print "Skipping upload-model-to-s3 task" [] ;;
    sys_exit 0
  else
    task w.

(** The conditions under which a run gets to the upload loop: the task is
    not skipped, the four required variables are set and not empty, the
    bucket check passes and the model directory exists.  [version] is the
    value in effect after the default, [dir] the string of the path made of
    the workspace path in effect. *)
Definition reaches_loop (w : World) (bucket model version dir : string)
    (entries : list dir_entry) : Prop :=
  skip_requested (w_environ w) = false /\
  w_environ w !! "S3_BUCKET" = Some bucket /\ Py.nonempty bucket = true /\
  Py.truthy (w_environ w !! "AWS_ACCESS_KEY_ID") = true /\
  Py.truthy (w_environ w !! "AWS_SECRET_ACCESS_KEY") = true /\
  w_environ w !! "MODEL_NAME" = Some model /\ Py.nonempty model = true /\
  default "1.0.0" (w_environ w !! "MODEL_VERSION") = version /\
  Paths.normal
    (default "/workspace/shared-workspace/model" (w_environ w !! "WORKSPACE_PATH")) = dir /\
  w_head_bucket w bucket = Ok tt /\
  w_dirs w !! dir = Some entries.

(** Every regular file among [entries] uploads. *)
Definition all_uploads_succeed (w : World) (bucket model version dir : string)
    (entries : list dir_entry) : Prop :=
  forall e, In e entries -> e_is_file e = true ->
    w_upload_file w (path_of dir e) bucket (key_of model version e) = Ok tt.

End Uploader.

(* ===================================================================== *)
(** ** register_s3_model.py: the Registry Registrar                       *)
(* ===================================================================== *)

Module Registrar.

Definition namespace_file_path : string :=
  "/var/run/secrets/kubernetes.io/serviceaccount/namespace".

Definition token_path : string :=
  "/var/run/secrets/kubernetes.io/serviceaccount/token".

Definition s3_uri_file : string := "/workspace/shared-workspace/model_s3_uri".

Definition version_id_file : string := "/workspace/shared-workspace/model_version_id".

(** The fallback of the locator resolution:
    [f"s3://{s3_bucket}/model-data/{model_name}/{model_version}"], where
    [model_name] is the lowercased name and [model_version] may be [None]. *)
Definition fallback_s3_uri (s3_bucket model_name : string)
    (model_version : option string) : string :=
  "s3://" +:+ s3_bucket +:+ "/model-data/" +:+ model_name +:+ "/" +:+
  Py.fmt model_version.

Definition description (huggingface_model : string) : string :=
  "Model " +:+ huggingface_model +:+
  " downloaded from Hugging Face and stored in S3".

Definition metadata (huggingface_model s3_uri : string) : list (string * string) :=
  [("source", "huggingface");
   ("huggingface_model", huggingface_model);
   ("framework", "pytorch");
   ("storage_type", "s3");
   ("s3_uri", s3_uri)].

(** [registry.get_model_version(name, version)] *)
Definition get_model_version (w : World) (name : string) (version : option string)
    : M (option model_version_rec) :=
  fun s =>
    let s' := {| st_environ := st_environ s; st_files := st_files s;
                 st_trace := st_trace s ++ [GetModelVersion name version];
                 st_clock := st_clock s; st_lookups := S (st_lookups s) |} in
    match w_get_model_version w (st_lookups s) name version with
    | Ok r => (Ret r, s')
    | Err e => (Raise e, s')
    end.

(** [x.id] on the result of a lookup, which may be [None]. *)
Definition attr_id (r : option model_version_rec) : M string :=
  match r with
  | Some mv => ret (mv_id mv)
  | None => raise AttributeError
  end.

(** The body of the [try] around the registration. *)
Definition register_body (w : World) (cluster_domain model_name : string)
    (model_version : option string) (huggingface_model s3_uri : string) : M unit :=
  emit (RegisterModel model_name s3_uri model_version
          (description huggingface_model) (metadata huggingface_model s3_uri)) ;;
  of_answer (w_register_model w model_name s3_uri model_version) ;;
  print "Successfully registered model: {} version {}"
        [AStr model_name; AStr (Py.fmt model_version)] ;;
  print "Model URI: {}" [AStr s3_uri] ;;
  shown ← get_model_version w model_name model_version;
  shown_id ← attr_id shown;
  print "Model details available at: https://rhods-dashboard-redhat-ods-applications.{}/modelRegistry/modelcar-pipeline-registry/registeredModels/1/versions/{}/details"
        [AStr cluster_domain; AStr shown_id] ;;
  found ← get_model_version w model_name model_version;
  model_version_id ← attr_id found;
  write_file version_id_file model_version_id ;;
  print "Model registration complete!" [] ;;
  print "   Model: {} v{}" [AStr model_name; AStr (Py.fmt model_version)] ;;
  print "   Registry ID: {}" [AStr model_version_id] ;;
  print "   S3 Location: {}" [AStr s3_uri].

(** The [except StoreError] clause. *)
Definition on_store_error (w : World) (model_name : string)
    (model_version : option string) : M unit :=
  print "Model version already exists: {} version {}"
        [AStr model_name; AStr (Py.fmt model_version)] ;;
  try_except
    (model_details ← get_model_version w model_name model_version;
     print "Existing model details:" [] ;;
     match model_details with
     | None => raise AttributeError
     | Some mv =>
         print "Model ID: {}" [AStr (mv_id mv)] ;;
         print "Model Name: {}" [AStr (mv_name mv)] ;;
         write_file version_id_file (mv_id mv) ;;
         print "Task completed successfully - using existing model version" [] ;;
         sys_exit 0
     end)
    is_Exception
    (fun e =>
       print "Error getting existing model details: {}" [AExn e] ;;
       sys_exit 1).

(** The [except Exception] clause. *)
Definition on_other_error (e : exn) : M unit :=
  print "Error registering model: {}" [AExn e] ;;
  emit Traceback ;;
  sys_exit 1.

(** The [try] statement: the first clause that matches handles. *)
Definition register (w : World) (cluster_domain model_name : string)
    (model_version : option string) (huggingface_model s3_uri : string) : M unit :=
  try_except
    (register_body w cluster_domain model_name model_version huggingface_model s3_uri)
    is_Exception
    (fun e =>
       if is_StoreError e then on_store_error w model_name model_version
       else on_other_error e).

(** Locator resolution: the file written by the Uploader, else the
    fallback built from the environment. *)
Definition resolve_s3_uri (model_name : string) (model_version : option string)
    : M string :=
  present ← file_exists s3_uri_file;
  if (present : bool) then
    content ← read_file s3_uri_file;
    let s3_uri := Py.strip content in
    print "Using S3 URI from upload task: {}" [AStr s3_uri] ;;
    mret s3_uri
  else
    s3_bucket ← getenv "S3_BUCKET";
    if Py.truthy s3_bucket then
      let s3_uri := fallback_s3_uri (default "" s3_bucket) model_name model_version in
      print "Constructed S3 URI: {}" [AStr s3_uri] ;;
      mret s3_uri
    else
      print "Error: Cannot determine S3 URI. S3_BUCKET not set and model_s3_uri file not found." [] ;;
      sys_exit 1.

(** The script after the skip check. *)
Definition task (w : World) : M unit :=
  namespace_text ← read_file namespace_file_path;
  let namespace := Py.strip namespace_text in
  cluster_domain ← getenv "CLUSTER_DOMAIN";
  let cluster_domain := default "cluster.local" cluster_domain in
  server_address ← getenv "MODEL_REGISTRY_URL";
  if negb (Py.truthy server_address) then
    print "Error: MODEL_REGISTRY_URL environment variable not set" [] ;;
    sys_exit 1
  else
    let server_address := default "" server_address in
    print "Server address: {}" [AStr server_address] ;;
    setenv "KF_PIPELINES_SA_TOKEN_PATH" token_path ;;
    print "Token path set in environment" [] ;;
    emit (RegistryClient server_address 443 "modelcar-pipeline" false) ;;
    raw_name ← getenv "MODEL_NAME";
    match raw_name with
    | None => raise AttributeError
    | Some raw_name =>
        let model_name := Py.lower raw_name in
        model_version ← getenv "MODEL_VERSION";
        huggingface_model ← getenv "HUGGINGFACE_MODEL";
        let huggingface_model := default "unknown" huggingface_model in
        s3_uri ← resolve_s3_uri model_name model_version;
        register w cluster_domain model_name model_version huggingface_model s3_uri
    end.

(** The whole script. *)
Definition main (w : World) : M unit :=
  print banner [] ;;
  skip_task ← getenv "SKIP_TASK";
  skip_tasks ← getenv "SKIP_TASKS";
  if Py.contains skip_task (Py.split "," (default "" skip_tasks)) then
    print "Skipping register-with-registry task" [] ;;
    sys_exit 0
  else
    task w.

(** The conditions under which a run gets to the registration call, and
    the values it gets there with: the task is not skipped, the namespace
    file can be read, the registry address and the model name are set, and
    the locator comes from the Uploader's file or, that file being absent,
    from the fallback over a bucket name that is set. *)
Definition reaches_registration (w : World) (cluster_domain model_name : string)
    (model_version : option string) (huggingface_model s3_uri : string) : Prop :=
  skip_requested (w_environ w) = false /\
  (exists namespace_text, w_files w !! namespace_file_path = Some namespace_text) /\
  Py.truthy (w_environ w !! "MODEL_REGISTRY_URL") = true /\
  default "cluster.local" (w_environ w !! "CLUSTER_DOMAIN") = cluster_domain /\
  (exists raw_name,
     w_environ w !! "MODEL_NAME" = Some raw_name /\ Py.lower raw_name = model_name) /\
  w_environ w !! "MODEL_VERSION" = model_version /\
  default "unknown" (w_environ w !! "HUGGINGFACE_MODEL") = huggingface_model /\
  ((exists content,
      w_files w !! s3_uri_file = Some content /\ Py.strip content = s3_uri) \/
   (w_files w !! s3_uri_file = None /\
    exists bucket,
      w_environ w !! "S3_BUCKET" = Some bucket /\ Py.nonempty bucket = true /\
      fallback_s3_uri bucket model_name model_version = s3_uri)).

End Registrar.

(* ===================================================================== *)
(** ** s3_uploader.py: the Evaluation Storage Utility                     *)
(* ===================================================================== *)

Module S3EvaluationStorage.

(** The attributes of an instance that the methods read. *)
Record t := mkStorage { bucket_name : string }.

Definition s3_config (endpoint_url access_key secret_key : option string)
    : list (string * string) :=
  [("service_name", "s3")]
  ++ (if Py.truthy endpoint_url
      then [("endpoint_url", default "" endpoint_url)] else [])
  ++ (if Py.truthy access_key && Py.truthy secret_key
      then [("aws_access_key_id", default "" access_key);
            ("aws_secret_access_key", default "" secret_key)] else []).

(** [__init__] *)
Definition init (w : World) (bucket : string)
    (endpoint_url access_key secret_key : option string) : M t :=
  emit (Boto3Client (s3_config endpoint_url access_key secret_key)) ;;
  try_except
    (emit (HeadBucket bucket) ;;
     of_answer (w_head_bucket w bucket) ;;
     log INFO "Connected to S3 bucket: {}" [AStr bucket])
    is_ClientError
    (fun err =>
       match err with
       | ClientError "404" =>
           log ERROR "Bucket '{}' does not exist" [AStr bucket]
       | _ => log ERROR "Error accessing bucket: {}" [AExn err]
       end ;;
       raise err) ;;
  mret {| bucket_name := bucket |}.

(** [f"{model_name}_{model_version}_{timestamp}"] *)
Definition generated_id (model_name model_version : string) (t : datetime) : string :=
  model_name +:+ "_" +:+ model_version +:+ "_" +:+ strftime_compact t.

(** [f"evaluations/{model_name}/{model_version}/{evaluation_id}"] *)
Definition s3_prefix (model_name model_version evaluation_id : string) : string :=
  "evaluations/" +:+ model_name +:+ "/" +:+ model_version +:+ "/" +:+ evaluation_id.

Definition metadata (model_name model_version evaluation_id : string) (t : datetime)
    : list (string * string) :=
  [("model-name", model_name);
   ("model-version", model_version);
   ("evaluation-id", evaluation_id);
   ("upload-timestamp", isoformat t)].

(** [f"{s3_prefix}/{relative_path}"] of an entry. *)
Definition key_of (model_name model_version evaluation_id : string)
    (e : dir_entry) : string :=
  s3_prefix model_name model_version evaluation_id +:+ "/" +:+ e_rel e.

(** [str(file_path)] of an entry; [results_dir] is the string of the path
    the caller passes. *)
Definition path_of (results_dir : string) (e : dir_entry) : string :=
  Paths.str (Paths.joinpath (Paths.Path results_dir) (e_rel e)).

(** The body of the [for file_path in results_dir.rglob('*')] loop. *)
Fixpoint upload_loop (w : World) (self : t)
    (results_dir model_name model_version evaluation_id : string)
    (entries : list dir_entry) (acc : nat * nat) : M (nat * nat) :=
  match entries with
  | [] => mret acc
  | e :: rest =>
      if e_is_file e then
        let relative_path := e_rel e in
        let s3_key := key_of model_name model_version evaluation_id e in
        let file_path := path_of results_dir e in
        acc' ← try_except
                  (t ← now w;
                   emit (UploadFile file_path (bucket_name self) s3_key
                           (metadata model_name model_version evaluation_id t)) ;;
                   of_answer (w_upload_file w file_path (bucket_name self) s3_key) ;;
                   let file_size := e_size e in
                   log DEBUG "   v {} ({} bytes)"
                       [AStr relative_path; ANat file_size] ;;
                   mret (S (fst acc), snd acc + file_size))
                  is_ClientError
                  (fun err =>
                     log ERROR "   x Failed to upload {}: {}"
                         [AStr relative_path; AExn err] ;;
                     mret acc);
        upload_loop w self results_dir model_name model_version evaluation_id rest acc'
      else
        upload_loop w self results_dir model_name model_version evaluation_id rest acc
  end.

(** [upload_evaluation_results]; [results_dir] is the string of the path
    the caller passes. *)
Definition upload_evaluation_results (w : World) (self : t)
    (results_dir model_name model_version : string)
    (evaluation_id : option string) : M string :=
  match w_dirs w !! results_dir with
  | None => raise (ValueError ("Results directory not found: " +:+ results_dir))
  | Some entries =>
      evaluation_id ←
        (if negb (Py.truthy evaluation_id) then
           timestamp ← now w;
           mret (generated_id model_name model_version timestamp)
         else mret (default "" evaluation_id));
      let prefix := s3_prefix model_name model_version evaluation_id in
      log INFO "Uploading results to S3..." [] ;;
      log INFO "   Local path: {}" [AStr results_dir] ;;
      log INFO "   S3 prefix: s3://{}/{}" [AStr (bucket_name self); AStr prefix] ;;
      acc ← upload_loop w self results_dir model_name model_version evaluation_id
               entries (0, 0);
      log INFO "Uploaded {} files ({:,} bytes)" [ANat (fst acc); AGrouped (snd acc)] ;;
      log INFO "   S3 Location: s3://{}/{}/" [AStr (bucket_name self); AStr prefix] ;;
      mret prefix
  end.

(** Whether the upload of an entry is answered without an exception, and
    the regular files of a directory for which it is. *)
Definition upload_succeeds (w : World) (self : t)
    (results_dir model_name model_version evaluation_id : string)
    (e : dir_entry) : bool :=
  match w_upload_file w (path_of results_dir e) (bucket_name self)
          (key_of model_name model_version evaluation_id e) with
  | Ok _ => true
  | Err _ => false
  end.

Definition uploaded (w : World) (self : t)
    (results_dir model_name model_version evaluation_id : string)
    (entries : list dir_entry) : list dir_entry :=
  List.filter
    (fun e => e_is_file e &&
              upload_succeeds w self results_dir model_name model_version evaluation_id e)
    entries.

(** No upload of a regular file among [entries] raises anything but the
    client error. *)
Definition only_client_errors (w : World) (self : t)
    (results_dir model_name model_version evaluation_id : string)
    (entries : list dir_entry) : Prop :=
  forall e, In e entries -> e_is_file e = true ->
    w_upload_file w (path_of results_dir e) (bucket_name self)
      (key_of model_name model_version evaluation_id e) = Ok tt \/
    exists code,
      w_upload_file w (path_of results_dir e) (bucket_name self)
        (key_of model_name model_version evaluation_id e) = Err (ClientError code).

(** Every regular file among [entries] uploads. *)
Definition all_uploads_succeed (w : World) (self : t)
    (results_dir model_name model_version evaluation_id : string)
    (entries : list dir_entry) : Prop :=
  forall e, In e entries -> e_is_file e = true ->
    w_upload_file w (path_of results_dir e) (bucket_name self)
      (key_of model_name model_version evaluation_id e) = Ok tt.

(** The evaluation id in effect: the one supplied, or the generated one. *)
Definition effective_id (model_name model_version : string)
    (evaluation_id : option string) (t : datetime) : string :=
  if negb (Py.truthy evaluation_id)
  then generated_id model_name model_version t
  else default "" evaluation_id.

(** The query prefix of [list_evaluations]. *)
Definition list_prefix (model_name model_version : option string) : string :=
  "evaluations/" +:+
  (if Py.truthy model_name then
     default "" model_name +:+ "/" +:+
     (if Py.truthy model_version then default "" model_version +:+ "/" else "")
   else "").

Definition fallback_entry (eval_prefix : string) : dict :=
  [("s3_prefix", JStr eval_prefix);
   ("model_name", JStr "unknown");
   ("model_version", JStr "unknown")].

(** [metadata['s3_prefix'] = eval_prefix]: only a dict takes it. *)
Definition tag_with_prefix (metadata : json) (eval_prefix : string) : M dict :=
  match metadata with
  | JObj d => mret (dict_set "s3_prefix" (JStr eval_prefix) d)
  | _ => raise TypeError
  end.

(** The body of the inner loop, for one common prefix. *)
Definition list_one (w : World) (self : t) (eval_prefix : string)
    (evaluations : list dict) : M (list dict) :=
  let summary_key := eval_prefix +:+ "cross_language_summary.json" in
  try_except
    (emit (GetObject (bucket_name self) summary_key) ;;
     response ← of_answer (w_get_object w (bucket_name self) summary_key);
     metadata ← of_answer (json_loads response);
     tagged ← tag_with_prefix metadata eval_prefix;
     mret (evaluations ++ [tagged])%list)
    is_ClientError
    (fun _ => mret (evaluations ++ [fallback_entry eval_prefix])%list).

Fixpoint list_prefixes (w : World) (self : t) (prefixes : list string)
    (evaluations : list dict) : M (list dict) :=
  match prefixes with
  | [] => mret evaluations
  | eval_prefix :: rest =>
      evaluations' ← list_one w self eval_prefix evaluations;
      list_prefixes w self rest evaluations'
  end.

Fixpoint list_pages (w : World) (self : t) (pages : list page)
    (evaluations : list dict) : M (list dict) :=
  match pages with
  | [] => mret evaluations
  | pg :: rest =>
      evaluations' ← list_prefixes w self (default [] (CommonPrefixes pg)) evaluations;
      list_pages w self rest evaluations'
  end.

(** [list_evaluations] *)
Definition list_evaluations (w : World) (self : t)
    (model_name model_version : option string) : M (list dict) :=
  let prefix := list_prefix model_name model_version in
  log INFO "Listing evaluations: s3://{}/{}" [AStr (bucket_name self); AStr prefix] ;;
  emit (Paginate (bucket_name self) prefix "/") ;;
  evaluations ← list_pages w self (w_paginate w (bucket_name self) prefix "/") [];
  match w_paginate_error w (bucket_name self) prefix "/" with
  | Some e => raise e
  | None => mret evaluations
  end.

(** The groupings a listing visits: the common prefixes of all pages, in
    order. *)
Definition groupings (pages : list page) : list string :=
  concat (map (fun pg => default [] (CommonPrefixes pg)) pages).

(** The entry one grouping contributes, or the exception its summary ends
    the listing with. *)
Definition summary_entry (w : World) (self : t) (eval_prefix : string) : answer dict :=
  match w_get_object w (bucket_name self)
          (eval_prefix +:+ "cross_language_summary.json") with
  | Err (ClientError _) => Ok (fallback_entry eval_prefix)
  | Err e => Err e
  | Ok response =>
      match json_loads response with
      | Ok (JObj d) => Ok (dict_set "s3_prefix" (JStr eval_prefix) d)
      | Ok _ => Err TypeError
      | Err e => Err e
      end
  end.

(** The summary of a grouping cannot be had: fetching it raises, or what is
    fetched does not parse. *)
Definition summary_missing_or_unreadable (w : World) (self : t)
    (eval_prefix : string) : Prop :=
  match w_get_object w (bucket_name self)
          (eval_prefix +:+ "cross_language_summary.json") with
  | Err _ => True
  | Ok response =>
      match json_loads response with
      | Err _ => True
      | Ok _ => False
      end
  end.

(** The summary of a grouping is refused by the store with a client error
    (the object is not there, or may not be read). *)
Definition summary_fetch_fails (w : World) (self : t) (eval_prefix : string) : Prop :=
  exists code,
    w_get_object w (bucket_name self)
      (eval_prefix +:+ "cross_language_summary.json") = Err (ClientError code).

(** The summary of a grouping is there and is a JSON object. *)
Definition summary_usable (w : World) (self : t) (eval_prefix : string) : Prop :=
  exists d,
    w_get_object w (bucket_name self)
      (eval_prefix +:+ "cross_language_summary.json") = Ok (JsonText (JObj d)).

End S3EvaluationStorage.

(* ===================================================================== *)
(** ** A reference object store                                           *)
(* ===================================================================== *)

(** The storage service is not part of the repository.  This module is a
    small store that answers the two read calls the way the S3 interface
    documents them, for building concrete worlds: a listing with a
    delimiter rolls the keys that begin with the prefix up to the first
    delimiter after it, and fetching a key that is not there raises the
    client error [NoSuchKey]. *)
Module ObjectStore.

Definition rollup (prefix delimiter key : string) : option string :=
  if Py.startswith prefix key then
    let rest := String.substring (String.length prefix)
                  (String.length key - String.length prefix) key in
    match String.index 0 delimiter rest with
    | Some i =>
        Some (prefix +:+ String.substring 0 (i + String.length delimiter) rest)
    | None => None
    end
  else None.

Definition common_prefixes (prefix delimiter : string) (keys : list string)
    : list string :=
  remove_dups (omap (rollup prefix delimiter) keys).

Definition paginate (objects : list (string * body))
    (bucket prefix delimiter : string) : list page :=
  match common_prefixes prefix delimiter (map fst objects) with
  | [] => [ {| CommonPrefixes := None |} ]
  | cps => [ {| CommonPrefixes := Some cps |} ]
  end.

Fixpoint get_object (objects : list (string * body)) (bucket key : string)
    : answer body :=
  match objects with
  | [] => Err (ClientError "NoSuchKey")
  | (k, b) :: rest =>
      if String.eqb k key then Ok b else get_object rest bucket key
  end.

End ObjectStore.

(** The listing contract of the storage interface: every common prefix
    answered to a request begins with the requested prefix. *)
Definition listing_respects_prefix (w : World) : Prop :=
  forall bucket prefix delimiter pg cps cp,
    In pg (w_paginate w bucket prefix delimiter) ->
    CommonPrefixes pg = Some cps ->
    In cp cps ->
    Py.startswith prefix cp = true.

(** No client is constructed and no call leaves the process. *)
Definition offline (trace : list event) : bool :=
  forallb (fun e => negb (is_client_construction e) && negb (is_network_call e)) trace.

(** No file is written. *)
Definition writes_nothing (trace : list event) : bool :=
  forallb (fun e => negb (is_file_write e)) trace.

(** The locator a registration call carries. *)
Definition registered_uri (e : event) : option string :=
  match e with RegisterModel _ uri _ _ _ => Some uri | _ => None end.

(** The storage keys of the upload attempts, in order. *)
Definition attempted_keys (trace : list event) : list string :=
  omap upload_key trace.

(** The regular files among the entries of a directory, their number and
    their cumulative size. *)
Definition regular_files (entries : list dir_entry) : list dir_entry :=
  List.filter e_is_file entries.

Definition total_bytes (entries : list dir_entry) : nat :=
  list_sum (map e_size (regular_files entries)).

(** The state in which the task proper starts: only the banner is out. *)
Definition after_banner (w : World) : State :=
  {| st_environ := w_environ w; st_files := w_files w;
     st_trace := [Print banner []]; st_clock := 0; st_lookups := 0 |}.

(** What a loop leaves behind: the environment and the files as they were,
    and a trace grown by upload attempts on the given keys and by no file
    write. *)
Definition grown_by (keys : list string) (s s' : State) : Prop :=
  st_environ s' = st_environ s /\
  st_files s' = st_files s /\
  exists added,
    st_trace s' = st_trace s ++ added /\
    attempted_keys added = keys /\
    writes_nothing added = true.

(* ===================================================================== *)
(** ** Concrete worlds                                                    *)
(* ===================================================================== *)

Module Examples.

Definition noon : datetime := mkDatetime 2024 3 5 12 0 0 0.

Definition clock (n : nat) : datetime := mkDatetime 2024 3 5 12 0 n 0.

Definition model_dir : list dir_entry :=
  [mkEntry "weights" false 0;
   mkEntry "weights/a.safetensors" true 10;
   mkEntry "config.json" true 5;
   mkEntry "tokenizer.json" true 7].

Definition dirs : gmap string (list dir_entry) :=
  {[ "/workspace/shared-workspace/model" := model_dir ]}.

Definition credentials : list (string * string) :=
  [("S3_BUCKET", "models");
   ("AWS_ACCESS_KEY_ID", "ak");
   ("AWS_SECRET_ACCESS_KEY", "sk")].

Definition files : gmap string string :=
  {[ Registrar.namespace_file_path := "pipelines" ]}.

(** A store in which the summary of the first model is not valid JSON. *)
Definition corrupt_objects : list (string * body) :=
  [("evaluations/m/cross_language_summary.json", Garbage "{");
   ("evaluations/m/v1/e1/results.json", Garbage "...");
   ("evaluations/n/v1/e2/results.json", Garbage "...")].

Definition objects : list (string * body) :=
  [("evaluations/m/v1/e1/cross_language_summary.json",
    JsonText (JObj [("model_name", JStr "m"); ("model_version", JStr "v1")]));
   ("evaluations/m/v1/e1/results.json", Garbage "...");
   ("evaluations/m/v1/e2/results.json", Garbage "...");
   ("evaluations/m/v2/e3/results.json", Garbage "...");
   ("model-data/m/v1/config.json", Garbage "...")].

(** A world in which every outside call succeeds, over the given
    environment, files and store. *)
Definition world (environ : list (string * string)) (fs : gmap string string)
    (store : list (string * body)) : World :=
  {| w_environ := list_to_map environ;
     w_files := fs;
     w_dirs := dirs;
     w_now := clock;
     w_head_bucket := fun _ => Ok tt;
     w_upload_file := fun _ _ _ => Ok tt;
     w_paginate := ObjectStore.paginate store;
     w_paginate_error := fun _ _ _ => None;
     w_get_object := ObjectStore.get_object store;
     w_register_model := fun _ _ _ => Ok tt;
     w_get_model_version := fun _ name _ => Ok (Some (mkVersion "7" name)) |}.

(** The same world with the upload of one key failing. *)
Definition with_failing_upload (key : string) (e : exn) (w : World) : World :=
  {| w_environ := w_environ w; w_files := w_files w; w_dirs := w_dirs w;
     w_now := w_now w; w_head_bucket := w_head_bucket w;
     w_upload_file := fun f b k => if String.eqb k key then Err e else w_upload_file w f b k;
     w_paginate := w_paginate w; w_paginate_error := w_paginate_error w;
     w_get_object := w_get_object w;
     w_register_model := w_register_model w;
     w_get_model_version := w_get_model_version w |}.

(** The same world with the registry answering differently. *)
Definition with_registry (reg : answer unit)
    (lookup : nat -> answer (option model_version_rec)) (w : World) : World :=
  {| w_environ := w_environ w; w_files := w_files w; w_dirs := w_dirs w;
     w_now := w_now w; w_head_bucket := w_head_bucket w;
     w_upload_file := w_upload_file w;
     w_paginate := w_paginate w; w_paginate_error := w_paginate_error w;
     w_get_object := w_get_object w;
     w_register_model := fun _ _ _ => reg;
     w_get_model_version := fun n _ _ => lookup n |}.

(** The same world with the page request after the pages raising. *)
Definition with_failing_page_request (e : exn) (w : World) : World :=
  {| w_environ := w_environ w; w_files := w_files w; w_dirs := w_dirs w;
     w_now := w_now w; w_head_bucket := w_head_bucket w;
     w_upload_file := w_upload_file w;
     w_paginate := w_paginate w; w_paginate_error := fun _ _ _ => Some e;
     w_get_object := w_get_object w;
     w_register_model := w_register_model w;
     w_get_model_version := w_get_model_version w |}.

End Examples.

(* ===================================================================== *)
(** ** s3_uploader.py: [download_evaluation_results]                      *)
(* ===================================================================== *)

(** The download is embedded with its own record of actions: what it does
    to the local file system and to the store.  It reads no state, so a
    run is its outcome together with the actions in order.  Creating a
    directory succeeds. *)
Module Download.

Inductive action :=
| MkDir (dir : string)                          (* mkdir(parents=True, exist_ok=True) *)
| ListObjects (bucket prefix : string)          (* paginate(Bucket, Prefix) *)
| DownloadFile (bucket key filename : string)   (* s3.download_file *)
| Logged (lvl : level) (text : string) (args : list arg).

(** The store and the local file system as the download sees them: the
    pages a listing yields, each with the keys of its [Contents] when the
    page has that entry; the exception the request for the page after them
    raises, if it raises; the answer to the download of one object; and the
    answer to making a directory with its parents (a directory that is there
    is no error; a file in its place is one). *)
Record Service := mkService {
  list_objects : string -> string -> list (option (list string));
  list_error : string -> string -> option exn;
  download_file : string -> string -> string -> answer unit;
  mkdir : string -> answer unit
}.

Definition W (A : Type) : Type := (outcome A * list action)%type.

Definition wret {A} (a : A) : W A := (Ret a, []).

Definition wbind {A B} (m : W A) (k : A -> W B) : W B :=
  match m with
  | (Ret a, t) => let (o, t') := k a in (o, t ++ t')
  | (Exit n, t) => (Exit n, t)
  | (Raise e, t) => (Raise e, t)
  end.

#[global] Instance W_ret : MRet W := @wret.
#[global] Instance W_bind : MBind W := fun A B k m => wbind m k.

Definition act (a : action) : W unit := (Ret tt, [a]).

Definition call {A} (a : answer A) : W A :=
  match a with
  | Ok x => (Ret x, [])
  | Err e => (Raise e, [])
  end.

Definition wtry {A} (body : W A) (handles : exn -> bool) (handler : exn -> W A) : W A :=
  match body with
  | (Raise e, t) =>
      if handles e then let (o, t') := handler e in (o, t ++ t') else (Raise e, t)
  | r => r
  end.

(** [s3_key[len(s3_prefix):].lstrip('/')] *)
Definition relative_path (s3_prefix s3_key : string) : string :=
  Text.lstrip_char "/" (Text.drop (String.length s3_prefix) s3_key).

(** The body of [for obj in page['Contents']], over the keys still to
    visit; the accumulator is [downloaded_count]. *)
Fixpoint download_keys (svc : Service) (bucket s3_prefix : string)
    (local_dir : Paths.path) (keys : list string) (downloaded_count : nat) : W nat :=
  match keys with
  | [] => mret downloaded_count
  | s3_key :: rest =>
      let relative := relative_path s3_prefix s3_key in
      let local_file := Paths.joinpath local_dir relative in
      act (MkDir (Paths.str (Paths.parent local_file))) ;;
      call (mkdir svc (Paths.str (Paths.parent local_file))) ;;
      count' ← wtry
                 (act (DownloadFile bucket s3_key (Paths.str local_file)) ;;
                  call (download_file svc bucket s3_key (Paths.str local_file)) ;;
                  act (Logged DEBUG "   v {}" [AStr relative]) ;;
                  mret (S downloaded_count))
                 is_ClientError
                 (fun err =>
                    act (Logged ERROR "   x Failed to download {}: {}"
                           [AStr s3_key; AExn err]) ;;
                    mret downloaded_count);
      download_keys svc bucket s3_prefix local_dir rest count'
  end.

(** The body of [for page in pages]: a page without [Contents] is passed
    over. *)
Fixpoint download_pages (svc : Service) (bucket s3_prefix : string)
    (local_dir : Paths.path) (pages : list (option (list string)))
    (downloaded_count : nat) : W nat :=
  match pages with
  | [] => mret downloaded_count
  | None :: rest => download_pages svc bucket s3_prefix local_dir rest downloaded_count
  | Some keys :: rest =>
      count' ← download_keys svc bucket s3_prefix local_dir keys downloaded_count;
      download_pages svc bucket s3_prefix local_dir rest count'
  end.

(** [download_evaluation_results] *)
Definition download_evaluation_results (svc : Service) (self : S3EvaluationStorage.t)
    (s3_prefix : string) (local_dir : Paths.path) : W unit :=
  let bucket := S3EvaluationStorage.bucket_name self in
  act (MkDir (Paths.str local_dir)) ;;
  call (mkdir svc (Paths.str local_dir)) ;;
  act (Logged INFO "Downloading results from S3..." []) ;;
  act (Logged INFO "   S3 prefix: s3://{}/{}" [AStr bucket; AStr s3_prefix]) ;;
  act (Logged INFO "   Local path: {}" [AStr (Paths.str local_dir)]) ;;
  act (ListObjects bucket s3_prefix) ;;
  downloaded_count ← download_pages svc bucket s3_prefix local_dir
                        (list_objects svc bucket s3_prefix) 0;
  match list_error svc bucket s3_prefix with
  | Some e => call (Err e)
  | None => act (Logged INFO "Downloaded {} files" [ANat downloaded_count])
  end.

End Download.

(* ===================================================================== *)
(** ** Vocabulary for whole runs                                          *)
(* ===================================================================== *)

(** The state with further events on its trace. *)
Definition logged (s : State) (events : list event) : State :=
  {| st_environ := st_environ s; st_files := st_files s;
     st_trace := st_trace s ++ events;
     st_clock := st_clock s; st_lookups := st_lookups s |}.

(** The state after one more reading of the clock. *)
Definition ticked (s : State) : State :=
  {| st_environ := st_environ s; st_files := st_files s;
     st_trace := st_trace s;
     st_clock := S (st_clock s); st_lookups := st_lookups s |}.

(** The key the keys of a listing are fetched with. *)
Definition fetched_key (e : event) : option string :=
  match e with GetObject _ key => Some key | _ => None end.

Module UploaderRun.

(** The Uploader is not skipped and its environment is complete; [version]
    is the value in effect after the default, [dir] the string of the path
    made of the workspace path in effect. *)
Definition configured (w : World) (bucket model version dir : string) : Prop :=
  skip_requested (w_environ w) = false /\
  w_environ w !! "S3_BUCKET" = Some bucket /\ Py.nonempty bucket = true /\
  Py.truthy (w_environ w !! "AWS_ACCESS_KEY_ID") = true /\
  Py.truthy (w_environ w !! "AWS_SECRET_ACCESS_KEY") = true /\
  w_environ w !! "MODEL_NAME" = Some model /\ Py.nonempty model = true /\
  default "1.0.0" (w_environ w !! "MODEL_VERSION") = version /\
  Paths.normal
    (default "/workspace/shared-workspace/model" (w_environ w !! "WORKSPACE_PATH")) = dir.

(** What an event of an Uploader run may be: console and log lines, the
    client construction, the bucket check, the write of a file, and the
    upload of a regular file of the model directory, from its local path,
    to the bucket, under its key and with the Uploader's metadata. *)
Definition permitted (dir bucket model version : string) (entries : list dir_entry)
    (ev : event) : Prop :=
  match ev with
  | UploadFile filename b key md =>
      b = bucket /\
      exists en t,
        In en entries /\ e_is_file en = true /\
        filename = Uploader.path_of dir en /\
        key = Uploader.key_of model version en /\
        md = Uploader.metadata model version t
  | Print _ _ | Log _ _ _ | Boto3Client _ | HeadBucket _ | WriteFile _ _ => True
  | _ => False
  end.

(** The values a run works with, read off the environment. *)
Definition bucket_of (w : World) : string := default "" (w_environ w !! "S3_BUCKET").
Definition model_of (w : World) : string := default "" (w_environ w !! "MODEL_NAME").
Definition version_of (w : World) : string :=
  default "1.0.0" (w_environ w !! "MODEL_VERSION").
Definition workspace_path_of (w : World) : string :=
  default "/workspace/shared-workspace/model" (w_environ w !! "WORKSPACE_PATH").
Definition dir_of (w : World) : string := Paths.normal (workspace_path_of w).
Definition entries_of (w : World) : list dir_entry :=
  default [] (w_dirs w !! dir_of w).

End UploaderRun.

Module DownloadRun.

(** The keys of a listing, page after page; a page without [Contents] has
    none. *)
Definition all_keys (pages : list (option (list string))) : list string :=
  concat (map (default []) pages).

(** The local file an object is stored in, and the directory made for it. *)
Definition local_file (s3_prefix : string) (local_dir : Paths.path) (key : string)
    : Paths.path :=
  Paths.joinpath local_dir (Download.relative_path s3_prefix key).

Definition local_name (s3_prefix : string) (local_dir : Paths.path) (key : string)
    : string :=
  Paths.str (local_file s3_prefix local_dir key).

Definition parent_name (s3_prefix : string) (local_dir : Paths.path) (key : string)
    : string :=
  Paths.str (Paths.parent (local_file s3_prefix local_dir key)).

(** The answer of the store to the download of a key. *)
Definition answer_for (svc : Download.Service) (bucket s3_prefix : string)
    (local_dir : Paths.path) (key : string) : answer unit :=
  Download.download_file svc bucket key (local_name s3_prefix local_dir key).

Definition downloads (svc : Download.Service) (bucket s3_prefix : string)
    (local_dir : Paths.path) (key : string) : bool :=
  match answer_for svc bucket s3_prefix local_dir key with
  | Ok _ => true
  | Err _ => false
  end.

(** No download among [keys] raises anything but the client error. *)
Definition only_client_errors (svc : Download.Service) (bucket s3_prefix : string)
    (local_dir : Paths.path) (keys : list string) : Prop :=
  forall key, In key keys ->
    answer_for svc bucket s3_prefix local_dir key = Ok tt \/
    exists code, answer_for svc bucket s3_prefix local_dir key = Err (ClientError code).

(** What the download does for one key whose download is answered or
    refused with the client error. *)
Definition block (svc : Download.Service) (bucket s3_prefix : string)
    (local_dir : Paths.path) (key : string) : list Download.action :=
  [Download.MkDir (parent_name s3_prefix local_dir key);
   Download.DownloadFile bucket key (local_name s3_prefix local_dir key);
   match answer_for svc bucket s3_prefix local_dir key with
   | Ok _ =>
       Download.Logged DEBUG "   v {}" [AStr (Download.relative_path s3_prefix key)]
   | Err e =>
       Download.Logged ERROR "   x Failed to download {}: {}" [AStr key; AExn e]
   end].

(** What the download does before it visits the first key. *)
Definition opening (bucket s3_prefix : string) (local_dir : Paths.path)
    : list Download.action :=
  [Download.MkDir (Paths.str local_dir);
   Download.Logged INFO "Downloading results from S3..." [];
   Download.Logged INFO "   S3 prefix: s3://{}/{}" [AStr bucket; AStr s3_prefix];
   Download.Logged INFO "   Local path: {}" [AStr (Paths.str local_dir)];
   Download.ListObjects bucket s3_prefix].

(** The directories of [keys] can be made, and the target directory
    too. *)
Definition dirs_made (svc : Download.Service) (s3_prefix : string)
    (local_dir : Paths.path) (keys : list string) : Prop :=
  Download.mkdir svc (Paths.str local_dir) = Ok tt /\
  forall key, In key keys ->
    Download.mkdir svc (parent_name s3_prefix local_dir key) = Ok tt.

(** A store for examples: the given pages, all of them answered, downloads
    that succeed but for one key, and directories that can be made. *)
Definition service (pages : list (option (list string))) (bad : string) (e : exn)
    : Download.Service :=
  {| Download.list_objects := fun _ _ => pages;
     Download.list_error := fun _ _ => None;
     Download.download_file := fun _ key _ => if String.eqb key bad then Err e else Ok tt;
     Download.mkdir := fun _ => Ok tt |}.

(** The same store with one directory that cannot be made. *)
Definition with_blocked_dir (dir : string) (e : exn) (svc : Download.Service)
    : Download.Service :=
  {| Download.list_objects := Download.list_objects svc;
     Download.list_error := Download.list_error svc;
     Download.download_file := Download.download_file svc;
     Download.mkdir := fun d => if String.eqb d dir then Err e else Download.mkdir svc d |}.

(** The same store with the page request after the pages raising. *)
Definition with_failing_page (e : exn) (svc : Download.Service) : Download.Service :=
  {| Download.list_objects := Download.list_objects svc;
     Download.list_error := fun _ _ => Some e;
     Download.download_file := Download.download_file svc;
     Download.mkdir := Download.mkdir svc |}.

End DownloadRun.

Module RegistrarRun.

(** The Registrar is not skipped, the namespace file can be read and the
    registry address is set: the run gets to construct its client. *)
Definition configured (w : World) : Prop :=
  skip_requested (w_environ w) = false /\
  (exists namespace_text, w_files w !! Registrar.namespace_file_path = Some namespace_text) /\
  Py.truthy (w_environ w !! "MODEL_REGISTRY_URL") = true.

(** The state in which the model information is read: the token path is in
    the environment and the client has been constructed. *)
Definition connected (w : World) : State :=
  let server_address := default "" (w_environ w !! "MODEL_REGISTRY_URL") in
  {| st_environ := <["KF_PIPELINES_SA_TOKEN_PATH" := Registrar.token_path]> (w_environ w);
     st_files := w_files w;
     st_trace := [Print banner [];
                  Print "Server address: {}" [AStr server_address];
                  Print "Token path set in environment" [];
                  RegistryClient server_address 443 "modelcar-pipeline" false];
     st_clock := 0; st_lookups := 0 |}.

(** The values a run works with, read off the environment. *)
Definition cluster_domain_of (w : World) : string :=
  default "cluster.local" (w_environ w !! "CLUSTER_DOMAIN").
Definition version_of (w : World) : option string := w_environ w !! "MODEL_VERSION".
Definition huggingface_model_of (w : World) : string :=
  default "unknown" (w_environ w !! "HUGGINGFACE_MODEL").

Definition is_lookup (e : event) : bool :=
  match e with GetModelVersion _ _ => true | _ => false end.


(** A lookup that yields no identifier: it finds nothing, so that the
    read of [.id] raises the attribute error, or it raises something else
    than the store error. *)
Definition lookup_fails (w : World) (model_name : string)
    (model_version : option string) (n : nat) (e : exn) : Prop :=
  (w_get_model_version w n model_name model_version = Ok None /\ e = AttributeError) \/
  (w_get_model_version w n model_name model_version = Err e /\ is_StoreError e = false).

End RegistrarRun.

(* ********************************************************************* *)
(** * Properties                                                          *)
(* ********************************************************************* *)

Ltac munfold :=
  unfold run, mbind, M_bind, mret, M_ret, bind, ret, print, log, emit, getenv,
    setenv, sys_exit, raise, initial in *.

Ltac mstate := cbn [st_environ st_files st_trace st_clock st_lookups fst snd] in *.

(* ===================================================================== *)
(** ** The skip check                                                     *)
(* ===================================================================== *)

Lemma skip_requested_elem (environ : gmap string string) (t : string) :
  environ !! "SKIP_TASK" = Some t ->
  t ∈ Py.split "," (default "" (environ !! "SKIP_TASKS")) ->
  skip_requested environ = true.
Proof.
  intros Ht Hin. unfold skip_requested. rewrite Ht. simpl.
  apply bool_decide_eq_true. exact Hin.
Qed.

Lemma skip_requested_unset (environ : gmap string string) :
  environ !! "SKIP_TASK" = None -> skip_requested environ = false.
Proof. intros H. unfold skip_requested. rewrite H. reflexivity. Qed.

Lemma uploader_skipped (w : World) :
  skip_requested (w_environ w) = true ->
  run Uploader.main w =
    (Exit 0,
     {| st_environ := w_environ w; st_files := w_files w;
        st_trace := [Print banner []; Print "Skipping upload-model-to-s3 task" []];
        st_clock := 0; st_lookups := 0 |}).
Proof.
  intros H. unfold Uploader.main. munfold. mstate.
  unfold skip_requested in H. rewrite H. reflexivity.
Qed.

Lemma registrar_skipped (w : World) :
  skip_requested (w_environ w) = true ->
  run Registrar.main w =
    (Exit 0,
     {| st_environ := w_environ w; st_files := w_files w;
        st_trace := [Print banner []; Print "Skipping register-with-registry task" []];
        st_clock := 0; st_lookups := 0 |}).
Proof.
  intros H. unfold Registrar.main. munfold. mstate.
  unfold skip_requested in H. rewrite H. reflexivity.
Qed.

Lemma uploader_not_skipped (w : World) :
  skip_requested (w_environ w) = false ->
  run Uploader.main w = Uploader.task w (after_banner w).
Proof.
  intros H. unfold Uploader.main. munfold. mstate.
  unfold skip_requested in H. rewrite H. reflexivity.
Qed.

Lemma registrar_not_skipped (w : World) :
  skip_requested (w_environ w) = false ->
  run Registrar.main w = Registrar.task w (after_banner w).
Proof.
  intros H. unfold Registrar.main. munfold. mstate.
  unfold skip_requested in H. rewrite H. reflexivity.
Qed.

(** C9.  In every environment in which the value of SKIP_TASK is an
    element of the comma-split value of SKIP_TASKS, the Model Uploader and
    the Registry Registrar both exit 0 right after the banner and the skip
    notice: the trace holds these two lines only (so no client, no network
    call, no file write), and the files and the environment are as they
    were. *)
Theorem skip_listed_task_exits_quietly (w : World) (t : string) :
  w_environ w !! "SKIP_TASK" = Some t ->
  t ∈ Py.split "," (default "" (w_environ w !! "SKIP_TASKS")) ->
  (fst (run Uploader.main w) = Exit 0 /\
   st_trace (snd (run Uploader.main w)) =
     [Print banner []; Print "Skipping upload-model-to-s3 task" []] /\
   offline (st_trace (snd (run Uploader.main w))) = true /\
   writes_nothing (st_trace (snd (run Uploader.main w))) = true /\
   st_files (snd (run Uploader.main w)) = w_files w) /\
  (fst (run Registrar.main w) = Exit 0 /\
   st_trace (snd (run Registrar.main w)) =
     [Print banner []; Print "Skipping register-with-registry task" []] /\
   offline (st_trace (snd (run Registrar.main w))) = true /\
   writes_nothing (st_trace (snd (run Registrar.main w))) = true /\
   st_files (snd (run Registrar.main w)) = w_files w).
Proof.
  intros Ht Hin.
  pose proof (skip_requested_elem _ _ Ht Hin) as Hskip.
  rewrite (uploader_skipped w Hskip), (registrar_skipped w Hskip).
  repeat split.
Qed.

Lemma skip_listed_task_exits_quietly_witness :
  let w := Examples.world
             [("SKIP_TASK", "upload"); ("SKIP_TASKS", "download,upload,register")]
             ∅ [] in
  fst (run Uploader.main w) = Exit 0 /\ fst (run Registrar.main w) = Exit 0.
Proof.
  intros w.
  destruct (skip_listed_task_exits_quietly w "upload") as [[Hu _] [Hr _]].
  - vm_compute. reflexivity.
  - apply (bool_decide_unpack _). vm_compute. exact I.
  - split; assumption.
Defined.

(** C10.  With SKIP_TASK set to the empty string and SKIP_TASKS unset or
    empty, the comma-split of the skip list is the one-element list holding
    the empty string, so the Uploader and the Registrar both take the skip
    branch and exit 0.  With SKIP_TASK unset the skip check is false whatever
    SKIP_TASKS holds, and both scripts go on with their task proper. *)
Theorem empty_skip_task_skips_and_unset_never_does (w : World) :
  (w_environ w !! "SKIP_TASK" = Some "" ->
   w_environ w !! "SKIP_TASKS" = None \/ w_environ w !! "SKIP_TASKS" = Some "" ->
   Py.split "," (default "" (w_environ w !! "SKIP_TASKS")) = [""] /\
   skip_requested (w_environ w) = true /\
   fst (run Uploader.main w) = Exit 0 /\
   st_trace (snd (run Uploader.main w)) =
     [Print banner []; Print "Skipping upload-model-to-s3 task" []] /\
   fst (run Registrar.main w) = Exit 0 /\
   st_trace (snd (run Registrar.main w)) =
     [Print banner []; Print "Skipping register-with-registry task" []]) /\
  (w_environ w !! "SKIP_TASK" = None ->
   skip_requested (w_environ w) = false /\
   run Uploader.main w = Uploader.task w (after_banner w) /\
   run Registrar.main w = Registrar.task w (after_banner w)).
Proof.
  split.
  - intros Ht Hts.
    assert (Hsplit : Py.split "," (default "" (w_environ w !! "SKIP_TASKS")) = [""])
      by (destruct Hts as [-> | ->]; reflexivity).
    assert (Hskip : skip_requested (w_environ w) = true).
    { apply (skip_requested_elem _ "" Ht). rewrite Hsplit. apply list_elem_of_here. }
    rewrite (uploader_skipped w Hskip), (registrar_skipped w Hskip).
    repeat split; assumption.
  - intros Ht. pose proof (skip_requested_unset _ Ht) as Hskip.
    split; [assumption|].
    split; [apply uploader_not_skipped | apply registrar_not_skipped]; assumption.
Qed.

Lemma empty_skip_task_skips_and_unset_never_does_witness :
  (let w := Examples.world [("SKIP_TASK", "")] ∅ [] in
   fst (run Uploader.main w) = Exit 0 /\ fst (run Registrar.main w) = Exit 0) /\
  (let w := Examples.world [("SKIP_TASKS", "upload,,register")] ∅ [] in
   skip_requested (w_environ w) = false).
Proof.
  split; intros w.
  - destruct (empty_skip_task_skips_and_unset_never_does w) as [H _].
    destruct H as (_ & _ & Hu & _ & Hr & _).
    + vm_compute. reflexivity.
    + left. vm_compute. reflexivity.
    + split; assumption.
  - destruct (empty_skip_task_skips_and_unset_never_does w) as [_ H].
    destruct H as (H & _).
    + vm_compute. reflexivity.
    + exact H.
Defined.

(* ===================================================================== *)
(** ** The configuration checks                                           *)
(* ===================================================================== *)

Lemma all_truthy_false (b a s m : option string) :
  b = None \/ a = None \/ s = None \/ m = None ->
  Py.all [Py.truthy b; Py.truthy a; Py.truthy s; Py.truthy m] = false.
Proof.
  unfold Py.all.
  intros [-> | [-> | [-> | ->]]]; simpl;
    repeat match goal with
           | |- context [Py.truthy ?x] => destruct (Py.truthy x); simpl
           end; reflexivity.
Qed.

Lemma uploader_task_unconfigured (w : World) (s : State) :
  Py.all [Py.truthy (st_environ s !! "S3_BUCKET");
          Py.truthy (st_environ s !! "AWS_ACCESS_KEY_ID");
          Py.truthy (st_environ s !! "AWS_SECRET_ACCESS_KEY");
          Py.truthy (st_environ s !! "MODEL_NAME")] = false ->
  Uploader.task w s =
    (Exit 1,
     {| st_environ := st_environ s; st_files := st_files s;
        st_trace :=
          (st_trace s ++ [Log ERROR "Missing required environment variables" []])
          ++ [Log ERROR "Required: S3_BUCKET, AWS_ACCESS_KEY_ID, AWS_SECRET_ACCESS_KEY, MODEL_NAME" []];
        st_clock := st_clock s; st_lookups := st_lookups s |}).
Proof.
  intros H. unfold Uploader.task. munfold. mstate. rewrite H. reflexivity.
Qed.

Lemma registrar_task_unconfigured (w : World) (s : State) :
  Py.truthy (st_environ s !! "MODEL_REGISTRY_URL") = false ->
  exit_code (fst (Registrar.task w s)) = 1 /\
  st_files (snd (Registrar.task w s)) = st_files s /\
  (st_trace (snd (Registrar.task w s)) = st_trace s \/
   st_trace (snd (Registrar.task w s)) =
     st_trace s ++ [Print "Error: MODEL_REGISTRY_URL environment variable not set" []]).
Proof.
  intros H. unfold Registrar.task, read_file. munfold. mstate.
  destruct (st_files s !! Registrar.namespace_file_path).
  - rewrite H. simpl. repeat split. right; reflexivity.
  - simpl. repeat split. left; reflexivity.
Qed.

(** C8.  If one of the Uploader's required variables (S3_BUCKET,
    AWS_ACCESS_KEY_ID, AWS_SECRET_ACCESS_KEY, MODEL_NAME) is absent, the
    Uploader constructs no client and makes no call to the store, and, the
    task not being skipped, exits 1; if MODEL_REGISTRY_URL is absent, the
    Registrar constructs no client and makes no call to the registry, and,
    the task not being skipped, exits 1.  Neither writes a file. *)
Theorem missing_configuration_is_fatal (w : World) :
  (w_environ w !! "S3_BUCKET" = None \/
   w_environ w !! "AWS_ACCESS_KEY_ID" = None \/
   w_environ w !! "AWS_SECRET_ACCESS_KEY" = None \/
   w_environ w !! "MODEL_NAME" = None ->
   (skip_requested (w_environ w) = false ->
    exit_code (fst (run Uploader.main w)) = 1) /\
   offline (st_trace (snd (run Uploader.main w))) = true /\
   st_files (snd (run Uploader.main w)) = w_files w) /\
  (w_environ w !! "MODEL_REGISTRY_URL" = None ->
   (skip_requested (w_environ w) = false ->
    exit_code (fst (run Registrar.main w)) = 1) /\
   offline (st_trace (snd (run Registrar.main w))) = true /\
   st_files (snd (run Registrar.main w)) = w_files w).
Proof.
  split.
  - intros Hmissing. destruct (skip_requested (w_environ w)) eqn:Hskip.
    + rewrite (uploader_skipped w Hskip).
      split; [discriminate|]. split; reflexivity.
    + rewrite (uploader_not_skipped w Hskip).
      rewrite uploader_task_unconfigured
        by (apply all_truthy_false; exact Hmissing).
      repeat split.
  - intros Hmissing. destruct (skip_requested (w_environ w)) eqn:Hskip.
    + rewrite (registrar_skipped w Hskip).
      split; [discriminate|]. split; reflexivity.
    + rewrite (registrar_not_skipped w Hskip).
      assert (Hfalse : Py.truthy (st_environ (after_banner w) !! "MODEL_REGISTRY_URL")
                       = false)
        by (simpl; rewrite Hmissing; reflexivity).
      destruct (registrar_task_unconfigured w _ Hfalse) as (Hcode & Hfiles & Htrace).
      split; [intros _; exact Hcode|]. split.
      * destruct Htrace as [-> | ->]; reflexivity.
      * exact Hfiles.
Qed.

Lemma missing_configuration_is_fatal_witness :
  (let w := Examples.world [("S3_BUCKET", "models"); ("MODEL_NAME", "m")] ∅ [] in
   exit_code (fst (run Uploader.main w)) = 1 /\
   offline (st_trace (snd (run Uploader.main w))) = true) /\
  (let w := Examples.world [("MODEL_NAME", "m")] Examples.files [] in
   exit_code (fst (run Registrar.main w)) = 1 /\
   offline (st_trace (snd (run Registrar.main w))) = true).
Proof.
  split; intros w.
  - destruct (missing_configuration_is_fatal w) as [H _].
    destruct H as (Hcode & Hoff & _).
    + right. left. vm_compute. reflexivity.
    + split; [apply Hcode; vm_compute; reflexivity | exact Hoff].
  - destruct (missing_configuration_is_fatal w) as [_ H].
    destruct H as (Hcode & Hoff & _).
    + vm_compute. reflexivity.
    + split; [apply Hcode; vm_compute; reflexivity | exact Hoff].
Defined.

(** The skip check comes first: a skipped task exits 0 also when its
    configuration is missing, and equally constructs no client. *)
Lemma skipped_task_ignores_missing_configuration :
  let w := Examples.world [("SKIP_TASK", "upload"); ("SKIP_TASKS", "upload")] ∅ [] in
  w_environ w !! "S3_BUCKET" = None /\
  exit_code (fst (run Uploader.main w)) = 0 /\
  offline (st_trace (snd (run Uploader.main w))) = true.
Proof. vm_compute. repeat split. Qed.

(* ===================================================================== *)
(** ** The trace                                                          *)
(* ===================================================================== *)

Lemma attempted_keys_app (t1 t2 : list event) :
  attempted_keys (t1 ++ t2) = attempted_keys t1 ++ attempted_keys t2.
Proof. unfold attempted_keys. apply omap_app. Qed.

Lemma writes_nothing_app (t1 t2 : list event) :
  writes_nothing (t1 ++ t2) = writes_nothing t1 && writes_nothing t2.
Proof. unfold writes_nothing. apply forallb_app. Qed.

Lemma grown_by_refl (s : State) : grown_by [] s s.
Proof.
  repeat split. exists []. rewrite app_nil_r. repeat split.
Qed.

Lemma grown_by_trans (k1 k2 : list string) (s1 s2 s3 : State) :
  grown_by k1 s1 s2 -> grown_by k2 s2 s3 -> grown_by (k1 ++ k2) s1 s3.
Proof.
  intros (He1 & Hf1 & a1 & Ht1 & Hk1 & Hw1) (He2 & Hf2 & a2 & Ht2 & Hk2 & Hw2).
  repeat split; [congruence | congruence |].
  exists (a1 ++ a2). repeat split.
  - rewrite Ht2, Ht1, app_assoc. reflexivity.
  - rewrite attempted_keys_app, Hk1, Hk2. reflexivity.
  - rewrite writes_nothing_app, Hw1, Hw2. reflexivity.
Qed.

(* ===================================================================== *)
(** ** The Uploader's loop                                                *)
(* ===================================================================== *)

Section UploaderLoop.

Variable w : World.
Variables model_dir bucket model version : string.

Let loop := Uploader.upload_loop w model_dir bucket model version.
Let key := Uploader.key_of model version.
Let path := Uploader.path_of model_dir.

Lemma uploader_step_skip (e : dir_entry) (rest : list dir_entry)
    (acc : nat * nat) (s : State) :
  e_is_file e = false ->
  loop (e :: rest) acc s = loop rest acc s.
Proof. intros H. unfold loop. simpl. rewrite H. reflexivity. Qed.

Lemma uploader_step_ok (e : dir_entry) (rest : list dir_entry)
    (acc : nat * nat) (s : State) :
  e_is_file e = true ->
  w_upload_file w (path e) bucket (key e) = Ok tt ->
  exists s1,
    loop (e :: rest) acc s = loop rest (S (fst acc), snd acc + e_size e) s1 /\
    grown_by [key e] s s1.
Proof.
  intros Hfile Hok. unfold loop. simpl. rewrite Hfile.
  unfold try_except, now. munfold. mstate.
  fold path key. rewrite Hok. simpl.
  eexists. split; [reflexivity|].
  repeat split. mstate.
  eexists. split; [rewrite <- app_assoc; reflexivity|].
  split; reflexivity.
Qed.

Lemma uploader_step_client_error (e : dir_entry) (rest : list dir_entry)
    (acc : nat * nat) (s : State) (code : string) :
  e_is_file e = true ->
  w_upload_file w (path e) bucket (key e) = Err (ClientError code) ->
  exists s1,
    loop (e :: rest) acc s = (Exit 1, s1) /\
    grown_by [key e] s s1.
Proof.
  intros Hfile Herr. unfold loop. simpl. rewrite Hfile.
  unfold try_except, now. munfold. mstate.
  fold path key. rewrite Herr. simpl.
  eexists. split; [reflexivity|].
  repeat split. mstate.
  eexists. split; [rewrite <- app_assoc; reflexivity|].
  split; reflexivity.
Qed.

Let all_uploads_succeed := Uploader.all_uploads_succeed w bucket model version model_dir.

Lemma uploader_loop_all_ok (entries : list dir_entry) :
  all_uploads_succeed entries ->
  forall acc s,
  exists s',
    loop entries acc s =
      (Ret (fst acc + length (regular_files entries),
            snd acc + total_bytes entries), s') /\
    grown_by (map key (regular_files entries)) s s'.
Proof.
  induction entries as [|e rest IH]; intros Hall acc s.
  - exists s. unfold total_bytes. simpl. rewrite !Nat.add_0_r.
    destruct acc. split; [reflexivity | apply grown_by_refl].
  - assert (Hrest : all_uploads_succeed rest)
      by (intros e' Hin; apply Hall; right; exact Hin).
    destruct (e_is_file e) eqn:Hfile.
    + destruct (uploader_step_ok e rest acc s Hfile) as (s1 & Hstep & Hg1).
      { apply Hall; [left; reflexivity | exact Hfile]. }
      destruct (IH Hrest (S (fst acc), snd acc + e_size e) s1) as (s' & Hloop & Hg).
      exists s'. rewrite Hstep, Hloop.
      unfold regular_files, total_bytes in *. simpl. rewrite Hfile. simpl.
      split.
      * do 3 f_equal; lia.
      * apply (grown_by_trans [key e] _ s s1 s'); assumption.
    + rewrite (uploader_step_skip e rest acc s Hfile).
      destruct (IH Hrest acc s) as (s' & Hloop & Hg).
      exists s'. rewrite Hloop.
      unfold regular_files, total_bytes in *. simpl. rewrite Hfile.
      split; [reflexivity | exact Hg].
Qed.

(** The first failing file ends the loop: nothing after it is attempted. *)
Lemma uploader_loop_first_failure (pre post : list dir_entry) (f : dir_entry)
    (code : string) :
  all_uploads_succeed pre ->
  e_is_file f = true ->
  w_upload_file w (path f) bucket (key f) = Err (ClientError code) ->
  forall acc s,
  exists s',
    loop (pre ++ f :: post) acc s = (Exit 1, s') /\
    grown_by (map key (regular_files pre) ++ [key f]) s s'.
Proof.
  intros Hpre Hfile Herr.
  induction pre as [|e rest IH]; intros acc s.
  - simpl. destruct (uploader_step_client_error f post acc s code Hfile Herr)
      as (s1 & Hstep & Hg).
    exists s1. split; assumption.
  - assert (Hrest : all_uploads_succeed rest)
      by (intros e' Hin; apply Hpre; right; exact Hin).
    simpl app. destruct (e_is_file e) eqn:He.
    + destruct (uploader_step_ok e (rest ++ f :: post) acc s He) as (s1 & Hstep & Hg1).
      { apply Hpre; [left; reflexivity | exact He]. }
      destruct (IH Hrest (S (fst acc), snd acc + e_size e) s1) as (s' & Hloop & Hg).
      exists s'. rewrite Hstep, Hloop. split; [reflexivity|].
      unfold regular_files in *. simpl. rewrite ?He. simpl.
      apply (grown_by_trans [key e] _ s s1 s'); assumption.
    + rewrite (uploader_step_skip e (rest ++ f :: post) acc s He).
      destruct (IH Hrest acc s) as (s' & Hloop & Hg).
      exists s'. rewrite Hloop. split; [reflexivity|].
      unfold regular_files in *. simpl. rewrite ?He. exact Hg.
Qed.

End UploaderLoop.

(* ===================================================================== *)
(** ** The Uploader as a whole                                            *)
(* ===================================================================== *)

Lemma uploader_finish (bucket model version : string) (acc : nat * nat) (s : State) :
  exists tail,
    Uploader.finish bucket model version acc s =
      (Ret tt,
       {| st_environ := st_environ s;
          st_files := <[Uploader.uri_file := Uploader.s3_uri bucket model version]> (st_files s);
          st_trace :=
            st_trace s ++
            Log INFO "Uploaded {} files ({:,} bytes)" [ANat (fst acc); AGrouped (snd acc)]
            :: tail;
          st_clock := st_clock s; st_lookups := st_lookups s |}) /\
    attempted_keys tail = [].
Proof.
  unfold Uploader.finish, write_file. munfold. mstate.
  eexists. split.
  - rewrite <- !app_assoc. simpl. reflexivity.
  - reflexivity.
Qed.

Lemma uploader_reaches_loop (w : World) (bucket model version dir : string)
    (entries : list dir_entry) :
  Uploader.reaches_loop w bucket model version dir entries ->
  exists s0,
    run Uploader.main w =
      (acc ← Uploader.upload_loop w dir bucket model version entries (0, 0);
       Uploader.finish bucket model version acc) s0 /\
    st_environ s0 = w_environ w /\
    st_files s0 = w_files w /\
    attempted_keys (st_trace s0) = [] /\
    writes_nothing (st_trace s0) = true.
Proof.
  intros (Hskip & Hb & Hbne & Hak & Hsk & Hm & Hmne & Hver & Hdir & Hhead & Hentries).
  rewrite (uploader_not_skipped w Hskip).
  unfold Uploader.task, after_banner. munfold. mstate.
  rewrite Hb, Hm, Hak, Hsk, Hver.
  change (Py.truthy (Some bucket)) with (Py.nonempty bucket).
  change (Py.truthy (Some model)) with (Py.nonempty model).
  rewrite Hbne, Hmne.
  cbn [Py.all forallb id negb andb from_option].
  unfold Uploader.upload, Uploader.connect, try_except. munfold. mstate.
  rewrite Hhead. cbn [of_answer]. unfold ret. mstate.
  rewrite Hdir, Hentries. mstate.
  eexists. split; [reflexivity|].
  mstate. repeat split.
Qed.

(* ===================================================================== *)
(** ** The Evaluation Storage Utility's upload                            *)
(* ===================================================================== *)

Section EvaluationLoop.

Variable w : World.
Variable self : S3EvaluationStorage.t.
Variables results_dir model version evaluation_id : string.

Let loop := S3EvaluationStorage.upload_loop w self results_dir model version evaluation_id.
Let key := S3EvaluationStorage.key_of model version evaluation_id.
Let path := S3EvaluationStorage.path_of results_dir.
Let succeeds :=
  S3EvaluationStorage.upload_succeeds w self results_dir model version evaluation_id.
Let uploaded :=
  S3EvaluationStorage.uploaded w self results_dir model version evaluation_id.
Let only_client_errors :=
  S3EvaluationStorage.only_client_errors w self results_dir model version evaluation_id.

Lemma evaluation_step_skip (e : dir_entry) (rest : list dir_entry)
    (acc : nat * nat) (s : State) :
  e_is_file e = false ->
  loop (e :: rest) acc s = loop rest acc s.
Proof. intros H. unfold loop. simpl. rewrite H. reflexivity. Qed.

Lemma evaluation_step_ok (e : dir_entry) (rest : list dir_entry)
    (acc : nat * nat) (s : State) :
  e_is_file e = true ->
  w_upload_file w (path e) (S3EvaluationStorage.bucket_name self) (key e) = Ok tt ->
  exists s1,
    loop (e :: rest) acc s = loop rest (S (fst acc), snd acc + e_size e) s1 /\
    grown_by [key e] s s1.
Proof.
  intros Hfile Hok. unfold loop. simpl. rewrite Hfile.
  unfold try_except, now. munfold. mstate.
  fold path key. rewrite Hok. simpl.
  eexists. split; [reflexivity|].
  repeat split. mstate.
  eexists. split; [rewrite <- app_assoc; reflexivity|].
  split; reflexivity.
Qed.

(** A client error is logged and the loop goes on, the counters as they
    were. *)
Lemma evaluation_step_client_error (e : dir_entry) (rest : list dir_entry)
    (acc : nat * nat) (s : State) (code : string) :
  e_is_file e = true ->
  w_upload_file w (path e) (S3EvaluationStorage.bucket_name self) (key e)
    = Err (ClientError code) ->
  exists s1,
    loop (e :: rest) acc s = loop rest acc s1 /\
    grown_by [key e] s s1.
Proof.
  intros Hfile Herr. unfold loop. simpl. rewrite Hfile.
  unfold try_except, now. munfold. mstate.
  fold path key. rewrite Herr. simpl.
  eexists. split; [reflexivity|].
  repeat split. mstate.
  eexists. split; [rewrite <- app_assoc; reflexivity|].
  split; reflexivity.
Qed.

Lemma evaluation_loop_tolerant (entries : list dir_entry) :
  only_client_errors entries ->
  forall acc s,
  exists s',
    loop entries acc s =
      (Ret (fst acc + length (uploaded entries),
            snd acc + list_sum (map e_size (uploaded entries))), s') /\
    grown_by (map key (regular_files entries)) s s'.
Proof.
  induction entries as [|e rest IH]; intros Hall acc s.
  - exists s. simpl. rewrite !Nat.add_0_r.
    destruct acc. split; [reflexivity | apply grown_by_refl].
  - assert (Hrest : only_client_errors rest)
      by (intros e' Hin; apply Hall; right; exact Hin).
    unfold uploaded, S3EvaluationStorage.uploaded, regular_files in *.
    cbn [List.filter].
    destruct (e_is_file e) eqn:Hfile.
    + destruct (Hall e (or_introl eq_refl) Hfile) as [Hok | [code Herr]].
      * destruct (evaluation_step_ok e rest acc s Hfile Hok) as (s1 & Hstep & Hg1).
        destruct (IH Hrest (S (fst acc), snd acc + e_size e) s1) as (s' & Hloop & Hg).
        exists s'. rewrite Hstep, Hloop.
        assert (Hs : S3EvaluationStorage.upload_succeeds w self results_dir model
                       version evaluation_id e = true)
          by (unfold S3EvaluationStorage.upload_succeeds; unfold path, key in Hok;
              rewrite Hok; reflexivity).
        rewrite Hs. simpl. split.
        -- do 3 f_equal; lia.
        -- apply (grown_by_trans [key e] _ s s1 s'); assumption.
      * destruct (evaluation_step_client_error e rest acc s code Hfile Herr)
          as (s1 & Hstep & Hg1).
        destruct (IH Hrest acc s1) as (s' & Hloop & Hg).
        exists s'. rewrite Hstep, Hloop.
        assert (Hs : S3EvaluationStorage.upload_succeeds w self results_dir model
                       version evaluation_id e = false)
          by (unfold S3EvaluationStorage.upload_succeeds; unfold path, key in Herr;
              rewrite Herr; reflexivity).
        rewrite Hs. simpl. split; [reflexivity|].
        apply (grown_by_trans [key e] _ s s1 s'); assumption.
    + rewrite (evaluation_step_skip e rest acc s Hfile).
      destruct (IH Hrest acc s) as (s' & Hloop & Hg).
      exists s'. rewrite Hloop. simpl. split; [reflexivity | exact Hg].
Qed.

End EvaluationLoop.

Lemma evaluation_upload_returns (w : World) (self : S3EvaluationStorage.t)
    (results_dir model version : string) (evaluation_id : option string)
    (entries : list dir_entry) (s : State) :
  let id := S3EvaluationStorage.effective_id model version evaluation_id
              (w_now w (st_clock s)) in
  w_dirs w !! results_dir = Some entries ->
  S3EvaluationStorage.only_client_errors w self results_dir model version id entries ->
  exists s',
    S3EvaluationStorage.upload_evaluation_results w self results_dir model version
      evaluation_id s
    = (Ret (S3EvaluationStorage.s3_prefix model version id), s') /\
    st_files s' = st_files s /\
    attempted_keys (st_trace s') =
      attempted_keys (st_trace s) ++
      map (S3EvaluationStorage.key_of model version id) (regular_files entries) /\
    In (Log INFO "Uploaded {} files ({:,} bytes)"
          [ANat (length (S3EvaluationStorage.uploaded w self results_dir model
                           version id entries));
           AGrouped (list_sum (map e_size
                       (S3EvaluationStorage.uploaded w self results_dir model
                          version id entries)))])
       (st_trace s').
Proof.
  intros id Hdir Honly.
  unfold S3EvaluationStorage.upload_evaluation_results. rewrite Hdir.
  unfold S3EvaluationStorage.effective_id in id.
  unfold now. munfold. mstate.
  destruct (negb (Py.truthy evaluation_id)); mstate; fold id;
    match goal with
    | |- context [S3EvaluationStorage.upload_loop _ _ _ _ _ _ _ ?acc ?s0] =>
        destruct (evaluation_loop_tolerant w self results_dir model version id
                    entries Honly acc s0)
          as (s1 & Hloop & He & Hf & added & Ht & Hk & Hw)
    end;
    rewrite Hloop; mstate; rewrite Ht in *; mstate;
    (eexists; split; [reflexivity|]; mstate;
     split; [exact Hf|]; split;
     [ rewrite !attempted_keys_app, Hk; simpl; rewrite !app_nil_r; reflexivity
     | rewrite !in_app_iff; left; right; left; reflexivity ]).
Qed.

Lemma evaluation_uploaded_all (w : World) (self : S3EvaluationStorage.t)
    (results_dir model version id : string) (entries : list dir_entry) :
  S3EvaluationStorage.all_uploads_succeed w self results_dir model version id entries ->
  S3EvaluationStorage.uploaded w self results_dir model version id entries
  = regular_files entries.
Proof.
  intros Hall. unfold S3EvaluationStorage.uploaded, regular_files.
  induction entries as [|e rest IH]; [reflexivity|].
  assert (Hrest : S3EvaluationStorage.all_uploads_succeed w self results_dir model
                    version id rest)
    by (intros e' Hin; apply Hall; right; exact Hin).
  simpl. destruct (e_is_file e) eqn:Hfile; simpl.
  - rewrite (IH Hrest). unfold S3EvaluationStorage.upload_succeeds.
    rewrite (Hall e (or_introl eq_refl) Hfile). reflexivity.
  - apply IH, Hrest.
Qed.

Lemma evaluation_uploaded_one_failure (w : World) (self : S3EvaluationStorage.t)
    (results_dir model version id : string) (pre post : list dir_entry)
    (f : dir_entry) (code : string) :
  S3EvaluationStorage.all_uploads_succeed w self results_dir model version id pre ->
  S3EvaluationStorage.all_uploads_succeed w self results_dir model version id post ->
  w_upload_file w (S3EvaluationStorage.path_of results_dir f)
    (S3EvaluationStorage.bucket_name self)
    (S3EvaluationStorage.key_of model version id f) = Err (ClientError code) ->
  S3EvaluationStorage.uploaded w self results_dir model version id (pre ++ f :: post)
  = regular_files pre ++ regular_files post.
Proof.
  intros Hpre Hpost Herr.
  rewrite <- (evaluation_uploaded_all w self results_dir model version id pre Hpre).
  rewrite <- (evaluation_uploaded_all w self results_dir model version id post Hpost).
  unfold S3EvaluationStorage.uploaded. rewrite List.filter_app. f_equal.
  simpl. unfold S3EvaluationStorage.upload_succeeds at 1. rewrite Herr.
  rewrite andb_false_r. reflexivity.
Qed.

Lemma only_client_errors_one_failure (w : World) (self : S3EvaluationStorage.t)
    (results_dir model version id : string) (pre post : list dir_entry)
    (f : dir_entry) (code : string) :
  S3EvaluationStorage.all_uploads_succeed w self results_dir model version id pre ->
  S3EvaluationStorage.all_uploads_succeed w self results_dir model version id post ->
  w_upload_file w (S3EvaluationStorage.path_of results_dir f)
    (S3EvaluationStorage.bucket_name self)
    (S3EvaluationStorage.key_of model version id f) = Err (ClientError code) ->
  S3EvaluationStorage.only_client_errors w self results_dir model version id
    (pre ++ f :: post).
Proof.
  intros Hpre Hpost Herr e Hin Hfile.
  apply in_app_or in Hin. destruct Hin as [Hin | [<- | Hin]].
  - left. apply Hpre; assumption.
  - right. exists code. exact Herr.
  - left. apply Hpost; assumption.
Qed.

Lemma total_bytes_app (l1 l2 : list dir_entry) :
  list_sum (map e_size (regular_files l1 ++ regular_files l2))
  = total_bytes l1 + total_bytes l2.
Proof. unfold total_bytes. rewrite map_app, list_sum_app. reflexivity. Qed.

(** C5.  When the run gets to the upload loop over a model directory whose
    regular files are N in number and B bytes in total, and every upload
    succeeds, the Model Uploader ends normally (exit 0) having attempted
    exactly the N keys of those files, one upload each; it reports N files
    and B bytes, and the locator file holds
    s3://{bucket}/model-data/{model}/{version}. *)
Theorem uploader_uploads_every_file (w : World) (bucket model version dir : string)
    (entries : list dir_entry) :
  Uploader.reaches_loop w bucket model version dir entries ->
  Uploader.all_uploads_succeed w bucket model version dir entries ->
  fst (run Uploader.main w) = Ret tt /\
  attempted_keys (st_trace (snd (run Uploader.main w))) =
    map (Uploader.key_of model version) (regular_files entries) /\
  length (attempted_keys (st_trace (snd (run Uploader.main w)))) =
    length (regular_files entries) /\
  In (Log INFO "Uploaded {} files ({:,} bytes)"
        [ANat (length (regular_files entries)); AGrouped (total_bytes entries)])
     (st_trace (snd (run Uploader.main w))) /\
  st_files (snd (run Uploader.main w)) =
    <[Uploader.uri_file :=
        "s3://" +:+ bucket +:+ "/model-data/" +:+ model +:+ "/" +:+ version]>
      (w_files w).
Proof.
  intros Hreach Hall.
  destruct (uploader_reaches_loop w bucket model version dir entries Hreach)
    as (s0 & Hrun & _ & Hf0 & Hk0 & _).
  destruct (uploader_loop_all_ok w dir bucket model version entries Hall (0, 0) s0)
    as (s1 & Hloop & _ & Hf1 & added & Ht1 & Hk1 & _).
  cbn [fst snd Nat.add] in Hloop.
  rewrite Hrun. munfold. rewrite Hloop.
  destruct (uploader_finish bucket model version
              (length (regular_files entries), total_bytes entries) s1)
    as (tail & Hfin & Htail).
  mstate. rewrite Hfin. mstate.
  assert (Hkeys :
    attempted_keys
      (st_trace s1 ++
       Log INFO "Uploaded {} files ({:,} bytes)"
         [ANat (length (regular_files entries)); AGrouped (total_bytes entries)]
       :: tail)
    = map (Uploader.key_of model version) (regular_files entries)).
  { rewrite attempted_keys_app, Ht1, attempted_keys_app, Hk0, Hk1.
    change (attempted_keys (?e :: tail)) with (attempted_keys tail).
    rewrite Htail, app_nil_r. reflexivity. }
  split; [reflexivity|]. split; [exact Hkeys|].
  split; [rewrite Hkeys; apply length_map|].
  split.
  - apply in_or_app. right. left. reflexivity.
  - rewrite Hf1, Hf0. reflexivity.
Qed.

Lemma uploader_uploads_every_file_witness :
  let w := Examples.world
             (Examples.credentials ++ [("MODEL_NAME", "Llama"); ("MODEL_VERSION", "2")])
             ∅ [] in
  fst (run Uploader.main w) = Ret tt /\
  attempted_keys (st_trace (snd (run Uploader.main w))) =
    ["model-data/Llama/2/weights/a.safetensors";
     "model-data/Llama/2/config.json";
     "model-data/Llama/2/tokenizer.json"] /\
  In (Log INFO "Uploaded {} files ({:,} bytes)" [ANat 3; AGrouped 22])
     (st_trace (snd (run Uploader.main w))) /\
  st_files (snd (run Uploader.main w)) !! Uploader.uri_file
    = Some "s3://models/model-data/Llama/2".
Proof.
  intros w.
  destruct (uploader_uploads_every_file w "models" "Llama" "2"
              "/workspace/shared-workspace/model" Examples.model_dir)
    as (Hexit & Hkeys & _ & Hreport & Hfiles).
  - repeat split; vm_compute; reflexivity.
  - intros e _ _. reflexivity.
  - split; [exact Hexit|]. split; [exact Hkeys|]. split; [exact Hreport|].
    rewrite Hfiles. apply lookup_insert_eq.
Defined.

(** C3.  The first file whose upload raises the client error makes the
    Model Uploader exit 1 on the spot: the attempted keys are those of the
    files before it and its own, none of the files after it, and the locator
    file is not written.  Over a directory of the same shape the Evaluation
    Storage Utility's upload logs the failure and goes on: every regular file
    is attempted, the operation returns its storage prefix, and the report
    counts only the files that did upload. *)
Theorem one_failure_aborts_uploader_but_not_evaluation_upload :
  (forall (w : World) (bucket model version dir : string)
          (pre post : list dir_entry) (f : dir_entry) (code : string),
     Uploader.reaches_loop w bucket model version dir (pre ++ f :: post) ->
     Uploader.all_uploads_succeed w bucket model version dir pre ->
     e_is_file f = true ->
     w_upload_file w (Uploader.path_of dir f) bucket (Uploader.key_of model version f)
       = Err (ClientError code) ->
     fst (run Uploader.main w) = Exit 1 /\
     attempted_keys (st_trace (snd (run Uploader.main w))) =
       map (Uploader.key_of model version) (regular_files pre)
       ++ [Uploader.key_of model version f] /\
     st_files (snd (run Uploader.main w)) = w_files w) /\
  (forall (w : World) (self : S3EvaluationStorage.t)
          (results_dir model version : string) (evaluation_id : option string)
          (pre post : list dir_entry) (f : dir_entry) (code : string) (s : State),
     let id := S3EvaluationStorage.effective_id model version evaluation_id
                 (w_now w (st_clock s)) in
     w_dirs w !! results_dir = Some (pre ++ f :: post) ->
     S3EvaluationStorage.all_uploads_succeed w self results_dir model version id pre ->
     S3EvaluationStorage.all_uploads_succeed w self results_dir model version id post ->
     e_is_file f = true ->
     w_upload_file w (S3EvaluationStorage.path_of results_dir f)
       (S3EvaluationStorage.bucket_name self)
       (S3EvaluationStorage.key_of model version id f) = Err (ClientError code) ->
     exists s',
       S3EvaluationStorage.upload_evaluation_results w self results_dir model version
         evaluation_id s
       = (Ret (S3EvaluationStorage.s3_prefix model version id), s') /\
       attempted_keys (st_trace s') =
         attempted_keys (st_trace s) ++
         map (S3EvaluationStorage.key_of model version id)
             (regular_files pre ++ f :: regular_files post) /\
       In (Log INFO "Uploaded {} files ({:,} bytes)"
             [ANat (length (regular_files pre) + length (regular_files post));
              AGrouped (total_bytes pre + total_bytes post)])
          (st_trace s')).
Proof.
  split.
  - intros w bucket model version dir pre post f code Hreach Hpre Hfile Herr.
    destruct (uploader_reaches_loop w bucket model version dir _ Hreach)
      as (s0 & Hrun & _ & Hf0 & Hk0 & _).
    destruct (uploader_loop_first_failure w dir bucket model version pre post f code
                Hpre Hfile Herr (0, 0) s0)
      as (s1 & Hloop & _ & Hf1 & added & Ht1 & Hk1 & _).
    rewrite Hrun. munfold. rewrite Hloop. mstate.
    split; [reflexivity|]. split.
    + rewrite Ht1, attempted_keys_app, Hk0, Hk1. reflexivity.
    + rewrite Hf1, Hf0. reflexivity.
  - intros w self results_dir model version evaluation_id pre post f code s id
           Hdir Hpre Hpost Hfile Herr.
    destruct (evaluation_upload_returns w self results_dir model version
                evaluation_id (pre ++ f :: post) s Hdir)
      as (s' & Hret & _ & Hkeys & Hreport).
    { apply (only_client_errors_one_failure _ _ _ _ _ _ _ _ _ code); assumption. }
    fold id in Hret, Hkeys, Hreport.
    rewrite (evaluation_uploaded_one_failure _ _ _ _ _ _ _ _ _ code Hpre Hpost Herr)
      in Hreport.
    rewrite total_bytes_app, length_app in Hreport.
    exists s'. split; [exact Hret|]. split; [|exact Hreport].
    rewrite Hkeys. f_equal. f_equal.
    unfold regular_files. rewrite List.filter_app. simpl. rewrite Hfile. reflexivity.
Qed.

Lemma one_failure_aborts_uploader_but_not_evaluation_upload_witness :
  (let w := Examples.with_failing_upload "model-data/Llama/2/config.json"
              (ClientError "AccessDenied")
              (Examples.world
                 (Examples.credentials ++ [("MODEL_NAME", "Llama"); ("MODEL_VERSION", "2")])
                 ∅ []) in
   fst (run Uploader.main w) = Exit 1 /\
   attempted_keys (st_trace (snd (run Uploader.main w))) =
     ["model-data/Llama/2/weights/a.safetensors"; "model-data/Llama/2/config.json"]) /\
  (let w := Examples.with_failing_upload "evaluations/m/v1/run7/config.json"
              (ClientError "AccessDenied") (Examples.world [] ∅ []) in
   exists s',
     S3EvaluationStorage.upload_evaluation_results w
       (S3EvaluationStorage.mkStorage "results")
       "/workspace/shared-workspace/model" "m" "v1" (Some "run7") (initial w)
     = (Ret "evaluations/m/v1/run7", s') /\
     attempted_keys (st_trace s') =
       ["evaluations/m/v1/run7/weights/a.safetensors";
        "evaluations/m/v1/run7/config.json";
        "evaluations/m/v1/run7/tokenizer.json"] /\
     In (Log INFO "Uploaded {} files ({:,} bytes)" [ANat 2; AGrouped 17]) (st_trace s')).
Proof.
  destruct one_failure_aborts_uploader_but_not_evaluation_upload as [Hup Hev].
  split; intros w.
  - destruct (Hup w "models" "Llama" "2" "/workspace/shared-workspace/model"
                [mkEntry "weights" false 0; mkEntry "weights/a.safetensors" true 10]
                [mkEntry "tokenizer.json" true 7]
                (mkEntry "config.json" true 5) "AccessDenied")
      as (Hexit & Hkeys & _).
    + repeat split; vm_compute; reflexivity.
    + intros e [<- | [<- | []]] Hfile; [discriminate Hfile | reflexivity].
    + reflexivity.
    + reflexivity.
    + split; [exact Hexit | exact Hkeys].
  - destruct (Hev w (S3EvaluationStorage.mkStorage "results")
                "/workspace/shared-workspace/model" "m" "v1" (Some "run7")
                [mkEntry "weights" false 0; mkEntry "weights/a.safetensors" true 10]
                [mkEntry "tokenizer.json" true 7]
                (mkEntry "config.json" true 5) "AccessDenied" (initial w))
      as (s' & Hret & Hkeys & Hreport).
    + vm_compute. reflexivity.
    + intros e [<- | [<- | []]] Hfile; [discriminate Hfile | reflexivity].
    + intros e [<- | []] Hfile. reflexivity.
    + reflexivity.
    + reflexivity.
    + exists s'. split; [exact Hret|]. split; [exact Hkeys | exact Hreport].
Defined.

(* ===================================================================== *)
(** ** Strings and timestamps                                             *)
(* ===================================================================== *)

Lemma append_nil (b : string) : "" +:+ b = b.
Proof. reflexivity. Qed.

Lemma append_cons (c : ascii) (a b : string) : String c a +:+ b = String c (a +:+ b).
Proof. reflexivity. Qed.

Lemma append_assoc (a b c : string) : (a +:+ b) +:+ c = a +:+ (b +:+ c).
Proof.
  induction a as [|x a IH]; [reflexivity|].
  rewrite !append_cons, IH. reflexivity.
Qed.

Lemma length_append (a b : string) :
  String.length (a +:+ b) = String.length a + String.length b.
Proof.
  induction a as [|x a IH]; [reflexivity|].
  rewrite append_cons. simpl. rewrite IH. reflexivity.
Qed.

(** Two concatenations that agree split alike when the heads have the same
    length. *)
Lemma append_inj_head (a b x y : string) :
  String.length a = String.length b ->
  a +:+ x = b +:+ y -> a = b /\ x = y.
Proof.
  revert b. induction a as [|c a IH]; intros [|d b] Hlen Heq;
    simpl in Hlen; try discriminate.
  - split; [reflexivity | exact Heq].
  - rewrite !append_cons in Heq. injection Heq as -> Heq.
    destruct (IH b) as [-> ->]; [lia | exact Heq |].
    split; reflexivity.
Qed.

(** ... and when the tails have the same length. *)
Lemma append_inj_tail (a b x y : string) :
  String.length x = String.length y ->
  a +:+ x = b +:+ y -> a = b /\ x = y.
Proof.
  intros Hlen Heq. apply append_inj_head; [|exact Heq].
  apply (f_equal String.length) in Heq. rewrite !length_append in Heq. lia.
Qed.

Lemma prefix_append (p s : string) : String.prefix p (p +:+ s) = true.
Proof.
  induction p as [|c p IH].
  - destruct s; reflexivity.
  - rewrite append_cons. simpl.
    destruct (ascii_dec c c) as [_ | Hne]; [exact IH | contradiction].
Qed.

Lemma digit_inj (a b : nat) : digit a = digit b -> a mod 10 = b mod 10.
Proof.
  unfold digit. intros H. apply (f_equal nat_of_ascii) in H.
  pose proof (Nat.mod_upper_bound a 10). pose proof (Nat.mod_upper_bound b 10).
  rewrite !nat_ascii_embedding in H by lia. lia.
Qed.

Lemma pad2_inj (a b : nat) : pad2 a = pad2 b -> a mod (10 * 10) = b mod (10 * 10).
Proof.
  unfold pad2. intros H.
  assert (H1 : digit (a / 10) = digit (b / 10)) by congruence.
  assert (H2 : digit a = digit b) by congruence.
  apply digit_inj in H1, H2. rewrite !Nat.Div0.mod_mul_r. lia.
Qed.

Lemma pad2_inj_small (a b : nat) : a < 100 -> b < 100 -> pad2 a = pad2 b -> a = b.
Proof.
  intros Ha Hb H. apply pad2_inj in H.
  rewrite !Nat.mod_small in H by (simpl; lia). exact H.
Qed.

Lemma length_pad2 (n : nat) : String.length (pad2 n) = 2.
Proof. reflexivity. Qed.

Lemma length_pad4 (n : nat) : String.length (pad4 n) = 4.
Proof. reflexivity. Qed.

Lemma pad4_inj_small (a b : nat) :
  a < 100 * 100 -> b < 100 * 100 -> pad4 a = pad4 b -> a = b.
Proof.
  intros Ha Hb H. unfold pad4 in H.
  apply append_inj_head in H; [|reflexivity]. destruct H as [Hhi Hlo].
  apply pad2_inj in Hhi, Hlo.
  assert (Hqa : a / 100 < 100) by (apply Nat.Div0.div_lt_upper_bound; exact Ha).
  assert (Hqb : b / 100 < 100) by (apply Nat.Div0.div_lt_upper_bound; exact Hb).
  change (10 * 10) with 100 in Hhi, Hlo.
  rewrite !Nat.mod_small in Hhi by assumption.
  rewrite (Nat.div_mod_eq a 100), (Nat.div_mod_eq b 100), Hhi, Hlo. reflexivity.
Qed.

Lemma length_strftime_compact (t : datetime) :
  String.length (strftime_compact t) = 15.
Proof. reflexivity. Qed.

(** On valid timestamps the compact rendering determines the second. *)
Lemma strftime_compact_inj (t1 t2 : datetime) :
  valid_datetime t1 -> valid_datetime t2 ->
  strftime_compact t1 = strftime_compact t2 ->
  second_of t1 = second_of t2.
Proof.
  intros (Hy1 & Hm1 & Hd1 & Hh1 & Hmi1 & Hs1 & _) (Hy2 & Hm2 & Hd2 & Hh2 & Hmi2 & Hs2 & _) H.
  unfold strftime_compact in H.
  apply append_inj_head in H; [|reflexivity]. destruct H as [Hy H].
  apply append_inj_head in H; [|reflexivity]. destruct H as [Hm H].
  apply append_inj_head in H; [|reflexivity]. destruct H as [Hd H].
  apply append_inj_head in H; [|reflexivity]. destruct H as [_ H].
  apply append_inj_head in H; [|reflexivity]. destruct H as [Hh H].
  apply append_inj_head in H; [|reflexivity]. destruct H as [Hmi Hs].
  apply pad4_inj_small in Hy; [|lia|lia].
  apply pad2_inj_small in Hm; [|lia|lia].
  apply pad2_inj_small in Hd; [|lia|lia].
  apply pad2_inj_small in Hh; [|lia|lia].
  apply pad2_inj_small in Hmi; [|lia|lia].
  apply pad2_inj_small in Hs; [|lia|lia].
  unfold second_of. congruence.
Qed.

(** The generated id ends in the timestamp, so two ids made in different
    seconds differ, whatever the model and the version. *)
Lemma generated_id_inj (m1 v1 m2 v2 : string) (t1 t2 : datetime) :
  valid_datetime t1 -> valid_datetime t2 ->
  S3EvaluationStorage.generated_id m1 v1 t1 = S3EvaluationStorage.generated_id m2 v2 t2 ->
  second_of t1 = second_of t2.
Proof.
  intros Hv1 Hv2 H.
  assert (Hsplit : forall m v t,
            S3EvaluationStorage.generated_id m v t
            = (m +:+ "_" +:+ v +:+ "_") +:+ strftime_compact t).
  { intros m v t. unfold S3EvaluationStorage.generated_id.
    rewrite !append_assoc. reflexivity. }
  rewrite !Hsplit in H.
  apply append_inj_tail in H; [|reflexivity].
  apply strftime_compact_inj; [assumption | assumption | apply H].
Qed.

(** C7.  A call of the evaluation upload with no evaluation id generates
    the id {model}_{version}_{timestamp} from the clock, the timestamp being
    the fifteen characters YYYYMMDD_HHMMSS, and, when the results directory
    exists and no upload raises anything but the client error, returns the
    storage prefix evaluations/{model}/{version}/{evaluation_id} under which
    every file was keyed.  Ids generated at valid timestamps that fall in
    different seconds are different. *)
Theorem generated_evaluation_id :
  (forall (w : World) (self : S3EvaluationStorage.t) (results_dir model version : string)
          (entries : list dir_entry) (s : State),
     let timestamp := strftime_compact (w_now w (st_clock s)) in
     let evaluation_id := model +:+ "_" +:+ version +:+ "_" +:+ timestamp in
     w_dirs w !! results_dir = Some entries ->
     S3EvaluationStorage.only_client_errors w self results_dir model version
       evaluation_id entries ->
     exists s',
       S3EvaluationStorage.upload_evaluation_results w self results_dir model version
         None s
       = (Ret ("evaluations/" +:+ model +:+ "/" +:+ version +:+ "/" +:+ evaluation_id),
          s') /\
       attempted_keys (st_trace s') =
         attempted_keys (st_trace s) ++
         map (S3EvaluationStorage.key_of model version evaluation_id)
             (regular_files entries)) /\
  (forall t : datetime,
     strftime_compact t =
       pad4 (year t) +:+ pad2 (month t) +:+ pad2 (day t) +:+ "_" +:+
       pad2 (hour t) +:+ pad2 (minute t) +:+ pad2 (second t) /\
     String.length (strftime_compact t) = 15) /\
  (forall (m1 v1 m2 v2 : string) (t1 t2 : datetime),
     valid_datetime t1 -> valid_datetime t2 ->
     second_of t1 <> second_of t2 ->
     S3EvaluationStorage.generated_id m1 v1 t1 <> S3EvaluationStorage.generated_id m2 v2 t2).
Proof.
  split; [|split].
  - intros w self results_dir model version entries s timestamp evaluation_id Hdir Honly.
    destruct (evaluation_upload_returns w self results_dir model version None
                entries s Hdir Honly) as (s' & Hret & _ & Hkeys & _).
    exists s'. split; [exact Hret | exact Hkeys].
  - intros t. split; reflexivity.
  - intros m1 v1 m2 v2 t1 t2 Hv1 Hv2 Hne Heq.
    apply Hne. exact (generated_id_inj m1 v1 m2 v2 t1 t2 Hv1 Hv2 Heq).
Qed.

Lemma generated_evaluation_id_witness :
  (let w := Examples.world [] ∅ [] in
   exists s',
     S3EvaluationStorage.upload_evaluation_results w
       (S3EvaluationStorage.mkStorage "results")
       "/workspace/shared-workspace/model" "m" "v1" None (initial w)
     = (Ret "evaluations/m/v1/m_v1_20240305_120000", s')) /\
  S3EvaluationStorage.generated_id "m" "v1" (Examples.clock 0)
  <> S3EvaluationStorage.generated_id "m" "v1" (Examples.clock 1).
Proof.
  destruct generated_evaluation_id as (Hret & _ & Hdistinct).
  split.
  - intros w.
    destruct (Hret w (S3EvaluationStorage.mkStorage "results")
                "/workspace/shared-workspace/model" "m" "v1" Examples.model_dir
                (initial w)) as (s' & Hrun & _).
    + vm_compute. reflexivity.
    + intros e _ _. left. reflexivity.
    + exists s'. exact Hrun.
  - apply Hdistinct.
    + unfold valid_datetime, Examples.clock.
      cbn [year month day hour minute second microsecond]. lia.
    + unfold valid_datetime, Examples.clock.
      cbn [year month day hour minute second microsecond]. lia.
    + discriminate.
Defined.

(* ===================================================================== *)
(** ** The listing                                                        *)
(* ===================================================================== *)

Lemma dict_get_set (k : string) (v : json) (d : dict) :
  dict_get k (dict_set k v d) = Some v.
Proof.
  induction d as [|[k' v'] d IH]; simpl.
  - rewrite String.eqb_refl. reflexivity.
  - destruct (String.eqb k k') eqn:Hk; simpl.
    + rewrite String.eqb_refl. reflexivity.
    + rewrite Hk. exact IH.
Qed.

Section Listing.

Variable w : World.
Variable self : S3EvaluationStorage.t.

Let entry := S3EvaluationStorage.summary_entry w self.

(** Every entry carries the storage prefix of its grouping. *)
Lemma summary_entry_prefix (g : string) (d : dict) :
  entry g = Ok d -> dict_get "s3_prefix" d = Some (JStr g).
Proof.
  unfold entry, S3EvaluationStorage.summary_entry. intros H.
  destruct (w_get_object w _ _) as [b | e].
  - destruct (json_loads b) as [[| | | | |d'] | e]; try discriminate.
    injection H as <-. apply dict_get_set.
  - destruct e; try discriminate. injection H as <-. reflexivity.
Qed.

Lemma summary_entry_fetch_fails (g : string) :
  S3EvaluationStorage.summary_fetch_fails w self g ->
  entry g = Ok (S3EvaluationStorage.fallback_entry g).
Proof.
  intros [code H]. unfold entry, S3EvaluationStorage.summary_entry.
  rewrite H. reflexivity.
Qed.

(** One grouping: its summary is fetched, and either its entry is appended
    or the exception of [summary_entry] is raised. *)
Lemma list_one_spec (g : string) (evs : list dict) (s : State) :
  S3EvaluationStorage.list_one w self g evs s =
    (match entry g with
     | Ok d => Ret (evs ++ [d])
     | Err e => Raise e
     end,
     {| st_environ := st_environ s; st_files := st_files s;
        st_trace := st_trace s ++
          [GetObject (S3EvaluationStorage.bucket_name self)
             (g +:+ "cross_language_summary.json")];
        st_clock := st_clock s; st_lookups := st_lookups s |}).
Proof.
  unfold S3EvaluationStorage.list_one, entry, S3EvaluationStorage.summary_entry,
    try_except, S3EvaluationStorage.tag_with_prefix.
  munfold. mstate.
  destruct (w_get_object w _ _) as [[[| | | | |d'] | raw] | e]; simpl;
    try reflexivity.
  destruct e; reflexivity.
Qed.

Lemma list_prefixes_returns (groups : list string) :
  forall (evs : list dict) (s : State) (r : list dict) (s' : State),
  S3EvaluationStorage.list_prefixes w self groups evs s = (Ret r, s') ->
  exists ds, r = evs ++ ds /\ Forall2 (fun g d => entry g = Ok d) groups ds.
Proof.
  induction groups as [|g rest IH]; intros evs s r s' H; simpl in H.
  - injection H as <- _. exists []. rewrite app_nil_r. split; constructor.
  - munfold. rewrite list_one_spec in H.
    destruct (entry g) as [d | e] eqn:Hg; [|discriminate].
    destruct (IH _ _ _ _ H) as (ds & -> & Hall).
    exists (d :: ds). rewrite <- app_assoc. split; [reflexivity|].
    constructor; assumption.
Qed.

Lemma list_prefixes_total (groups : list string) :
  (forall g, In g groups -> exists d, entry g = Ok d) ->
  forall (evs : list dict) (s : State),
  exists r s', S3EvaluationStorage.list_prefixes w self groups evs s = (Ret r, s').
Proof.
  induction groups as [|g rest IH]; intros Hall evs s; simpl.
  - exists evs, s. reflexivity.
  - munfold. rewrite list_one_spec.
    destruct (Hall g (or_introl eq_refl)) as [d ->].
    apply IH. intros g' Hin. apply Hall. right. exact Hin.
Qed.

Lemma list_prefixes_app (g1 g2 : list string) :
  forall (evs : list dict) (s : State),
  S3EvaluationStorage.list_prefixes w self (g1 ++ g2) evs s =
    (evs' ← S3EvaluationStorage.list_prefixes w self g1 evs;
     S3EvaluationStorage.list_prefixes w self g2 evs') s.
Proof.
  induction g1 as [|g rest IH]; intros evs s; simpl.
  - reflexivity.
  - munfold. destruct (S3EvaluationStorage.list_one w self g evs s) as [[evs1 | n | e] s1];
      [apply IH | reflexivity | reflexivity].
Qed.

Lemma list_pages_flat (pages : list page) :
  forall (evs : list dict) (s : State),
  S3EvaluationStorage.list_pages w self pages evs s =
  S3EvaluationStorage.list_prefixes w self (S3EvaluationStorage.groupings pages) evs s.
Proof.
  induction pages as [|pg rest IH]; intros evs s.
  - reflexivity.
  - unfold S3EvaluationStorage.groupings. simpl.
    rewrite list_prefixes_app. munfold.
    destruct (S3EvaluationStorage.list_prefixes w self _ evs s) as [[evs1 | n | e] s1];
      [apply IH | reflexivity | reflexivity].
Qed.

(** The visit only adds to the trace. *)
Lemma list_prefixes_trace (groups : list string) :
  forall (evs : list dict) (s : State) (o : outcome (list dict)) (s' : State),
  S3EvaluationStorage.list_prefixes w self groups evs s = (o, s') ->
  exists added, st_trace s' = st_trace s ++ added.
Proof.
  induction groups as [|g rest IH]; intros evs s o s' H; simpl in H.
  - injection H as _ <-. exists []. rewrite app_nil_r. reflexivity.
  - munfold. rewrite list_one_spec in H.
    destruct (entry g) as [d | e].
    + destruct (IH _ _ _ _ H) as [added ->]. mstate.
      eexists. rewrite <- app_assoc. reflexivity.
    + injection H as _ <-. mstate. eexists. reflexivity.
Qed.

(** The listing is the visit of the groupings of the pages that are
    answered, and then the exception of the page request that is not. *)
Lemma list_evaluations_unfold (model_name model_version : option string) (s : State) :
  let bucket := S3EvaluationStorage.bucket_name self in
  let prefix := S3EvaluationStorage.list_prefix model_name model_version in
  S3EvaluationStorage.list_evaluations w self model_name model_version s =
  match S3EvaluationStorage.list_prefixes w self
          (S3EvaluationStorage.groupings (w_paginate w bucket prefix "/")) []
          {| st_environ := st_environ s; st_files := st_files s;
             st_trace := st_trace s ++
                         [Log INFO "Listing evaluations: s3://{}/{}"
                            [AStr bucket; AStr prefix];
                          Paginate bucket prefix "/"];
             st_clock := st_clock s; st_lookups := st_lookups s |}
  with
  | (Ret evaluations, s') =>
      match w_paginate_error w bucket prefix "/" with
      | Some e => (Raise e, s')
      | None => (Ret evaluations, s')
      end
  | r => r
  end.
Proof.
  intros bucket prefix.
  unfold S3EvaluationStorage.list_evaluations. munfold. mstate.
  fold bucket prefix. rewrite list_pages_flat, <- app_assoc. cbn [app].
  destruct (S3EvaluationStorage.list_prefixes w self _ [] _) as [[evs | n | e] s'];
    try reflexivity.
  destruct (w_paginate_error w bucket prefix "/"); reflexivity.
Qed.

(** A listing that returns has had every page request answered. *)
Lemma list_evaluations_returns (model_name model_version : option string)
    (s s' : State) (entries : list dict) :
  S3EvaluationStorage.list_evaluations w self model_name model_version s
    = (Ret entries, s') ->
  w_paginate_error w (S3EvaluationStorage.bucket_name self)
    (S3EvaluationStorage.list_prefix model_name model_version) "/" = None /\
  exists s0,
    st_trace s0 =
      st_trace s ++
      [Log INFO "Listing evaluations: s3://{}/{}"
         [AStr (S3EvaluationStorage.bucket_name self);
          AStr (S3EvaluationStorage.list_prefix model_name model_version)];
       Paginate (S3EvaluationStorage.bucket_name self)
         (S3EvaluationStorage.list_prefix model_name model_version) "/"] /\
    S3EvaluationStorage.list_prefixes w self
      (S3EvaluationStorage.groupings
         (w_paginate w (S3EvaluationStorage.bucket_name self)
            (S3EvaluationStorage.list_prefix model_name model_version) "/"))
      [] s0 = (Ret entries, s').
Proof.
  rewrite list_evaluations_unfold. cbv zeta.
  destruct (S3EvaluationStorage.list_prefixes w self _ [] _) as [[evs | n | e] s1] eqn:Hvisit;
    try discriminate.
  destruct (w_paginate_error w _ _ "/"); [discriminate|].
  intros H. injection H as <- <-. split; [reflexivity|].
  eexists. split; [|exact Hvisit]. reflexivity.
Qed.

(** With every page request answered, the listing is the visit of the
    groupings. *)
Lemma list_evaluations_answered (model_name model_version : option string) (s : State) :
  w_paginate_error w (S3EvaluationStorage.bucket_name self)
    (S3EvaluationStorage.list_prefix model_name model_version) "/" = None ->
  exists s0,
    S3EvaluationStorage.list_evaluations w self model_name model_version s =
    S3EvaluationStorage.list_prefixes w self
      (S3EvaluationStorage.groupings
         (w_paginate w (S3EvaluationStorage.bucket_name self)
            (S3EvaluationStorage.list_prefix model_name model_version) "/"))
      [] s0.
Proof.
  intros Hanswered. rewrite list_evaluations_unfold. cbv zeta. rewrite Hanswered.
  match goal with
  | |- exists s0, match ?visit ?st with _ => _ end = _ =>
      exists st; destruct (visit st) as [[evs | n | e] s1]; reflexivity
  end.
Qed.

End Listing.

Lemma Forall2_In_r {A B : Type} (R : A -> B -> Prop) (l1 : list A) (l2 : list B) (y : B) :
  Forall2 R l1 l2 -> In y l2 -> exists x, In x l1 /\ R x y.
Proof.
  induction 1 as [|x y' l1 l2 Hxy _ IH]; intros Hin; [destruct Hin|].
  destruct Hin as [<- | Hin].
  - exists x. split; [left; reflexivity | exact Hxy].
  - destruct (IH Hin) as (x' & Hx' & HR). exists x'. split; [right|]; assumption.
Qed.

Lemma Forall2_In_l {A B : Type} (R : A -> B -> Prop) (l1 : list A) (l2 : list B) (x : A) :
  Forall2 R l1 l2 -> In x l1 -> exists y, In y l2 /\ R x y.
Proof.
  induction 1 as [|x' y l1 l2 Hxy _ IH]; intros Hin; [destruct Hin|].
  destruct Hin as [<- | Hin].
  - exists y. split; [left; reflexivity | exact Hxy].
  - destruct (IH Hin) as (y' & Hy' & HR). exists y'. split; [right|]; assumption.
Qed.

Lemma in_groupings (pages : list page) (g : string) :
  In g (S3EvaluationStorage.groupings pages) ->
  exists pg cps, In pg pages /\ CommonPrefixes pg = Some cps /\ In g cps.
Proof.
  unfold S3EvaluationStorage.groupings. intros H.
  apply in_concat in H. destruct H as (l & Hl & Hg).
  apply in_map_iff in Hl. destruct Hl as (pg & <- & Hpg).
  destruct (CommonPrefixes pg) as [cps|] eqn:Hcps; [|destruct Hg].
  exists pg, cps. repeat split; assumption.
Qed.

(** The reference store keeps the listing contract. *)
Lemma reference_store_respects_prefix (environ : list (string * string))
    (fs : gmap string string) (store : list (string * body)) :
  listing_respects_prefix (Examples.world environ fs store).
Proof.
  intros bucket prefix delimiter pg cps cp Hpg Hcps Hcp. simpl in Hpg.
  unfold ObjectStore.paginate in Hpg.
  assert (Hall : In cp (ObjectStore.common_prefixes prefix delimiter (map fst store))).
  { destruct (ObjectStore.common_prefixes prefix delimiter (map fst store)) eqn:E.
    - destruct Hpg as [<- | []]. discriminate Hcps.
    - destruct Hpg as [<- | []]. simpl in Hcps. injection Hcps as <-. exact Hcp. }
  unfold ObjectStore.common_prefixes in Hall.
  apply list_elem_of_In, elem_of_remove_dups, list_elem_of_omap in Hall.
  destruct Hall as (key & _ & Hroll).
  unfold ObjectStore.rollup in Hroll.
  destruct (Py.startswith prefix key); [|discriminate].
  destruct (index 0 delimiter _); [|discriminate].
  injection Hroll as <-. apply prefix_append.
Qed.

(** C6.  The query prefix of the listing is evaluations/ when no filter
    is given, evaluations/{model_name}/ when only a model name is given, and
    evaluations/{model_name}/{model_version}/ when both are given; a version
    filter without a model name has no effect.  A filter is given when it is
    present and not the empty string, which is the test the code makes.  The
    listing queries the store with that prefix and, the store answering only
    common prefixes that begin with the requested prefix, every entry of the
    result carries a storage prefix that begins with the query prefix. *)
Theorem listing_query_prefix :
  (forall model_name model_version : option string,
     Py.truthy model_name = false ->
     S3EvaluationStorage.list_prefix model_name model_version = "evaluations/") /\
  (forall (m : string) (model_version : option string),
     Py.nonempty m = true -> Py.truthy model_version = false ->
     S3EvaluationStorage.list_prefix (Some m) model_version
     = "evaluations/" +:+ m +:+ "/") /\
  (forall m v : string,
     Py.nonempty m = true -> Py.nonempty v = true ->
     S3EvaluationStorage.list_prefix (Some m) (Some v)
     = "evaluations/" +:+ m +:+ "/" +:+ v +:+ "/") /\
  (forall (w : World) (self : S3EvaluationStorage.t)
          (model_name model_version : option string)
          (s s' : State) (entries : list dict),
     listing_respects_prefix w ->
     S3EvaluationStorage.list_evaluations w self model_name model_version s
       = (Ret entries, s') ->
     In (Paginate (S3EvaluationStorage.bucket_name self)
           (S3EvaluationStorage.list_prefix model_name model_version) "/")
        (st_trace s') /\
     forall d, In d entries ->
       exists p, dict_get "s3_prefix" d = Some (JStr p) /\
                 Py.startswith (S3EvaluationStorage.list_prefix model_name model_version) p
                 = true).
Proof.
  split; [|split; [|split]].
  - intros model_name model_version H. unfold S3EvaluationStorage.list_prefix.
    rewrite H. reflexivity.
  - intros m model_version Hm Hv. unfold S3EvaluationStorage.list_prefix.
    simpl Py.truthy. rewrite Hm, Hv. reflexivity.
  - intros m v Hm Hv. unfold S3EvaluationStorage.list_prefix.
    simpl Py.truthy. rewrite Hm, Hv. reflexivity.
  - intros w self model_name model_version s s' entries Hcontract Hrun.
    split.
    + destruct (list_evaluations_returns w self _ _ _ _ _ Hrun)
        as (_ & s0 & Ht0 & Hvisit).
      destruct (list_prefixes_trace w self _ _ _ _ _ Hvisit) as [added ->].
      rewrite Ht0. apply in_or_app. left. apply in_or_app. right. right. left.
      reflexivity.
    + intros d Hd.
      destruct (list_evaluations_returns w self _ _ _ _ _ Hrun)
        as (_ & s0 & _ & Hvisit).
      clear Hrun. rename Hvisit into Hrun.
      destruct (list_prefixes_returns w self _ _ _ _ _ Hrun) as (ds & -> & Hall).
      destruct (Forall2_In_r _ _ _ d Hall Hd) as (g & Hg & Hentry).
      exists g. split; [exact (summary_entry_prefix w self g d Hentry)|].
      destruct (in_groupings _ _ Hg) as (pg & cps & Hpg & Hcps & Hin).
      exact (Hcontract _ _ _ pg cps g Hpg Hcps Hin).
Qed.

Lemma listing_query_prefix_witness :
  let w := Examples.world [] ∅ Examples.objects in
  let self := S3EvaluationStorage.mkStorage "results" in
  S3EvaluationStorage.list_prefix (Some "m") None = "evaluations/m/" /\
  S3EvaluationStorage.list_prefix (Some "m") (Some "v1") = "evaluations/m/v1/" /\
  forall d,
    In d (match fst (S3EvaluationStorage.list_evaluations w self (Some "m") (Some "v1")
                       (initial w)) with
          | Ret entries => entries
          | _ => []
          end) ->
    exists p, dict_get "s3_prefix" d = Some (JStr p) /\
              Py.startswith "evaluations/m/v1/" p = true.
Proof.
  intros w self.
  destruct listing_query_prefix as (_ & Hname & Hboth & Hlist).
  split; [|split].
  - apply (Hname "m" None); reflexivity.
  - apply (Hboth "m" "v1"); reflexivity.
  - pose (r := S3EvaluationStorage.list_evaluations w self (Some "m") (Some "v1")
                 (initial w)).
    assert (Hr : r = (Ret [[("model_name", JStr "m"); ("model_version", JStr "v1");
                            ("s3_prefix", JStr "evaluations/m/v1/e1/")];
                           [("s3_prefix", JStr "evaluations/m/v1/e2/");
                            ("model_name", JStr "unknown");
                            ("model_version", JStr "unknown")]], snd r))
      by (vm_compute; reflexivity).
    destruct (Hlist w self (Some "m") (Some "v1") (initial w) (snd r) _
                (reference_store_respects_prefix [] ∅ Examples.objects) Hr)
      as [_ Hentries].
    fold r. rewrite Hr. exact Hentries.
Defined.

(** C4, as the claim states it, fails: a grouping whose summary object is
    there but is not valid JSON is unreadable, and the listing ends with the
    decoding error instead of returning a sequence with a fallback entry for
    it; the grouping that comes after it is never visited. *)
Lemma unparseable_summary_aborts_listing :
  let w := Examples.world [] ∅ Examples.corrupt_objects in
  let self := S3EvaluationStorage.mkStorage "results" in
  S3EvaluationStorage.groupings
    (w_paginate w "results" (S3EvaluationStorage.list_prefix None None) "/")
    = ["evaluations/m/"; "evaluations/n/"] /\
  S3EvaluationStorage.summary_missing_or_unreadable w self "evaluations/m/" /\
  fst (S3EvaluationStorage.list_evaluations w self None None (initial w))
    = Raise JSONDecodeError /\
  ~ (exists entries s',
       S3EvaluationStorage.list_evaluations w self None None (initial w)
         = (Ret entries, s') /\
       In (S3EvaluationStorage.fallback_entry "evaluations/m/") entries).
Proof.
  intros w self. split; [vm_compute; reflexivity|].
  split; [vm_compute; exact I|].
  assert (H : fst (S3EvaluationStorage.list_evaluations w self None None (initial w))
              = Raise JSONDecodeError) by (vm_compute; reflexivity).
  split; [exact H|].
  intros (entries & s' & Hrun & _). rewrite Hrun in H. discriminate H.
Qed.

(** C4, amended.  A grouping whose summary fetch is refused with the
    client error (the object is missing, or may not be read) gets the fallback
    entry: the step for it appends the minimal mapping, with model_name and
    model_version "unknown" and the grouping's storage prefix, and goes on.
    Where every page request is answered and every grouping's summary is
    either refused that way or is a JSON object, the listing returns one
    entry per grouping; and whenever the listing returns, the fallback entry
    of every grouping refused that way is in the result. *)
Theorem listing_falls_back_on_client_error :
  (forall g : string,
     dict_get "s3_prefix" (S3EvaluationStorage.fallback_entry g) = Some (JStr g) /\
     dict_get "model_name" (S3EvaluationStorage.fallback_entry g) = Some (JStr "unknown") /\
     dict_get "model_version" (S3EvaluationStorage.fallback_entry g)
       = Some (JStr "unknown")) /\
  (forall (w : World) (self : S3EvaluationStorage.t) (g : string)
          (evs : list dict) (s : State),
     S3EvaluationStorage.summary_fetch_fails w self g ->
     exists s',
       S3EvaluationStorage.list_one w self g evs s
       = (Ret (evs ++ [S3EvaluationStorage.fallback_entry g]), s')) /\
  (forall (w : World) (self : S3EvaluationStorage.t)
          (model_name model_version : option string) (s : State),
     let groups :=
       S3EvaluationStorage.groupings
         (w_paginate w (S3EvaluationStorage.bucket_name self)
            (S3EvaluationStorage.list_prefix model_name model_version) "/") in
     w_paginate_error w (S3EvaluationStorage.bucket_name self)
       (S3EvaluationStorage.list_prefix model_name model_version) "/" = None ->
     (forall g, In g groups ->
        S3EvaluationStorage.summary_fetch_fails w self g \/
        S3EvaluationStorage.summary_usable w self g) ->
     exists entries s',
       S3EvaluationStorage.list_evaluations w self model_name model_version s
         = (Ret entries, s') /\
       length entries = length groups) /\
  (forall (w : World) (self : S3EvaluationStorage.t)
          (model_name model_version : option string)
          (s s' : State) (entries : list dict) (g : string),
     S3EvaluationStorage.list_evaluations w self model_name model_version s
       = (Ret entries, s') ->
     In g (S3EvaluationStorage.groupings
             (w_paginate w (S3EvaluationStorage.bucket_name self)
                (S3EvaluationStorage.list_prefix model_name model_version) "/")) ->
     S3EvaluationStorage.summary_fetch_fails w self g ->
     In (S3EvaluationStorage.fallback_entry g) entries).
Proof.
  split; [|split; [|split]].
  - intros g. repeat split.
  - intros w self g evs s Hfail. rewrite list_one_spec.
    rewrite (summary_entry_fetch_fails w self g Hfail). eexists. reflexivity.
  - intros w self model_name model_version s groups Hanswered Hall.
    destruct (list_evaluations_answered w self model_name model_version s Hanswered)
      as [s0 Heq].
    fold groups in Heq.
    destruct (list_prefixes_total w self groups) with (evs := @nil dict) (s := s0)
      as (r & s' & Hrun).
    { intros g Hg. destruct (Hall g Hg) as [Hfail | [d Hd]].
      - eexists. apply summary_entry_fetch_fails, Hfail.
      - unfold S3EvaluationStorage.summary_entry. rewrite Hd. simpl. eexists. reflexivity. }
    exists r, s'. rewrite Heq. split; [exact Hrun|].
    destruct (list_prefixes_returns w self _ _ _ _ _ Hrun) as (ds & -> & HF).
    simpl. symmetry. eapply Forall2_length. exact HF.
  - intros w self model_name model_version s s' entries g Hrun Hg Hfail.
    destruct (list_evaluations_returns w self _ _ _ _ _ Hrun)
      as (_ & s0 & _ & Hvisit).
    destruct (list_prefixes_returns w self _ _ _ _ _ Hvisit) as (ds & -> & HF).
    destruct (Forall2_In_l _ _ _ g HF Hg) as (d & Hd & Hentry).
    rewrite (summary_entry_fetch_fails w self g Hfail) in Hentry.
    injection Hentry as <-. exact Hd.
Qed.

Lemma listing_falls_back_on_client_error_witness :
  let w := Examples.world [] ∅ Examples.objects in
  let self := S3EvaluationStorage.mkStorage "results" in
  exists entries s',
    S3EvaluationStorage.list_evaluations w self (Some "m") (Some "v1") (initial w)
      = (Ret entries, s') /\
    length entries = 2 /\
    In (S3EvaluationStorage.fallback_entry "evaluations/m/v1/e2/") entries.
Proof.
  intros w self.
  destruct listing_falls_back_on_client_error as (_ & _ & Htotal & Hin).
  destruct (Htotal w self (Some "m") (Some "v1") (initial w))
    as (entries & s' & Hrun & Hlen).
  - reflexivity.
  - intros g Hg. vm_compute in Hg.
    destruct Hg as [<- | [<- | []]].
    + right. eexists. vm_compute. reflexivity.
    + left. eexists. vm_compute. reflexivity.
  - exists entries, s'. split; [exact Hrun|]. split; [exact Hlen|].
    apply (Hin w self (Some "m") (Some "v1") (initial w) s' entries _ Hrun).
    + vm_compute. right. left. reflexivity.
    + eexists. vm_compute. reflexivity.
Defined.

(* ===================================================================== *)
(** ** The Registrar                                                      *)
(* ===================================================================== *)

Section Registration.

Variable w : World.
Variables cluster_domain model_name : string.
Variable model_version : option string.
Variables huggingface_model s3_uri : string.

Let register :=
  Registrar.register w cluster_domain model_name model_version huggingface_model s3_uri.

Ltac run_registration :=
  unfold register, Registrar.register, Registrar.register_body,
    Registrar.on_store_error, Registrar.on_other_error, Registrar.get_model_version,
    Registrar.attr_id, try_except, write_file;
  munfold; mstate.

(** The conflict branch with the existing version found. *)
Lemma register_conflict_found (s : State) (mv : model_version_rec) :
  w_register_model w model_name s3_uri model_version = Err StoreError ->
  w_get_model_version w (st_lookups s) model_name model_version = Ok (Some mv) ->
  exists s',
    register s = (Exit 0, s') /\
    st_files s' = <[Registrar.version_id_file := mv_id mv]> (st_files s) /\
    exists before after,
      st_trace s' =
        st_trace s ++ before ++ WriteFile Registrar.version_id_file (mv_id mv) :: after /\
      writes_nothing before = true /\ writes_nothing after = true.
Proof.
  intros Hreg Hlookup. run_registration. rewrite Hreg. simpl. rewrite Hlookup. simpl.
  eexists. split; [reflexivity|]. mstate. split; [reflexivity|].
  exists [RegisterModel model_name s3_uri model_version
            (Registrar.description huggingface_model)
            (Registrar.metadata huggingface_model s3_uri);
          Print "Model version already exists: {} version {}"
            [AStr model_name; AStr (Py.fmt model_version)];
          GetModelVersion model_name model_version;
          Print "Existing model details:" [];
          Print "Model ID: {}" [AStr (mv_id mv)];
          Print "Model Name: {}" [AStr (mv_name mv)]].
  eexists. split; [rewrite <- !app_assoc; reflexivity|].
  split; reflexivity.
Qed.

(** The conflict branch with the lookup raising, or finding nothing. *)
Lemma register_conflict_lookup_fails (s : State) :
  w_register_model w model_name s3_uri model_version = Err StoreError ->
  (exists e, w_get_model_version w (st_lookups s) model_name model_version = Err e) \/
  w_get_model_version w (st_lookups s) model_name model_version = Ok None ->
  exists s',
    register s = (Exit 1, s') /\
    st_files s' = st_files s /\
    exists added, st_trace s' = st_trace s ++ added /\ writes_nothing added = true.
Proof.
  intros Hreg Hlookup. run_registration. rewrite Hreg. simpl.
  destruct Hlookup as [[e Hlookup] | Hlookup]; rewrite Hlookup; simpl;
    (eexists; split; [reflexivity|]; mstate; split; [reflexivity|];
     eexists; split; [rewrite <- !app_assoc; reflexivity | reflexivity]).
Qed.

(** The first-time path. *)
Lemma register_first_time (s : State) (shown mv : model_version_rec) :
  w_register_model w model_name s3_uri model_version = Ok tt ->
  w_get_model_version w (st_lookups s) model_name model_version = Ok (Some shown) ->
  w_get_model_version w (S (st_lookups s)) model_name model_version = Ok (Some mv) ->
  exists s',
    register s = (Ret tt, s') /\
    st_files s' = <[Registrar.version_id_file := mv_id mv]> (st_files s) /\
    exists before after,
      st_trace s' =
        st_trace s ++ before ++ WriteFile Registrar.version_id_file (mv_id mv) :: after /\
      writes_nothing before = true /\ writes_nothing after = true.
Proof.
  intros Hreg Hshown Hlookup. run_registration.
  rewrite Hreg. simpl. rewrite Hshown. simpl. rewrite Hlookup. simpl.
  eexists. split; [reflexivity|]. mstate. split; [reflexivity|].
  exists [RegisterModel model_name s3_uri model_version
            (Registrar.description huggingface_model)
            (Registrar.metadata huggingface_model s3_uri);
          Print "Successfully registered model: {} version {}"
            [AStr model_name; AStr (Py.fmt model_version)];
          Print "Model URI: {}" [AStr s3_uri];
          GetModelVersion model_name model_version;
          Print "Model details available at: https://rhods-dashboard-redhat-ods-applications.{}/modelRegistry/modelcar-pipeline-registry/registeredModels/1/versions/{}/details"
            [AStr cluster_domain; AStr (mv_id shown)];
          GetModelVersion model_name model_version].
  eexists. split; [rewrite <- !app_assoc; reflexivity|].
  split; reflexivity.
Qed.

End Registration.

Lemma registrar_reaches_registration (w : World) (cluster_domain model_name : string)
    (model_version : option string) (huggingface_model s3_uri : string) :
  Registrar.reaches_registration w cluster_domain model_name model_version
    huggingface_model s3_uri ->
  exists s0,
    run Registrar.main w =
      Registrar.register w cluster_domain model_name model_version huggingface_model
        s3_uri s0 /\
    st_files s0 = w_files w /\
    st_lookups s0 = 0 /\
    writes_nothing (st_trace s0) = true /\
    forallb (fun e => negb (is_network_call e)) (st_trace s0) = true.
Proof.
  intros (Hskip & [ns Hns] & Haddr & Hcd & (raw & Hraw & Hlower) & Hver & Hhf & Huri).
  rewrite (registrar_not_skipped w Hskip).
  unfold Registrar.task, after_banner, read_file. munfold. mstate.
  rewrite Hns. mstate. rewrite Haddr. cbn [negb]. mstate.
  rewrite !lookup_insert_ne by discriminate.
  rewrite Hraw. mstate. rewrite !lookup_insert_ne by discriminate.
  rewrite Hver, Hhf, Hcd, Hlower.
  unfold Registrar.resolve_s3_uri, file_exists, read_file. munfold. mstate.
  destruct Huri as [(content & Hfile & Hstrip) | (Hfile & bucket & Hb & Hne & Hfb)].
  - rewrite Hfile.
    rewrite bool_decide_eq_true_2 by (eexists; reflexivity). mstate.
    rewrite Hfile. mstate. rewrite Hstrip.
    eexists. split; [reflexivity|]. repeat split.
  - rewrite Hfile.
    rewrite bool_decide_eq_false_2 by (intros [? ?]; discriminate). mstate.
    rewrite !lookup_insert_ne by discriminate. rewrite Hb.
    change (Py.truthy (Some bucket)) with (Py.nonempty bucket). rewrite Hne.
    cbn [from_option id]. mstate. rewrite Hfb.
    eexists. split; [reflexivity|]. repeat split.
Qed.

(** C2.  When the registration call raises the registry's store error,
    the Registrar looks the existing version up; with the version found it
    writes the identifier to /workspace/shared-workspace/model_version_id
    and exits 0, the only write of the run, and if that lookup raises any
    exception the Registrar exits 1 and writes nothing.  The first-time path,
    with the registration accepted, writes the identifier it looks up to the
    same file in the same form and ends with status 0. *)
Theorem conflict_is_not_a_failure :
  (forall (w : World) (cluster_domain model_name : string)
          (model_version : option string) (huggingface_model s3_uri : string)
          (mv : model_version_rec),
     Registrar.reaches_registration w cluster_domain model_name model_version
       huggingface_model s3_uri ->
     w_register_model w model_name s3_uri model_version = Err StoreError ->
     w_get_model_version w 0 model_name model_version = Ok (Some mv) ->
     fst (run Registrar.main w) = Exit 0 /\
     Registrar.version_id_file = "/workspace/shared-workspace/model_version_id" /\
     st_files (snd (run Registrar.main w)) =
       <[Registrar.version_id_file := mv_id mv]> (w_files w) /\
     List.filter is_file_write (st_trace (snd (run Registrar.main w))) =
       [WriteFile Registrar.version_id_file (mv_id mv)]) /\
  (forall (w : World) (cluster_domain model_name : string)
          (model_version : option string) (huggingface_model s3_uri : string)
          (e : exn),
     Registrar.reaches_registration w cluster_domain model_name model_version
       huggingface_model s3_uri ->
     w_register_model w model_name s3_uri model_version = Err StoreError ->
     w_get_model_version w 0 model_name model_version = Err e ->
     fst (run Registrar.main w) = Exit 1 /\
     st_files (snd (run Registrar.main w)) = w_files w /\
     writes_nothing (st_trace (snd (run Registrar.main w))) = true) /\
  (forall (w : World) (cluster_domain model_name : string)
          (model_version : option string) (huggingface_model s3_uri : string)
          (shown mv : model_version_rec),
     Registrar.reaches_registration w cluster_domain model_name model_version
       huggingface_model s3_uri ->
     w_register_model w model_name s3_uri model_version = Ok tt ->
     w_get_model_version w 0 model_name model_version = Ok (Some shown) ->
     w_get_model_version w 1 model_name model_version = Ok (Some mv) ->
     exit_code (fst (run Registrar.main w)) = 0 /\
     st_files (snd (run Registrar.main w)) =
       <[Registrar.version_id_file := mv_id mv]> (w_files w) /\
     List.filter is_file_write (st_trace (snd (run Registrar.main w))) =
       [WriteFile Registrar.version_id_file (mv_id mv)]).
Proof.
  assert (Hwrites : forall t0 before after p c,
            writes_nothing t0 = true -> writes_nothing before = true ->
            writes_nothing after = true ->
            List.filter is_file_write (t0 ++ before ++ WriteFile p c :: after)
            = [WriteFile p c]).
  { assert (Hnone : forall l, writes_nothing l = true -> List.filter is_file_write l = []).
    { induction l as [|x l IH]; [reflexivity|]. unfold writes_nothing. simpl.
      intros H. apply andb_prop in H. destruct H as [Hx Hl].
      destruct (is_file_write x); [discriminate Hx | apply IH, Hl]. }
    intros t0 before after p c H0 Hb Ha.
    rewrite !List.filter_app. simpl.
    rewrite (Hnone _ H0), (Hnone _ Hb), (Hnone _ Ha). reflexivity. }
  split; [|split].
  - intros w cluster_domain model_name model_version huggingface_model s3_uri mv
           Hreach Hreg Hlookup.
    destruct (registrar_reaches_registration _ _ _ _ _ _ Hreach)
      as (s0 & Hrun & Hf0 & Hl0 & Hw0 & _).
    rewrite <- Hl0 in Hlookup.
    destruct (register_conflict_found w cluster_domain model_name model_version
                huggingface_model s3_uri s0 mv Hreg Hlookup)
      as (s' & Hreg' & Hf' & before & after & Ht' & Hwb & Hwa).
    rewrite Hrun, Hreg'. mstate.
    split; [reflexivity|]. split; [reflexivity|]. split.
    + rewrite Hf', Hf0. reflexivity.
    + rewrite Ht'. apply Hwrites; assumption.
  - intros w cluster_domain model_name model_version huggingface_model s3_uri e
           Hreach Hreg Hlookup.
    destruct (registrar_reaches_registration _ _ _ _ _ _ Hreach)
      as (s0 & Hrun & Hf0 & Hl0 & Hw0 & _).
    rewrite <- Hl0 in Hlookup.
    destruct (register_conflict_lookup_fails w cluster_domain model_name model_version
                huggingface_model s3_uri s0 Hreg (or_introl (ex_intro _ e Hlookup)))
      as (s' & Hreg' & Hf' & added & Ht' & Hwa).
    rewrite Hrun, Hreg'. mstate.
    split; [reflexivity|]. split.
    + rewrite Hf', Hf0. reflexivity.
    + rewrite Ht', writes_nothing_app, Hw0, Hwa. reflexivity.
  - intros w cluster_domain model_name model_version huggingface_model s3_uri shown mv
           Hreach Hreg Hshown Hlookup.
    destruct (registrar_reaches_registration _ _ _ _ _ _ Hreach)
      as (s0 & Hrun & Hf0 & Hl0 & Hw0 & _).
    change 1 with (S 0) in Hlookup. rewrite <- Hl0 in Hshown, Hlookup.
    destruct (register_first_time w cluster_domain model_name model_version
                huggingface_model s3_uri s0 shown mv Hreg Hshown Hlookup)
      as (s' & Hreg' & Hf' & before & after & Ht' & Hwb & Hwa).
    rewrite Hrun, Hreg'. mstate.
    split; [reflexivity|]. split.
    + rewrite Hf', Hf0. reflexivity.
    + rewrite Ht'. apply Hwrites; assumption.
Qed.

Lemma conflict_is_not_a_failure_witness :
  let environ := Examples.credentials ++
                 [("MODEL_NAME", "llama"); ("MODEL_VERSION", "2");
                  ("MODEL_REGISTRY_URL", "registry.example")] in
  (let w := Examples.with_registry (Err StoreError)
              (fun _ => Ok (Some (mkVersion "42" "llama")))
              (Examples.world environ Examples.files []) in
   fst (run Registrar.main w) = Exit 0 /\
   st_files (snd (run Registrar.main w)) !! Registrar.version_id_file = Some "42") /\
  (let w := Examples.with_registry (Err StoreError)
              (fun _ => Err (OtherError "ConnectionError"))
              (Examples.world environ Examples.files []) in
   fst (run Registrar.main w) = Exit 1) /\
  (let w := Examples.with_registry (Ok tt)
              (fun _ => Ok (Some (mkVersion "42" "llama")))
              (Examples.world environ Examples.files []) in
   exit_code (fst (run Registrar.main w)) = 0 /\
   st_files (snd (run Registrar.main w)) !! Registrar.version_id_file = Some "42").
Proof.
  intros environ.
  destruct conflict_is_not_a_failure as (Hfound & Hfails & Hfirst).
  assert (Hreach : forall reg lookup,
            Registrar.reaches_registration
              (Examples.with_registry reg lookup
                 (Examples.world environ Examples.files []))
              "cluster.local" "llama" (Some "2") "unknown"
              "s3://models/model-data/llama/2").
  { intros reg lookup.
    split; [vm_compute; reflexivity|].
    split; [eexists; vm_compute; reflexivity|].
    split; [vm_compute; reflexivity|].
    split; [vm_compute; reflexivity|].
    split; [exists "llama"; split; vm_compute; reflexivity|].
    split; [vm_compute; reflexivity|].
    split; [vm_compute; reflexivity|].
    right. split; [vm_compute; reflexivity|].
    exists "models". repeat split; vm_compute; reflexivity. }
  split; [|split]; intros w.
  - destruct (Hfound w _ _ _ _ _ (mkVersion "42" "llama") (Hreach _ _))
      as (Hexit & _ & Hfiles & _); [reflexivity | reflexivity |].
    split; [exact Hexit|]. rewrite Hfiles. apply lookup_insert_eq.
  - destruct (Hfails w _ _ _ _ _ (OtherError "ConnectionError") (Hreach _ _))
      as (Hexit & _); [reflexivity | reflexivity |].
    exact Hexit.
  - destruct (Hfirst w _ _ _ _ _ (mkVersion "42" "llama") (mkVersion "42" "llama")
                (Hreach _ _))
      as (Hexit & Hfiles & _); [reflexivity | reflexivity | reflexivity |].
    split; [exact Hexit|]. rewrite Hfiles. apply lookup_insert_eq.
Defined.

(* ===================================================================== *)
(** ** The locator: the Uploader's value and the Registrar's fallback     *)
(* ===================================================================== *)

(** On a model name without upper-case letters the two locators agree. *)
Lemma fallback_agrees_on_lowercase_names (bucket model version : string) :
  Py.lower model = model ->
  Registrar.fallback_s3_uri bucket (Py.lower model) (Some version)
  = Uploader.s3_uri bucket model version.
Proof.
  intros H. rewrite H.
  unfold Registrar.fallback_s3_uri, Uploader.s3_uri, Uploader.s3_prefix.
  reflexivity.
Qed.

(** C1.  With S3_BUCKET=models, MODEL_NAME=Llama and MODEL_VERSION=2 in
    the environment, the Uploader persists s3://models/model-data/Llama/2,
    while the Registrar, run on the same environment with the locator file
    absent, registers the model under s3://models/model-data/llama/2: the
    fallback is built from the lowercased name and the two locators are not
    byte-identical. *)
Theorem fallback_locator_lowercases_model_name :
  let environ := Examples.credentials ++
                 [("MODEL_NAME", "Llama"); ("MODEL_VERSION", "2");
                  ("MODEL_REGISTRY_URL", "registry.example")] in
  let w := Examples.world environ Examples.files [] in
  w_files w !! Registrar.s3_uri_file = None /\
  st_files (snd (run Uploader.main w)) !! Uploader.uri_file
    = Some "s3://models/model-data/Llama/2" /\
  omap registered_uri (st_trace (snd (run Registrar.main w)))
    = ["s3://models/model-data/llama/2"] /\
  Uploader.s3_uri "models" "Llama" "2"
    <> Registrar.fallback_s3_uri "models" (Py.lower "Llama") (Some "2").
Proof.
  intros environ w.
  split; [vm_compute; reflexivity|].
  split; [vm_compute; reflexivity|].
  split; [vm_compute; reflexivity|].
  vm_compute. discriminate.
Qed.

(* ********************************************************************* *)
(** * Further properties                                                  *)
(* ********************************************************************* *)

(* ===================================================================== *)
(** ** Splitting and joining                                              *)
(* ===================================================================== *)

Lemma split_nonempty (sep : ascii) (s : string) : Py.split sep s <> [].
Proof.
  destruct s as [|c s]; simpl; [discriminate|].
  destruct (Ascii.eqb c sep); [discriminate|].
  destruct (Py.split sep s); discriminate.
Qed.

Lemma split_without_sep (sep : ascii) (x : string) :
  Text.occurs sep x = false -> Py.split sep x = [x].
Proof.
  induction x as [|c x IH]; simpl; intros H; [reflexivity|].
  apply orb_false_elim in H. destruct H as [Hc Hx].
  rewrite Hc, (IH Hx). reflexivity.
Qed.

Lemma split_field_then_sep (sep : ascii) (x rest : string) :
  Text.occurs sep x = false ->
  Py.split sep (x +:+ String sep rest) = x :: Py.split sep rest.
Proof.
  induction x as [|c x IH]; intros H.
  - rewrite append_nil. simpl. rewrite Ascii.eqb_refl. reflexivity.
  - simpl in H. apply orb_false_elim in H. destruct H as [Hc Hx].
    rewrite append_cons. simpl. rewrite Hc, (IH Hx). reflexivity.
Qed.

(** Splitting undoes joining, for fields that do not hold the separator. *)
Lemma split_join (sep : ascii) (l : list string) :
  l <> [] ->
  Forall (fun x => Text.occurs sep x = false) l ->
  Py.split sep (Text.join sep l) = l.
Proof.
  induction l as [|x rest IH]; intros Hne Hall; [contradiction|].
  inversion Hall as [|? ? Hx Hrest]; subst.
  destruct rest as [|y rest'].
  - simpl. apply split_without_sep, Hx.
  - change (Text.join sep (x :: y :: rest'))
      with (x +:+ String sep (Text.join sep (y :: rest'))).
    rewrite (split_field_then_sep sep x _ Hx), IH; [reflexivity | discriminate | exact Hrest].
Qed.

(** Joining undoes splitting, for every string. *)
Lemma join_split (sep : ascii) (s : string) : Text.join sep (Py.split sep s) = s.
Proof.
  induction s as [|c s IH]; [reflexivity|].
  simpl. destruct (Ascii.eqb c sep) eqn:Hc.
  - apply Ascii.eqb_eq in Hc. subst c.
    pose proof (split_nonempty sep s) as Hne.
    destruct (Py.split sep s) as [|h t] eqn:E; [contradiction|].
    change (Text.join sep ("" :: h :: t)) with ("" +:+ String sep (Text.join sep (h :: t))).
    rewrite IH. reflexivity.
  - pose proof (split_nonempty sep s) as Hne.
    destruct (Py.split sep s) as [|h t] eqn:E; [contradiction|].
    destruct t as [|h' t'].
    + simpl in IH. simpl. rewrite IH. reflexivity.
    + change (Text.join sep (String c h :: h' :: t'))
        with (String c h +:+ String sep (Text.join sep (h' :: t'))).
      change (Text.join sep (h :: h' :: t'))
        with (h +:+ String sep (Text.join sep (h' :: t'))) in IH.
      rewrite append_cons, IH. reflexivity.
Qed.

(** No field of a split holds the separator. *)
Lemma split_fields_without_sep (sep : ascii) (s : string) :
  Forall (fun x => Text.occurs sep x = false) (Py.split sep s).
Proof.
  induction s as [|c s IH]; simpl.
  - repeat constructor.
  - destruct (Ascii.eqb c sep) eqn:Hc.
    + constructor; [reflexivity | exact IH].
    + destruct (Py.split sep s) as [|h t]; [repeat constructor; simpl; rewrite Hc; reflexivity|].
      inversion IH as [|? ? Hh Ht]; subst.
      constructor; [simpl; rewrite Hc, Hh; reflexivity | exact Ht].
Qed.

Lemma drop_append (p rest : string) :
  Text.drop (String.length p) (p +:+ rest) = rest.
Proof.
  induction p as [|c p IH]; [destruct rest; reflexivity|].
  rewrite append_cons. simpl. exact IH.
Qed.

(* ===================================================================== *)
(** ** The skip list                                                      *)
(* ===================================================================== *)

(** X1.  With the skip list written as names joined by commas, none of
    them holding a comma, a task is skipped exactly when its identifier is
    one of the names, compared as it stands (no trimming, no case folding):
    a listed task makes both scripts exit 0 after the skip notice, an
    unlisted one makes both go on with their task. *)
Theorem skip_list_names (w : World) (t : string) (names : list string) :
  w_environ w !! "SKIP_TASK" = Some t ->
  w_environ w !! "SKIP_TASKS" = Some (Text.join "," names) ->
  names <> [] ->
  Forall (fun x => Text.occurs "," x = false) names ->
  skip_requested (w_environ w) = bool_decide (t ∈ names) /\
  (In t names ->
   fst (run Uploader.main w) = Exit 0 /\ fst (run Registrar.main w) = Exit 0) /\
  (~ In t names ->
   run Uploader.main w = Uploader.task w (after_banner w) /\
   run Registrar.main w = Registrar.task w (after_banner w)).
Proof.
  intros Ht Hts Hne Hall.
  assert (Hskip : skip_requested (w_environ w) = bool_decide (t ∈ names)).
  { unfold skip_requested. rewrite Ht, Hts. simpl.
    rewrite (split_join "," names Hne Hall). reflexivity. }
  split; [exact Hskip|]. split.
  - intros Hin.
    assert (H : skip_requested (w_environ w) = true).
    { rewrite Hskip. apply bool_decide_eq_true_2, list_elem_of_In, Hin. }
    rewrite (uploader_skipped w H), (registrar_skipped w H). split; reflexivity.
  - intros Hnotin.
    assert (H : skip_requested (w_environ w) = false).
    { rewrite Hskip. apply bool_decide_eq_false_2.
      intros Hin. apply Hnotin, list_elem_of_In, Hin. }
    split; [apply uploader_not_skipped | apply registrar_not_skipped]; exact H.
Qed.

Lemma skip_list_names_witness :
  (let w := Examples.world
              [("SKIP_TASK", "register"); ("SKIP_TASKS", "download,upload,register")]
              ∅ [] in
   fst (run Uploader.main w) = Exit 0 /\ fst (run Registrar.main w) = Exit 0) /\
  (let w := Examples.world
              [("SKIP_TASK", "upload"); ("SKIP_TASKS", "download, upload")]
              ∅ [] in
   skip_requested (w_environ w) = false).
Proof.
  split; intros w.
  - destruct (skip_list_names w "register" ["download"; "upload"; "register"])
      as (_ & Hin & _).
    + vm_compute. reflexivity.
    + vm_compute. reflexivity.
    + discriminate.
    + repeat constructor.
    + apply Hin. right. right. left. reflexivity.
  - destruct (skip_list_names w "upload" ["download"; " upload"]) as (H & _).
    + vm_compute. reflexivity.
    + vm_compute. reflexivity.
    + discriminate.
    + repeat constructor.
    + rewrite H. vm_compute. reflexivity.
Defined.

(** X2.  An identifier that holds a comma is never skipped, whatever the
    skip list: no field of the comma-split list holds a comma. *)
Theorem identifier_with_comma_is_never_skipped (w : World) (t : string) :
  w_environ w !! "SKIP_TASK" = Some t ->
  Text.occurs "," t = true ->
  skip_requested (w_environ w) = false /\
  run Uploader.main w = Uploader.task w (after_banner w) /\
  run Registrar.main w = Registrar.task w (after_banner w).
Proof.
  intros Ht Hcomma.
  assert (H : skip_requested (w_environ w) = false).
  { unfold skip_requested. rewrite Ht. simpl. apply bool_decide_eq_false_2.
    intros Hin.
    pose proof (split_fields_without_sep "," (default "" (w_environ w !! "SKIP_TASKS")))
      as Hall.
    rewrite Forall_forall in Hall.
    rewrite (Hall t Hin) in Hcomma. discriminate. }
  split; [exact H|].
  split; [apply uploader_not_skipped | apply registrar_not_skipped]; exact H.
Qed.

Lemma identifier_with_comma_is_never_skipped_witness :
  let w := Examples.world [("SKIP_TASK", "a,b"); ("SKIP_TASKS", "a,b")] ∅ [] in
  skip_requested (w_environ w) = false.
Proof.
  intros w.
  destruct (identifier_with_comma_is_never_skipped w "a,b") as (H & _).
  - vm_compute. reflexivity.
  - reflexivity.
  - exact H.
Defined.

(* ===================================================================== *)
(** ** The Uploader: checks before the loop                               *)
(* ===================================================================== *)

(** The test [error_code == '404'] of the two bucket checks. *)
Lemma on_404 {A : Type} (code : string) (a b : A) :
  match ClientError code with
  | ClientError "404" => a
  | _ => b
  end = if String.eqb code "404" then a else b.
Proof.
  destruct code as [|[b0 b1 b2 b3 b4 b5 b6 b7] code]; [reflexivity|].
  destruct b0, b1, b2, b3, b4, b5, b6, b7; try reflexivity.
  destruct code as [|[b0 b1 b2 b3 b4 b5 b6 b7] code]; [reflexivity|].
  destruct b0, b1, b2, b3, b4, b5, b6, b7; try reflexivity.
  destruct code as [|[b0 b1 b2 b3 b4 b5 b6 b7] code]; [reflexivity|].
  destruct b0, b1, b2, b3, b4, b5, b6, b7; try reflexivity.
  destruct code; reflexivity.
Qed.

Lemma uploader_connect_spec (w : World) (bucket access_key secret_key : string)
    (endpoint_url : option string) (s : State) :
  Uploader.connect w bucket access_key secret_key endpoint_url s =
    let opened := [Boto3Client (Uploader.s3_config access_key secret_key endpoint_url);
                   HeadBucket bucket] in
    match w_head_bucket w bucket with
    | Ok _ =>
        (Ret tt, logged s (opened ++ [Log INFO "Connected to S3 bucket: {}" [AStr bucket]]))
    | Err (ClientError code) =>
        (Exit 1,
         logged s (opened ++
                   [if String.eqb code "404"
                    then Log ERROR "Bucket '{}' does not exist" [AStr bucket]
                    else Log ERROR "Error accessing bucket: {}" [AExn (ClientError code)]]))
    | Err e => (Raise e, logged s opened)
    end.
Proof.
  unfold Uploader.connect, try_except, logged. munfold. mstate.
  destruct (w_head_bucket w bucket) as [[] | e]; simpl.
  - rewrite <- !app_assoc. reflexivity.
  - destruct e; simpl; try (rewrite <- !app_assoc; reflexivity).
    rewrite (@on_404 (M unit) code _ _).
    destruct (String.eqb code "404"); mstate; rewrite <- !app_assoc; reflexivity.
Qed.

Lemma uploader_configured_run (w : World) (bucket model version dir : string) :
  UploaderRun.configured w bucket model version dir ->
  run Uploader.main w =
    Uploader.upload w bucket
      (default "" (w_environ w !! "AWS_ACCESS_KEY_ID"))
      (default "" (w_environ w !! "AWS_SECRET_ACCESS_KEY"))
      model (w_environ w !! "S3_ENDPOINT_URL") version
      (default "/workspace/shared-workspace/model" (w_environ w !! "WORKSPACE_PATH"))
      (after_banner w).
Proof.
  intros (Hskip & Hb & Hbne & Hak & Hsk & Hm & Hmne & Hver & Hdir).
  rewrite (uploader_not_skipped w Hskip).
  unfold Uploader.task, after_banner. munfold. mstate.
  rewrite Hb, Hm, Hak, Hsk, Hver.
  change (Py.truthy (Some bucket)) with (Py.nonempty bucket).
  change (Py.truthy (Some model)) with (Py.nonempty model).
  rewrite Hbne, Hmne. reflexivity.
Qed.

(** X3.  A configured Uploader whose bucket check is refused with the
    client error exits 1 right after it, with one error line that tells a
    missing bucket (code 404) from any other refusal; any other exception of
    the check is not caught and ends the run with it.  Either way nothing is
    uploaded and no file is written. *)
Theorem bucket_check_failure_stops_uploader (w : World) (bucket model version dir : string) :
  UploaderRun.configured w bucket model version dir ->
  let opened :=
    [Print banner [];
     Boto3Client (Uploader.s3_config
                    (default "" (w_environ w !! "AWS_ACCESS_KEY_ID"))
                    (default "" (w_environ w !! "AWS_SECRET_ACCESS_KEY"))
                    (w_environ w !! "S3_ENDPOINT_URL"));
     HeadBucket bucket] in
  (forall code,
     w_head_bucket w bucket = Err (ClientError code) ->
     fst (run Uploader.main w) = Exit 1 /\
     st_trace (snd (run Uploader.main w)) =
       opened ++
       [if String.eqb code "404"
        then Log ERROR "Bucket '{}' does not exist" [AStr bucket]
        else Log ERROR "Error accessing bucket: {}" [AExn (ClientError code)]] /\
     st_files (snd (run Uploader.main w)) = w_files w) /\
  (forall e,
     is_ClientError e = false ->
     w_head_bucket w bucket = Err e ->
     fst (run Uploader.main w) = Raise e /\
     st_trace (snd (run Uploader.main w)) = opened /\
     st_files (snd (run Uploader.main w)) = w_files w).
Proof.
  intros Hcfg opened. rewrite (uploader_configured_run w _ _ _ _ Hcfg).
  unfold Uploader.upload. munfold. rewrite uploader_connect_spec. cbv zeta.
  split.
  - intros code Hhead. rewrite Hhead. repeat split.
  - intros e Hne Hhead. rewrite Hhead.
    destruct e; try discriminate Hne; repeat split.
Qed.

Lemma bucket_check_failure_stops_uploader_witness :
  let base := Examples.world
                (Examples.credentials ++ [("MODEL_NAME", "Llama")]) ∅ [] in
  let w := {| w_environ := w_environ base; w_files := w_files base;
              w_dirs := w_dirs base; w_now := w_now base;
              w_head_bucket := fun _ => Err (ClientError "404");
              w_upload_file := w_upload_file base;
              w_paginate := w_paginate base;
              w_paginate_error := w_paginate_error base;
              w_get_object := w_get_object base;
              w_register_model := w_register_model base;
              w_get_model_version := w_get_model_version base |} in
  fst (run Uploader.main w) = Exit 1 /\
  In (Log ERROR "Bucket '{}' does not exist" [AStr "models"])
     (st_trace (snd (run Uploader.main w))).
Proof.
  intros base w.
  destruct (bucket_check_failure_stops_uploader w "models" "Llama" "1.0.0"
              "/workspace/shared-workspace/model") as [H _].
  - repeat split; vm_compute; reflexivity.
  - destruct (H "404" eq_refl) as (Hexit & Htrace & _).
    split; [exact Hexit|]. rewrite Htrace. vm_compute. tauto.
Defined.



(* ===================================================================== *)
(** ** The Uploader: every run                                            *)
(* ===================================================================== *)

Section UploaderAnyRun.

Variable w : World.
Variables model_dir bucket model version : string.

Let loop := Uploader.upload_loop w model_dir bucket model version.
Let key := Uploader.key_of model version.
Let path := Uploader.path_of model_dir.
Let permitted := UploaderRun.permitted model_dir bucket model version.

(** One pass of the loop over a regular file, whatever the store answers. *)
Lemma uploader_step (e : dir_entry) (rest : list dir_entry)
    (acc : nat * nat) (s : State) :
  e_is_file e = true ->
  loop (e :: rest) acc s =
    let attempt :=
      logged (ticked s)
        [UploadFile (path e) bucket (key e)
           (Uploader.metadata model version (w_now w (st_clock s)))] in
    match w_upload_file w (path e) bucket (key e) with
    | Ok _ =>
        loop rest (S (fst acc), snd acc + e_size e)
          (logged attempt
             [Log INFO "   v {} ({:,} bytes)" [AStr (e_rel e); AGrouped (e_size e)]])
    | Err (ClientError code) =>
        (Exit 1,
         logged attempt
           [Log ERROR "   x Failed to upload {}: {}"
              [AStr (e_rel e); AExn (ClientError code)]])
    | Err err => (Raise err, attempt)
    end.
Proof.
  intros Hfile. unfold loop. simpl. rewrite Hfile.
  unfold try_except, now, logged, ticked. munfold. mstate. fold path key.
  destruct (w_upload_file w (path e) bucket (key e)) as [[] | err]; simpl;
    [reflexivity|].
  destruct err; reflexivity.
Qed.

Lemma permitted_weaken (e : dir_entry) (rest : list dir_entry) (ev : event) :
  permitted rest ev -> permitted (e :: rest) ev.
Proof.
  unfold permitted, UploaderRun.permitted. destruct ev; try exact (fun H => H).
  intros (Hb & en & t & Hin & H). split; [exact Hb|].
  exists en, t. split; [right; exact Hin | exact H].
Qed.

(** Whatever the store answers, the loop touches neither the files nor the
    environment, and adds to the trace only log lines and uploads of regular
    files among its entries; it ends normally, with exit 1, or with an
    exception that is not the client error. *)
Lemma uploader_loop_any (entries : list dir_entry) :
  forall acc s,
  exists added,
    st_trace (snd (loop entries acc s)) = st_trace s ++ added /\
    st_files (snd (loop entries acc s)) = st_files s /\
    st_environ (snd (loop entries acc s)) = st_environ s /\
    writes_nothing added = true /\
    Forall (permitted entries) added /\
    match fst (loop entries acc s) with
    | Ret _ => True
    | Exit n => n = 1
    | Raise e => is_ClientError e = false
    end.
Proof.
  induction entries as [|e rest IH]; intros acc s.
  - exists []. simpl. rewrite app_nil_r. repeat split. constructor.
  - destruct (e_is_file e) eqn:Hfile.
    + rewrite (uploader_step e rest acc s Hfile). cbv zeta.
      assert (Hup : permitted (e :: rest)
                (UploadFile (path e) bucket (key e)
                   (Uploader.metadata model version (w_now w (st_clock s))))).
      { split; [reflexivity|]. exists e, (w_now w (st_clock s)).
        repeat split; [left; reflexivity | exact Hfile]. }
      destruct (w_upload_file w (path e) bucket (key e)) as [[] | err].
      * match goal with
        | |- context [loop rest ?a ?s0] =>
            destruct (IH a s0) as (added & Ht & Hf & He & Hw & Hall & Hout)
        end.
        eexists. split; [rewrite Ht; unfold logged, ticked; mstate;
                         rewrite <- !app_assoc; reflexivity|].
        split; [exact Hf|]. split; [exact He|].
        split; [simpl; exact Hw|]. split; [|exact Hout].
        constructor; [exact Hup|]. constructor; [exact I|].
        eapply Forall_impl; [exact Hall | intros ev; apply permitted_weaken].
      * destruct err; simpl;
          (eexists; split; [rewrite <- ?app_assoc; reflexivity|];
           repeat split; repeat (constructor; try exact Hup; try exact I)).
    + unfold loop in *. simpl. rewrite Hfile.
      destruct (IH acc s) as (added & Ht & Hf & He & Hw & Hall & Hout).
      exists added. repeat split; try assumption.
      eapply Forall_impl; [exact Hall | intros ev; apply permitted_weaken].
Qed.

End UploaderAnyRun.

Lemma no_write_filtered (l : list event) :
  writes_nothing l = true -> List.filter is_file_write l = [].
Proof.
  induction l as [|x l IH]; [reflexivity|]. unfold writes_nothing. simpl.
  intros H. apply andb_prop in H. destruct H as [Hx Hl].
  destruct (is_file_write x); [discriminate Hx | apply IH, Hl].
Qed.

Ltac all_permitted :=
  cbn [from_option id];
  repeat first
    [ assumption
    | exact I
    | apply Forall_app; split
    | constructor ].

Lemma uploader_finish_spec (bucket model version : string) (acc : nat * nat) (s : State) :
  Uploader.finish bucket model version acc s =
    (Ret tt,
     {| st_environ := st_environ s;
        st_files := <[Uploader.uri_file := Uploader.s3_uri bucket model version]> (st_files s);
        st_trace :=
          st_trace s ++
          [Log INFO "Uploaded {} files ({:,} bytes)" [ANat (fst acc); AGrouped (snd acc)];
           Log INFO "   S3 Location: s3://{}/{}/"
             [AStr bucket; AStr (Uploader.s3_prefix model version)];
           WriteFile Uploader.uri_file (Uploader.s3_uri bucket model version);
           Log INFO "   Saved S3 URI to: {}" [AStr Uploader.uri_file];
           Print "Model upload complete!" [];
           Print "   Model: {} v{}" [AStr model; AStr version];
           Print "   S3 URI: {}" [AStr (Uploader.s3_uri bucket model version)];
           Print "   Files: {} ({:,} bytes)" [ANat (fst acc); AGrouped (snd acc)]];
        st_clock := st_clock s; st_lookups := st_lookups s |}).
Proof.
  unfold Uploader.finish, write_file. munfold. mstate.
  rewrite <- !app_assoc. reflexivity.
Qed.

(** The script from the client construction on, whatever the outside
    answers: its events are permitted ones, and it either ends normally
    having written the locator file, once, or ends otherwise having written
    nothing. *)
Lemma uploader_upload_any (w : World) (bucket access_key secret_key model : string)
    (endpoint_url : option string) (version dir : string) (s : State) :
  let r := Uploader.upload w bucket access_key secret_key model endpoint_url
             version dir s in
  let uri := Uploader.s3_uri bucket model version in
  exists added,
    st_trace (snd r) = st_trace s ++ added /\
    st_environ (snd r) = st_environ s /\
    Forall (UploaderRun.permitted (Paths.normal dir) bucket model version
              (default [] (w_dirs w !! Paths.normal dir)))
           added /\
    ((fst r = Ret tt /\
      st_files (snd r) = <[Uploader.uri_file := uri]> (st_files s) /\
      List.filter is_file_write added = [WriteFile Uploader.uri_file uri]) \/
     (exit_code (fst r) = 1 /\
      st_files (snd r) = st_files s /\
      writes_nothing added = true)).
Proof.
  intros r uri. subst r. unfold Uploader.upload. munfold.
  rewrite uploader_connect_spec. cbv zeta. unfold logged.
  generalize (Paths.normal dir). clear dir. intros dir.
  destruct (w_head_bucket w bucket) as [[] | e].
  - destruct (w_dirs w !! dir) as [entries|] eqn:Hdir.
    + mstate.
      match goal with
      | |- context [Uploader.upload_loop w dir bucket model version entries ?a ?s0] =>
          destruct (uploader_loop_any w dir bucket model version entries a s0)
            as (added & Ht & Hf & He & Hw & Hall & Hout);
          destruct (Uploader.upload_loop w dir bucket model version entries a s0)
            as [[acc | n | e] s1] eqn:Hloop
      end; mstate.
      * rewrite uploader_finish_spec. mstate. rewrite Ht, Hf, He.
        unfold logged. mstate.
        eexists. split; [rewrite <- !app_assoc; reflexivity|].
        split; [reflexivity|]. split.
        -- all_permitted.
        -- left. split; [reflexivity|]. split; [reflexivity|].
           rewrite !List.filter_app, (no_write_filtered _ Hw). reflexivity.
      * rewrite Ht, Hf, He. unfold logged. mstate.
        eexists. split; [rewrite <- !app_assoc; reflexivity|].
        split; [reflexivity|]. split.
        -- all_permitted.
        -- right. simpl in Hout. subst n. split; [reflexivity|].
           split; [reflexivity|]. rewrite !writes_nothing_app, Hw. reflexivity.
      * rewrite Ht, Hf, He. unfold logged. mstate.
        eexists. split; [rewrite <- !app_assoc; reflexivity|].
        split; [reflexivity|]. split.
        -- all_permitted.
        -- right. split; [reflexivity|]. split; [reflexivity|].
           rewrite !writes_nothing_app, Hw. reflexivity.
    + unfold logged. mstate.
      eexists. split; [rewrite <- !app_assoc; reflexivity|].
      split; [reflexivity|]. split; [all_permitted|].
      right. repeat split.
  - destruct e; mstate;
      (eexists; split; [reflexivity|]; split; [reflexivity|];
       split; [try destruct (String.eqb _ _); all_permitted|]; right;
       try destruct (String.eqb _ _); repeat split).
Qed.

Lemma uploader_task_shape (w : World) :
  Uploader.task w (after_banner w) =
    (if negb (Py.all [Py.truthy (w_environ w !! "S3_BUCKET");
                      Py.truthy (w_environ w !! "AWS_ACCESS_KEY_ID");
                      Py.truthy (w_environ w !! "AWS_SECRET_ACCESS_KEY");
                      Py.truthy (w_environ w !! "MODEL_NAME")])
     then (Exit 1,
           logged (after_banner w)
             [Log ERROR "Missing required environment variables" [];
              Log ERROR "Required: S3_BUCKET, AWS_ACCESS_KEY_ID, AWS_SECRET_ACCESS_KEY, MODEL_NAME" []])
     else Uploader.upload w (UploaderRun.bucket_of w)
            (default "" (w_environ w !! "AWS_ACCESS_KEY_ID"))
            (default "" (w_environ w !! "AWS_SECRET_ACCESS_KEY"))
            (UploaderRun.model_of w) (w_environ w !! "S3_ENDPOINT_URL")
            (UploaderRun.version_of w) (UploaderRun.workspace_path_of w)
            (after_banner w)).
Proof.
  unfold Uploader.task, after_banner, logged. munfold. mstate.
  destruct (negb _); [rewrite <- !app_assoc|]; reflexivity.
Qed.

(** X5.  In every run, whatever the environment and whatever the store
    answers, the Uploader writes the locator file only when it ends normally:
    a run that ends normally has written
    /workspace/shared-workspace/model_s3_uri once, with the locator of its
    bucket, model and version, and nothing else; a run that ends in any other
    way (skipped, misconfigured, bucket check or directory check failed, an
    upload failed) leaves every file as it was. *)
Theorem uploader_writes_locator_only_on_success (w : World) :
  let uri := Uploader.s3_uri (UploaderRun.bucket_of w) (UploaderRun.model_of w)
               (UploaderRun.version_of w) in
  (fst (run Uploader.main w) = Ret tt /\
   st_files (snd (run Uploader.main w)) = <[Uploader.uri_file := uri]> (w_files w) /\
   List.filter is_file_write (st_trace (snd (run Uploader.main w)))
     = [WriteFile Uploader.uri_file uri]) \/
  (fst (run Uploader.main w) <> Ret tt /\
   st_files (snd (run Uploader.main w)) = w_files w /\
   writes_nothing (st_trace (snd (run Uploader.main w))) = true).
Proof.
  intros uri. destruct (skip_requested (w_environ w)) eqn:Hskip.
  - rewrite (uploader_skipped w Hskip). right. repeat split. discriminate.
  - rewrite (uploader_not_skipped w Hskip), uploader_task_shape.
    destruct (negb _).
    + right. repeat split. discriminate.
    + match goal with
      | |- context [Uploader.upload w ?b ?ak ?sk ?m ?ep ?v ?d ?s] =>
          destruct (uploader_upload_any w b ak sk m ep v d s)
            as (added & Ht & _ & _ & Hcase)
      end.
      rewrite Ht. unfold after_banner in *. mstate.
      destruct Hcase as [(Hret & Hf & Hw) | (Hcode & Hf & Hw)].
      * left. split; [exact Hret|]. split; [exact Hf|]. simpl. exact Hw.
      * right. split; [|split; [exact Hf | simpl; exact Hw]].
        intros Hret. rewrite Hret in Hcode. discriminate Hcode.
Qed.

(** X6.  In every run, whatever the environment and whatever the store
    answers, the Uploader does nothing but print and log, construct its
    client, check its bucket, write a file, and upload regular files of the
    model directory: each upload goes to the configured bucket, from the
    file's local path (the path of the model directory with the relative
    path joined to it, as the path library writes it), under the key
    model-data/{model}/{version}/{relative path}, with the Uploader's
    metadata.  Directories are never uploaded, nothing is listed or fetched,
    and the registry is never called; the environment is left as it was. *)
Theorem uploader_uploads_only_model_files (w : World) :
  Forall (UploaderRun.permitted (UploaderRun.dir_of w) (UploaderRun.bucket_of w)
            (UploaderRun.model_of w) (UploaderRun.version_of w)
            (UploaderRun.entries_of w))
         (st_trace (snd (run Uploader.main w))) /\
  st_environ (snd (run Uploader.main w)) = w_environ w.
Proof.
  destruct (skip_requested (w_environ w)) eqn:Hskip.
  - rewrite (uploader_skipped w Hskip). split; [repeat constructor | reflexivity].
  - rewrite (uploader_not_skipped w Hskip), uploader_task_shape.
    destruct (negb _).
    + split; [repeat constructor | reflexivity].
    + match goal with
      | |- context [Uploader.upload w ?b ?ak ?sk ?m ?ep ?v ?d ?s] =>
          destruct (uploader_upload_any w b ak sk m ep v d s)
            as (added & Ht & He & Hall & _)
      end.
      rewrite Ht, He. unfold after_banner. mstate. split; [|reflexivity].
      constructor; [exact I | exact Hall].
Qed.

Lemma uploader_uploads_only_model_files_witness :
  let w := Examples.world
             (Examples.credentials ++
              [("MODEL_NAME", "Llama");
               ("WORKSPACE_PATH", "/workspace//shared-workspace/model/")]) ∅ [] in
  UploaderRun.dir_of w = "/workspace/shared-workspace/model" /\
  omap (fun ev => match ev with UploadFile f _ _ _ => Some f | _ => None end)
       (st_trace (snd (run Uploader.main w)))
    = ["/workspace/shared-workspace/model/weights/a.safetensors";
       "/workspace/shared-workspace/model/config.json";
       "/workspace/shared-workspace/model/tokenizer.json"] /\
  forall f b k md,
    In (UploadFile f b k md) (st_trace (snd (run Uploader.main w))) ->
    b = "models" /\
    exists en, In en Examples.model_dir /\ e_is_file en = true /\
               f = Uploader.path_of "/workspace/shared-workspace/model" en.
Proof.
  intros w. split; [vm_compute; reflexivity|]. split; [vm_compute; reflexivity|].
  intros f b k md Hin.
  destruct (uploader_uploads_only_model_files w) as [Hall _].
  rewrite List.Forall_forall in Hall. specialize (Hall _ Hin).
  destruct Hall as (Hb & en & t & Hen & Hfile & Hf & _).
  split; [exact Hb|]. exists en. repeat split; assumption.
Defined.

Lemma uploader_loop_unexpected (w : World) (dir bucket model version : string)
    (pre post : list dir_entry) (f : dir_entry) (e : exn) :
  Uploader.all_uploads_succeed w bucket model version dir pre ->
  e_is_file f = true ->
  w_upload_file w (Uploader.path_of dir f) bucket (Uploader.key_of model version f)
    = Err e ->
  is_ClientError e = false ->
  forall acc s,
  exists s',
    Uploader.upload_loop w dir bucket model version (pre ++ f :: post) acc s
      = (Raise e, s') /\
    grown_by (map (Uploader.key_of model version) (regular_files pre)
              ++ [Uploader.key_of model version f]) s s'.
Proof.
  intros Hpre Hfile Herr Hne.
  induction pre as [|x rest IH]; intros acc s.
  - simpl app. rewrite (uploader_step w dir bucket model version f post acc s Hfile).
    cbv zeta. rewrite Herr.
    destruct e; try discriminate Hne;
      (eexists; split; [reflexivity|]; repeat split;
       eexists; split; [reflexivity|]; split; reflexivity).
  - assert (Hrest : Uploader.all_uploads_succeed w bucket model version dir rest)
      by (intros e' Hin; apply Hpre; right; exact Hin).
    simpl app. destruct (e_is_file x) eqn:Hx.
    + destruct (uploader_step_ok w dir bucket model version x (rest ++ f :: post)
                  acc s Hx) as (s1 & Hstep & Hg1).
      { apply Hpre; [left; reflexivity | exact Hx]. }
      destruct (IH Hrest (S (fst acc), snd acc + e_size x) s1) as (s' & Hloop & Hg).
      exists s'. rewrite Hstep, Hloop. split; [reflexivity|].
      unfold regular_files in *. simpl. rewrite ?Hx. simpl.
      apply (grown_by_trans [Uploader.key_of model version x] _ s s1 s'); assumption.
    + rewrite (uploader_step_skip w dir bucket model version x (rest ++ f :: post)
                 acc s Hx).
      destruct (IH Hrest acc s) as (s' & Hloop & Hg).
      exists s'. rewrite Hloop. split; [reflexivity|].
      unfold regular_files in *. simpl. rewrite ?Hx. exact Hg.
Qed.

(** X7.  An upload that raises anything but the client error is not
    caught by the Uploader: the run ends with that exception (exit status 1)
    at that file, the files after it are not attempted, and the locator file
    is not written. *)
Theorem unexpected_upload_error_ends_uploader (w : World)
    (bucket model version dir : string) (pre post : list dir_entry)
    (f : dir_entry) (e : exn) :
  Uploader.reaches_loop w bucket model version dir (pre ++ f :: post) ->
  Uploader.all_uploads_succeed w bucket model version dir pre ->
  e_is_file f = true ->
  w_upload_file w (Uploader.path_of dir f) bucket (Uploader.key_of model version f)
    = Err e ->
  is_ClientError e = false ->
  fst (run Uploader.main w) = Raise e /\
  exit_code (fst (run Uploader.main w)) = 1 /\
  attempted_keys (st_trace (snd (run Uploader.main w))) =
    map (Uploader.key_of model version) (regular_files pre)
    ++ [Uploader.key_of model version f] /\
  st_files (snd (run Uploader.main w)) = w_files w.
Proof.
  intros Hreach Hpre Hfile Herr Hne.
  destruct (uploader_reaches_loop w bucket model version dir _ Hreach)
    as (s0 & Hrun & _ & Hf0 & Hk0 & _).
  destruct (uploader_loop_unexpected w dir bucket model version pre post f e
              Hpre Hfile Herr Hne (0, 0) s0)
    as (s1 & Hloop & _ & Hf1 & added & Ht1 & Hk1 & _).
  rewrite Hrun. munfold. rewrite Hloop. mstate.
  split; [reflexivity|]. split; [reflexivity|]. split.
  - rewrite Ht1, attempted_keys_app, Hk0, Hk1. reflexivity.
  - rewrite Hf1, Hf0. reflexivity.
Qed.

Lemma unexpected_upload_error_ends_uploader_witness :
  let w := Examples.with_failing_upload "model-data/Llama/2/config.json"
             (OtherError "EndpointConnectionError")
             (Examples.world
                (Examples.credentials ++ [("MODEL_NAME", "Llama"); ("MODEL_VERSION", "2")])
                ∅ []) in
  fst (run Uploader.main w) = Raise (OtherError "EndpointConnectionError") /\
  attempted_keys (st_trace (snd (run Uploader.main w))) =
    ["model-data/Llama/2/weights/a.safetensors"; "model-data/Llama/2/config.json"].
Proof.
  intros w.
  destruct (unexpected_upload_error_ends_uploader w "models" "Llama" "2"
              "/workspace/shared-workspace/model"
              [mkEntry "weights" false 0; mkEntry "weights/a.safetensors" true 10]
              [mkEntry "tokenizer.json" true 7]
              (mkEntry "config.json" true 5) (OtherError "EndpointConnectionError"))
    as (Hexit & _ & Hkeys & _).
  - repeat split; vm_compute; reflexivity.
  - intros e [<- | [<- | []]] Hfile; [discriminate Hfile | reflexivity].
  - reflexivity.
  - reflexivity.
  - reflexivity.
  - split; [exact Hexit | exact Hkeys].
Defined.

(* ===================================================================== *)
(** ** The Evaluation Storage Utility: construction and upload            *)
(* ===================================================================== *)

(** X8.  Constructing the storage constructs the client and checks the
    bucket, once each.  With the check passing, the instance carries the
    bucket name; a client error of the check is logged (a missing bucket,
    code 404, told from any other refusal) and raised again to the caller;
    any other exception passes without a log line. *)
Theorem storage_construction (w : World) (bucket : string)
    (endpoint_url access_key secret_key : option string) (s : State) :
  let opened :=
    [Boto3Client (S3EvaluationStorage.s3_config endpoint_url access_key secret_key);
     HeadBucket bucket] in
  S3EvaluationStorage.init w bucket endpoint_url access_key secret_key s =
    match w_head_bucket w bucket with
    | Ok _ =>
        (Ret (S3EvaluationStorage.mkStorage bucket),
         logged s (opened ++ [Log INFO "Connected to S3 bucket: {}" [AStr bucket]]))
    | Err (ClientError code) =>
        (Raise (ClientError code),
         logged s (opened ++
                   [if String.eqb code "404"
                    then Log ERROR "Bucket '{}' does not exist" [AStr bucket]
                    else Log ERROR "Error accessing bucket: {}" [AExn (ClientError code)]]))
    | Err e => (Raise e, logged s opened)
    end.
Proof.
  unfold S3EvaluationStorage.init, try_except, logged. munfold. mstate.
  destruct (w_head_bucket w bucket) as [[] | e]; simpl.
  - rewrite <- !app_assoc. reflexivity.
  - destruct e; simpl; try (rewrite <- !app_assoc; reflexivity).
    rewrite (@on_404 (M unit) code _ _).
    destruct (String.eqb code "404"); mstate; rewrite <- !app_assoc; reflexivity.
Qed.

Section EvaluationAnyRun.

Variable w : World.
Variable self : S3EvaluationStorage.t.
Variables results_dir model version evaluation_id : string.

Let loop := S3EvaluationStorage.upload_loop w self results_dir model version evaluation_id.
Let key := S3EvaluationStorage.key_of model version evaluation_id.
Let path := S3EvaluationStorage.path_of results_dir.
Let bucket := S3EvaluationStorage.bucket_name self.

(** One pass of the loop over a regular file, whatever the store answers. *)
Lemma evaluation_step (e : dir_entry) (rest : list dir_entry)
    (acc : nat * nat) (s : State) :
  e_is_file e = true ->
  loop (e :: rest) acc s =
    let attempt :=
      logged (ticked s)
        [UploadFile (path e) bucket (key e)
           (S3EvaluationStorage.metadata model version evaluation_id
              (w_now w (st_clock s)))] in
    match w_upload_file w (path e) bucket (key e) with
    | Ok _ =>
        loop rest (S (fst acc), snd acc + e_size e)
          (logged attempt
             [Log DEBUG "   v {} ({} bytes)" [AStr (e_rel e); ANat (e_size e)]])
    | Err (ClientError code) =>
        loop rest acc
          (logged attempt
             [Log ERROR "   x Failed to upload {}: {}"
                [AStr (e_rel e); AExn (ClientError code)]])
    | Err err => (Raise err, attempt)
    end.
Proof.
  intros Hfile. unfold loop. simpl. rewrite Hfile.
  unfold try_except, now, logged, ticked. munfold. mstate. fold path key bucket.
  destruct (w_upload_file w (path e) bucket (key e)) as [[] | err]; simpl;
    [reflexivity|].
  destruct err; reflexivity.
Qed.


(** A file whose upload raises anything but the client error ends the
    loop with that exception. *)
Lemma evaluation_loop_unexpected (pre post : list dir_entry) (f : dir_entry) (e : exn) :
  S3EvaluationStorage.only_client_errors w self results_dir model version
    evaluation_id pre ->
  e_is_file f = true ->
  w_upload_file w (path f) bucket (key f) = Err e ->
  is_ClientError e = false ->
  forall acc s,
  exists s',
    loop (pre ++ f :: post) acc s = (Raise e, s') /\
    grown_by (map key (regular_files pre) ++ [key f]) s s'.
Proof.
  intros Hpre Hfile Herr Hne.
  induction pre as [|x rest IH]; intros acc s.
  - simpl app. rewrite (evaluation_step f post acc s Hfile).
    cbv zeta. rewrite Herr.
    destruct e; try discriminate Hne;
      (eexists; split; [reflexivity|]; repeat split;
       eexists; split; [reflexivity|]; split; reflexivity).
  - assert (Hrest : S3EvaluationStorage.only_client_errors w self results_dir model
                      version evaluation_id rest)
      by (intros e' Hin; apply Hpre; right; exact Hin).
    simpl app. destruct (e_is_file x) eqn:Hx.
    + destruct (Hpre x (or_introl eq_refl) Hx) as [Hok | [code Hcode]].
      * destruct (evaluation_step_ok w self results_dir model version evaluation_id
                    x (rest ++ f :: post) acc s Hx Hok) as (s1 & Hstep & Hg1).
        destruct (IH Hrest (S (fst acc), snd acc + e_size x) s1)
          as (s' & Hloop & Hg).
        exists s'. fold loop in Hstep. rewrite Hstep, Hloop.
        split; [reflexivity|].
        unfold regular_files in *. simpl. rewrite ?Hx. simpl.
        apply (grown_by_trans [key x] _ s s1 s'); assumption.
      * destruct (evaluation_step_client_error w self results_dir model version
                    evaluation_id x (rest ++ f :: post) acc s code Hx Hcode)
          as (s1 & Hstep & Hg1).
        destruct (IH Hrest acc s1) as (s' & Hloop & Hg).
        exists s'. fold loop in Hstep. rewrite Hstep, Hloop.
        split; [reflexivity|].
        unfold regular_files in *. simpl. rewrite ?Hx. simpl.
        apply (grown_by_trans [key x] _ s s1 s'); assumption.
    + pose proof (evaluation_step_skip w self results_dir model version evaluation_id
                    x (rest ++ f :: post) acc s Hx) as Hstep.
      fold loop in Hstep. rewrite Hstep.
      destruct (IH Hrest acc s) as (s' & Hloop & Hg).
      exists s'. rewrite Hloop. split; [reflexivity|].
      unfold regular_files in *. simpl. rewrite ?Hx. exact Hg.
Qed.

End EvaluationAnyRun.



(** X10.  An evaluation id that is supplied and not empty is used as it
    stands: the upload returns evaluations/{model}/{version}/{id}, and every
    file is keyed directly under that prefix, by its relative path.  An
    empty evaluation id is no id: the call behaves as the call without one. *)
Theorem supplied_evaluation_id (w : World) (self : S3EvaluationStorage.t)
    (results_dir model version : string) (s : State) :
  (forall (id : string) (entries : list dir_entry),
     Py.nonempty id = true ->
     w_dirs w !! results_dir = Some entries ->
     S3EvaluationStorage.only_client_errors w self results_dir model version id entries ->
     exists s',
       S3EvaluationStorage.upload_evaluation_results w self results_dir model version
         (Some id) s
       = (Ret ("evaluations/" +:+ model +:+ "/" +:+ version +:+ "/" +:+ id), s') /\
       attempted_keys (st_trace s') =
         attempted_keys (st_trace s) ++
         map (fun e => ("evaluations/" +:+ model +:+ "/" +:+ version +:+ "/" +:+ id)
                       +:+ "/" +:+ e_rel e)
             (regular_files entries)) /\
  S3EvaluationStorage.upload_evaluation_results w self results_dir model version
    (Some "") s
  = S3EvaluationStorage.upload_evaluation_results w self results_dir model version
      None s.
Proof.
  split; [|reflexivity].
  intros id entries Hid Hdir Honly.
  assert (Heff : S3EvaluationStorage.effective_id model version (Some id)
                   (w_now w (st_clock s)) = id).
  { unfold S3EvaluationStorage.effective_id. simpl. rewrite Hid. reflexivity. }
  pose proof (evaluation_upload_returns w self results_dir model version (Some id)
                entries s Hdir) as H.
  cbv zeta in H. rewrite Heff in H.
  destruct (H Honly) as (s' & Hret & _ & Hkeys & _).
  exists s'. split; [exact Hret | exact Hkeys].
Qed.

Lemma supplied_evaluation_id_witness :
  let w := Examples.world [] ∅ [] in
  exists s',
    S3EvaluationStorage.upload_evaluation_results w
      (S3EvaluationStorage.mkStorage "results")
      "/workspace/shared-workspace/model" "m" "v1" (Some "nightly") (initial w)
    = (Ret "evaluations/m/v1/nightly", s') /\
    attempted_keys (st_trace s') =
      ["evaluations/m/v1/nightly/weights/a.safetensors";
       "evaluations/m/v1/nightly/config.json";
       "evaluations/m/v1/nightly/tokenizer.json"].
Proof.
  intros w.
  destruct (supplied_evaluation_id w (S3EvaluationStorage.mkStorage "results")
              "/workspace/shared-workspace/model" "m" "v1" (initial w)) as [H _].
  destruct (H "nightly" Examples.model_dir) as (s' & Hret & Hkeys).
  - reflexivity.
  - vm_compute. reflexivity.
  - intros e _ _. left. reflexivity.
  - exists s'. split; [exact Hret | exact Hkeys].
Defined.

(** X11.  The tolerance of the evaluation upload ends at the client
    error: a file whose upload raises anything else ends the operation with
    that exception, and the files after it are not attempted. *)
Theorem unexpected_upload_error_ends_evaluation_upload (w : World)
    (self : S3EvaluationStorage.t) (results_dir model version : string)
    (evaluation_id : option string) (pre post : list dir_entry) (f : dir_entry)
    (e : exn) (s : State) :
  let id := S3EvaluationStorage.effective_id model version evaluation_id
              (w_now w (st_clock s)) in
  w_dirs w !! results_dir = Some (pre ++ f :: post) ->
  S3EvaluationStorage.only_client_errors w self results_dir model version id pre ->
  e_is_file f = true ->
  w_upload_file w (S3EvaluationStorage.path_of results_dir f)
    (S3EvaluationStorage.bucket_name self)
    (S3EvaluationStorage.key_of model version id f) = Err e ->
  is_ClientError e = false ->
  exists s',
    S3EvaluationStorage.upload_evaluation_results w self results_dir model version
      evaluation_id s = (Raise e, s') /\
    attempted_keys (st_trace s') =
      attempted_keys (st_trace s) ++
      map (S3EvaluationStorage.key_of model version id) (regular_files pre)
      ++ [S3EvaluationStorage.key_of model version id f].
Proof.
  intros id Hdir Hpre Hfile Herr Hne.
  unfold S3EvaluationStorage.upload_evaluation_results. rewrite Hdir.
  unfold S3EvaluationStorage.effective_id in id. unfold now. munfold. mstate.
  destruct (negb (Py.truthy evaluation_id)); mstate; fold id;
    match goal with
    | |- context [S3EvaluationStorage.upload_loop _ _ _ _ _ _ _ ?acc ?s0] =>
        destruct (evaluation_loop_unexpected w self results_dir model version id
                    pre post f e Hpre Hfile Herr Hne acc s0)
          as (s1 & Hloop & _ & _ & added & Ht & Hk & _)
    end;
    rewrite Hloop; mstate;
    (eexists; split; [reflexivity|];
     rewrite Ht; mstate;
     rewrite !attempted_keys_app, Hk; simpl; rewrite ?app_nil_r; reflexivity).
Qed.

Lemma unexpected_upload_error_ends_evaluation_upload_witness :
  let w := Examples.with_failing_upload "evaluations/m/v1/run7/config.json"
             (OtherError "EndpointConnectionError") (Examples.world [] ∅ []) in
  exists s',
    S3EvaluationStorage.upload_evaluation_results w
      (S3EvaluationStorage.mkStorage "results")
      "/workspace/shared-workspace/model" "m" "v1" (Some "run7") (initial w)
    = (Raise (OtherError "EndpointConnectionError"), s') /\
    attempted_keys (st_trace s') =
      ["evaluations/m/v1/run7/weights/a.safetensors";
       "evaluations/m/v1/run7/config.json"].
Proof.
  intros w.
  destruct (unexpected_upload_error_ends_evaluation_upload w
              (S3EvaluationStorage.mkStorage "results")
              "/workspace/shared-workspace/model" "m" "v1" (Some "run7")
              [mkEntry "weights" false 0; mkEntry "weights/a.safetensors" true 10]
              [mkEntry "tokenizer.json" true 7]
              (mkEntry "config.json" true 5) (OtherError "EndpointConnectionError")
              (initial w))
    as (s' & Hret & Hkeys).
  - vm_compute. reflexivity.
  - intros e [<- | [<- | []]] Hfile; [discriminate Hfile | left; reflexivity].
  - reflexivity.
  - reflexivity.
  - reflexivity.
  - exists s'. split; [exact Hret | exact Hkeys].
Defined.

(* ===================================================================== *)
(** ** The listing: further properties                                    *)
(* ===================================================================== *)

Lemma dict_get_set_other (k k' : string) (v : json) (d : dict) :
  k' <> k -> dict_get k' (dict_set k v d) = dict_get k' d.
Proof.
  intros Hne. induction d as [|[k0 v0] d IH]; simpl.
  - destruct (String.eqb k' k) eqn:E; [apply String.eqb_eq in E; contradiction | reflexivity].
  - destruct (String.eqb k k0) eqn:Ek; simpl.
    + apply String.eqb_eq in Ek. subst k0.
      destruct (String.eqb k' k) eqn:E; [apply String.eqb_eq in E; contradiction | reflexivity].
    + destruct (String.eqb k' k0); [reflexivity | exact IH].
Qed.

Lemma groupings_without_prefixes (pages : list page) :
  (forall pg, In pg pages -> CommonPrefixes pg = None \/ CommonPrefixes pg = Some []) ->
  S3EvaluationStorage.groupings pages = [].
Proof.
  unfold S3EvaluationStorage.groupings.
  induction pages as [|pg rest IH]; intros H; [reflexivity|].
  simpl. rewrite IH by (intros pg' Hin; apply H; right; exact Hin).
  destruct (H pg (or_introl eq_refl)) as [-> | ->]; reflexivity.
Qed.

(** X12.  When no page that is answered has common prefixes (the entry
    is missing from the page, or is empty), the listing fetches nothing after
    its one query: with every page request answered it returns the empty
    sequence, and with a page request that raises it ends with that
    exception. *)
Theorem listing_without_groupings_is_empty (w : World) (self : S3EvaluationStorage.t)
    (model_name model_version : option string) (s : State) :
  let prefix := S3EvaluationStorage.list_prefix model_name model_version in
  let bucket := S3EvaluationStorage.bucket_name self in
  (forall pg, In pg (w_paginate w bucket prefix "/") ->
     CommonPrefixes pg = None \/ CommonPrefixes pg = Some []) ->
  S3EvaluationStorage.list_evaluations w self model_name model_version s =
    (match w_paginate_error w bucket prefix "/" with
     | None => Ret []
     | Some e => Raise e
     end,
     logged s [Log INFO "Listing evaluations: s3://{}/{}" [AStr bucket; AStr prefix];
               Paginate bucket prefix "/"]).
Proof.
  intros prefix bucket H.
  rewrite list_evaluations_unfold. cbv zeta. fold prefix bucket.
  rewrite (groupings_without_prefixes _ H). cbn [S3EvaluationStorage.list_prefixes].
  unfold logged. munfold.
  destruct (w_paginate_error w bucket prefix "/"); reflexivity.
Qed.

Lemma listing_without_groupings_is_empty_witness :
  let w := Examples.world [] ∅ Examples.objects in
  let self := S3EvaluationStorage.mkStorage "results" in
  fst (S3EvaluationStorage.list_evaluations w self (Some "absent") None (initial w))
    = Ret [] /\
  fst (S3EvaluationStorage.list_evaluations
         (Examples.with_failing_page_request (ClientError "SlowDown") w) self
         (Some "absent") None (initial w))
    = Raise (ClientError "SlowDown").
Proof.
  intros w self. split.
  - rewrite (listing_without_groupings_is_empty w self (Some "absent") None (initial w));
      [reflexivity|].
    intros pg Hin. vm_compute in Hin. destruct Hin as [<- | []]. left. reflexivity.
  - rewrite (listing_without_groupings_is_empty
               (Examples.with_failing_page_request (ClientError "SlowDown") w) self
               (Some "absent") None (initial w)); [reflexivity|].
    intros pg Hin. vm_compute in Hin. destruct Hin as [<- | []]. left. reflexivity.
Defined.

Section ListingVisit.

Variable w : World.
Variable self : S3EvaluationStorage.t.

Let entry := S3EvaluationStorage.summary_entry w self.
Let summary_key (g : string) : string := g +:+ "cross_language_summary.json".

(** The visit up to the first grouping whose summary ends it. *)
Lemma list_prefixes_abort (pre post : list string) (g : string) (e : exn) :
  (forall x, In x pre -> exists d, entry x = Ok d) ->
  entry g = Err e ->
  forall (evs : list dict) (s : State),
  exists s',
    S3EvaluationStorage.list_prefixes w self (pre ++ g :: post) evs s = (Raise e, s') /\
    omap fetched_key (st_trace s') =
      omap fetched_key (st_trace s) ++ map summary_key (pre ++ [g]).
Proof.
  intros Hpre Hg. induction pre as [|x rest IH]; intros evs s; simpl.
  - munfold. rewrite list_one_spec. fold entry. rewrite Hg.
    eexists. split; [reflexivity|]. mstate. rewrite omap_app. reflexivity.
  - munfold. rewrite list_one_spec. fold entry.
    destruct (Hpre x (or_introl eq_refl)) as [d ->].
    match goal with
    | |- context [S3EvaluationStorage.list_prefixes w self _ ?a ?s0] =>
        destruct (IH (fun y Hy => Hpre y (or_intror Hy)) a s0) as (s' & Hrun & Hkeys)
    end.
    exists s'. split; [exact Hrun|]. rewrite Hkeys. mstate.
    rewrite omap_app, <- app_assoc. reflexivity.
Qed.

(** The visit that returns has fetched one summary per grouping. *)
Lemma list_prefixes_fetches (groups : list string) :
  forall (evs : list dict) (s : State) (r : list dict) (s' : State),
  S3EvaluationStorage.list_prefixes w self groups evs s = (Ret r, s') ->
  omap fetched_key (st_trace s') = omap fetched_key (st_trace s) ++ map summary_key groups.
Proof.
  induction groups as [|g rest IH]; intros evs s r s' H; simpl in H.
  - injection H as _ <-. simpl. rewrite app_nil_r. reflexivity.
  - munfold. rewrite list_one_spec in H.
    destruct (S3EvaluationStorage.summary_entry w self g) as [d | e]; [|discriminate].
    rewrite (IH _ _ _ _ H). mstate. rewrite omap_app, <- app_assoc. reflexivity.
Qed.

End ListingVisit.

(** X13.  The first grouping whose summary is fetched but is not a JSON
    object, or whose fetch raises anything but the client error, ends the
    listing with that exception: the summaries fetched are those of the
    groupings up to and including it, and no grouping after it is visited. *)
Theorem listing_stops_at_first_bad_summary (w : World) (self : S3EvaluationStorage.t)
    (model_name model_version : option string) (s : State)
    (pre post : list string) (g : string) (e : exn) :
  S3EvaluationStorage.groupings
    (w_paginate w (S3EvaluationStorage.bucket_name self)
       (S3EvaluationStorage.list_prefix model_name model_version) "/")
  = pre ++ g :: post ->
  (forall x, In x pre ->
     S3EvaluationStorage.summary_fetch_fails w self x \/
     S3EvaluationStorage.summary_usable w self x) ->
  S3EvaluationStorage.summary_entry w self g = Err e ->
  exists s',
    S3EvaluationStorage.list_evaluations w self model_name model_version s
      = (Raise e, s') /\
    omap fetched_key (st_trace s') =
      omap fetched_key (st_trace s) ++
      map (fun x => x +:+ "cross_language_summary.json") (pre ++ [g]).
Proof.
  intros Hgroups Hpre Hg.
  rewrite list_evaluations_unfold. cbv zeta. rewrite Hgroups.
  match goal with
  | |- context [S3EvaluationStorage.list_prefixes w self _ ?a ?s0] =>
      destruct (list_prefixes_abort w self pre post g e) with (evs := a) (s := s0)
        as (s' & Hrun & Hkeys)
  end.
  - intros x Hx. destruct (Hpre x Hx) as [Hfail | [d Hd]].
    + eexists. apply summary_entry_fetch_fails, Hfail.
    + unfold S3EvaluationStorage.summary_entry. rewrite Hd. simpl. eexists. reflexivity.
  - exact Hg.
  - exists s'. rewrite Hrun. split; [reflexivity|]. rewrite Hkeys. mstate.
    rewrite !omap_app. simpl. rewrite !app_nil_r. reflexivity.
Qed.

Lemma listing_stops_at_first_bad_summary_witness :
  let w := Examples.world [] ∅ Examples.corrupt_objects in
  exists s',
    S3EvaluationStorage.list_evaluations w (S3EvaluationStorage.mkStorage "results")
      None None (initial w) = (Raise JSONDecodeError, s') /\
    omap fetched_key (st_trace s') = ["evaluations/m/cross_language_summary.json"].
Proof.
  intros w.
  destruct (listing_stops_at_first_bad_summary w
              (S3EvaluationStorage.mkStorage "results") None None (initial w)
              [] ["evaluations/n/"] "evaluations/m/" JSONDecodeError)
    as (s' & Hrun & Hkeys).
  - vm_compute. reflexivity.
  - intros x [].
  - vm_compute. reflexivity.
  - exists s'. split; [exact Hrun | exact Hkeys].
Defined.

(** X14.  A listing that returns has fetched exactly one summary per
    grouping, in the order of the pages, under the key
    {grouping}cross_language_summary.json, and its result has one entry per
    grouping, in the same order, each carrying its grouping's storage
    prefix. *)
Theorem listing_visits_every_grouping_in_order (w : World)
    (self : S3EvaluationStorage.t) (model_name model_version : option string)
    (s s' : State) (entries : list dict) :
  let groups :=
    S3EvaluationStorage.groupings
      (w_paginate w (S3EvaluationStorage.bucket_name self)
         (S3EvaluationStorage.list_prefix model_name model_version) "/") in
  S3EvaluationStorage.list_evaluations w self model_name model_version s
    = (Ret entries, s') ->
  omap fetched_key (st_trace s') =
    omap fetched_key (st_trace s) ++
    map (fun g => g +:+ "cross_language_summary.json") groups /\
  Forall2 (fun g d => dict_get "s3_prefix" d = Some (JStr g)) groups entries.
Proof.
  intros groups Hrun.
  destruct (list_evaluations_returns w self _ _ _ _ _ Hrun) as (_ & s0 & Ht0 & Hvisit).
  clear Hrun. rename Hvisit into Hrun. fold groups in Hrun. split.
  - rewrite (list_prefixes_fetches w self _ _ _ _ _ Hrun), Ht0.
    rewrite !omap_app. simpl. rewrite !app_nil_r. reflexivity.
  - destruct (list_prefixes_returns w self _ _ _ _ _ Hrun) as (ds & -> & Hall).
    simpl. eapply Forall2_impl; [exact Hall|].
    intros g d Hd. exact (summary_entry_prefix w self g d Hd).
Qed.

Lemma listing_visits_every_grouping_in_order_witness :
  let w := Examples.world [] ∅ Examples.objects in
  let r := S3EvaluationStorage.list_evaluations w
             (S3EvaluationStorage.mkStorage "results") (Some "m") (Some "v1")
             (initial w) in
  omap fetched_key (st_trace (snd r)) =
    ["evaluations/m/v1/e1/cross_language_summary.json";
     "evaluations/m/v1/e2/cross_language_summary.json"].
Proof.
  intros w r.
  assert (Hr : r = (Ret (match fst r with Ret l => l | _ => [] end), snd r))
    by (vm_compute; reflexivity).
  destruct (listing_visits_every_grouping_in_order w
              (S3EvaluationStorage.mkStorage "results") (Some "m") (Some "v1")
              (initial w) (snd r) _ Hr) as [Hkeys _].
  exact Hkeys.
Defined.

(** X15.  A summary that is a JSON object is passed through: the entry
    of its grouping answers every key but s3_prefix as the summary does, and
    s3_prefix with the grouping's storage prefix, whatever the summary held
    under that key. *)
Theorem listing_passes_summary_through (w : World) (self : S3EvaluationStorage.t)
    (model_name model_version : option string) (s s' : State)
    (entries : list dict) (g : string) (summary : dict) :
  S3EvaluationStorage.list_evaluations w self model_name model_version s
    = (Ret entries, s') ->
  In g (S3EvaluationStorage.groupings
          (w_paginate w (S3EvaluationStorage.bucket_name self)
             (S3EvaluationStorage.list_prefix model_name model_version) "/")) ->
  w_get_object w (S3EvaluationStorage.bucket_name self)
    (g +:+ "cross_language_summary.json") = Ok (JsonText (JObj summary)) ->
  exists d,
    In d entries /\
    dict_get "s3_prefix" d = Some (JStr g) /\
    forall k, k <> "s3_prefix" -> dict_get k d = dict_get k summary.
Proof.
  intros Hrun Hg Hsummary.
  destruct (list_evaluations_returns w self _ _ _ _ _ Hrun) as (_ & s0 & _ & Hvisit).
  destruct (list_prefixes_returns w self _ _ _ _ _ Hvisit) as (ds & -> & HF).
  destruct (Forall2_In_l _ _ _ g HF Hg) as (d & Hd & Hentry).
  unfold S3EvaluationStorage.summary_entry in Hentry. rewrite Hsummary in Hentry.
  simpl in Hentry. injection Hentry as <-.
  eexists. split; [exact Hd|]. split; [apply dict_get_set|].
  intros k Hk. apply dict_get_set_other. exact Hk.
Qed.

Lemma listing_passes_summary_through_witness :
  let w := Examples.world [] ∅ Examples.objects in
  let r := S3EvaluationStorage.list_evaluations w
             (S3EvaluationStorage.mkStorage "results") (Some "m") (Some "v1")
             (initial w) in
  exists d,
    In d (match fst r with Ret l => l | _ => [] end) /\
    dict_get "s3_prefix" d = Some (JStr "evaluations/m/v1/e1/") /\
    dict_get "model_version" d = Some (JStr "v1").
Proof.
  intros w r.
  assert (Hr : r = (Ret (match fst r with Ret l => l | _ => [] end), snd r))
    by (vm_compute; reflexivity).
  destruct (listing_passes_summary_through w
              (S3EvaluationStorage.mkStorage "results") (Some "m") (Some "v1")
              (initial w) (snd r) _ "evaluations/m/v1/e1/"
              [("model_name", JStr "m"); ("model_version", JStr "v1")] Hr)
    as (d & Hd & Hp & Hk).
  - vm_compute. left. reflexivity.
  - vm_compute. reflexivity.
  - exists d. split; [exact Hd|]. split; [exact Hp|].
    rewrite (Hk "model_version") by discriminate. reflexivity.
Defined.

(** X30.  A page request that raises ends the listing with its exception,
    whatever the exception is: the groupings of the pages answered before it
    have been visited, one summary fetched for each, and what was collected
    for them is not returned. *)
Theorem failed_page_request_ends_listing (w : World) (self : S3EvaluationStorage.t)
    (model_name model_version : option string) (s : State) (e : exn) :
  let groups :=
    S3EvaluationStorage.groupings
      (w_paginate w (S3EvaluationStorage.bucket_name self)
         (S3EvaluationStorage.list_prefix model_name model_version) "/") in
  w_paginate_error w (S3EvaluationStorage.bucket_name self)
    (S3EvaluationStorage.list_prefix model_name model_version) "/" = Some e ->
  (forall g, In g groups ->
     S3EvaluationStorage.summary_fetch_fails w self g \/
     S3EvaluationStorage.summary_usable w self g) ->
  exists s',
    S3EvaluationStorage.list_evaluations w self model_name model_version s
      = (Raise e, s') /\
    omap fetched_key (st_trace s') =
      omap fetched_key (st_trace s) ++
      map (fun g => g +:+ "cross_language_summary.json") groups.
Proof.
  intros groups Herr Hall.
  rewrite list_evaluations_unfold. cbv zeta. fold groups.
  match goal with
  | |- context [S3EvaluationStorage.list_prefixes w self groups ?a ?s0] =>
      destruct (list_prefixes_total w self groups) with (evs := a) (s := s0)
        as (r & s' & Hrun)
  end.
  - intros g Hg. destruct (Hall g Hg) as [Hfail | [d Hd]].
    + eexists. apply summary_entry_fetch_fails, Hfail.
    + unfold S3EvaluationStorage.summary_entry. rewrite Hd. simpl. eexists. reflexivity.
  - exists s'. rewrite Hrun, Herr. split; [reflexivity|].
    rewrite (list_prefixes_fetches w self _ _ _ _ _ Hrun). mstate.
    rewrite !omap_app. simpl. rewrite !app_nil_r. reflexivity.
Qed.

Lemma failed_page_request_ends_listing_witness :
  let w := Examples.with_failing_page_request (ClientError "SlowDown")
             (Examples.world [] ∅ Examples.objects) in
  exists s',
    S3EvaluationStorage.list_evaluations w (S3EvaluationStorage.mkStorage "results")
      (Some "m") (Some "v1") (initial w) = (Raise (ClientError "SlowDown"), s') /\
    omap fetched_key (st_trace s') =
      ["evaluations/m/v1/e1/cross_language_summary.json";
       "evaluations/m/v1/e2/cross_language_summary.json"].
Proof.
  intros w.
  destruct (failed_page_request_ends_listing w (S3EvaluationStorage.mkStorage "results")
              (Some "m") (Some "v1") (initial w) (ClientError "SlowDown"))
    as (s' & Hrun & Hkeys).
  - reflexivity.
  - intros g Hg. vm_compute in Hg.
    destruct Hg as [<- | [<- | []]].
    + right. exists [("model_name", JStr "m"); ("model_version", JStr "v1")].
      reflexivity.
    + left. exists "NoSuchKey". reflexivity.
  - exists s'. split; [exact Hrun | exact Hkeys].
Defined.

(* ===================================================================== *)
(** ** The download                                                       *)
(* ===================================================================== *)

Lemma startswith_slash (c : ascii) (t : string) :
  Py.startswith "/" (String c t) = Ascii.eqb c "/".
Proof.
  unfold Py.startswith. cbn [String.prefix].
  destruct (ascii_dec "/" c) as [<- | Hne].
  - destruct t; reflexivity.
  - symmetry. apply Ascii.eqb_neq. congruence.
Qed.

Lemma lstrip_char_kept (s : string) :
  Py.startswith "/" s = false -> Text.lstrip_char "/" s = s.
Proof.
  destruct s as [|x s]; [reflexivity|].
  rewrite startswith_slash. cbn [Text.lstrip_char]. intros ->. reflexivity.
Qed.

Lemma join_starts_like_head (x : string) (rest : list string) :
  Py.nonempty x = true -> Text.occurs "/" x = false ->
  Py.startswith "/" (Text.join "/" (x :: rest)) = false.
Proof.
  intros Hx Hocc. destruct x as [|c x]; [discriminate Hx|].
  cbn [Text.occurs] in Hocc. apply orb_false_elim in Hocc. destruct Hocc as [Hc _].
  assert (Hhead : exists tail, Text.join "/" (String c x :: rest) = String c tail).
  { destruct rest; [exists x; reflexivity|].
    eexists. change (Text.join "/" (String c x :: s :: rest))
      with (String c x +:+ String "/" (Text.join "/" (s :: rest))).
    rewrite append_cons. reflexivity. }
  destruct Hhead as [tail ->]. rewrite startswith_slash. exact Hc.
Qed.

Lemma filter_all {A : Type} (f : A -> bool) (l : list A) :
  Forall (fun x => f x = true) l -> List.filter f l = l.
Proof.
  induction 1 as [|x l Hx _ IH]; [reflexivity|]. simpl. rewrite Hx, IH. reflexivity.
Qed.

(** X16.  The relative path the download computes for a key is what
    follows the prefix, its leading slashes dropped, whether or not the key
    continues the prefix at a slash.  For a key written by the evaluation
    upload under the prefix it returned, with a relative path of proper parts
    (no part empty, a dot, or holding a slash), this is the relative path of
    the uploaded file, and the local file is that path under the target
    directory. *)
Theorem download_path_of_uploaded_key :
  (forall s3_prefix rest : string,
     Download.relative_path s3_prefix (s3_prefix +:+ rest) = Text.lstrip_char "/" rest) /\
  (forall (model version id : string) (e : dir_entry) (local_dir : Paths.path)
          (rel_parts : list string),
     rel_parts <> [] ->
     Forall (fun p => Text.occurs "/" p = false) rel_parts ->
     Forall (fun p => Paths.proper p = true) rel_parts ->
     e_rel e = Text.join "/" rel_parts ->
     let s3_prefix := S3EvaluationStorage.s3_prefix model version id in
     let key := S3EvaluationStorage.key_of model version id e in
     Download.relative_path s3_prefix key = e_rel e /\
     DownloadRun.local_file s3_prefix local_dir key =
       {| Paths.root := Paths.root local_dir;
          Paths.parts := Paths.parts local_dir ++ rel_parts |} /\
     Paths.parent (DownloadRun.local_file s3_prefix local_dir key) =
       {| Paths.root := Paths.root local_dir;
          Paths.parts := Paths.parts local_dir ++ removelast rel_parts |}).
Proof.
  assert (Hrel : forall s3_prefix rest : string,
            Download.relative_path s3_prefix (s3_prefix +:+ rest)
            = Text.lstrip_char "/" rest).
  { intros s3_prefix rest. unfold Download.relative_path.
    rewrite drop_append. reflexivity. }
  split; [exact Hrel|].
  intros model version id e local_dir rel_parts Hne Hslash Hproper Hjoin s3_prefix key.
  assert (Hstart : Py.startswith "/" (e_rel e) = false).
  { rewrite Hjoin. destruct rel_parts as [|x rest]; [contradiction|].
    inversion Hslash; subst. inversion Hproper as [|? ? Hp _]; subst.
    apply join_starts_like_head; [|assumption].
    unfold Paths.proper in Hp. destruct x; [discriminate Hp | reflexivity]. }
  assert (Hpath : Download.relative_path s3_prefix key = e_rel e).
  { unfold key, S3EvaluationStorage.key_of. fold s3_prefix.
    rewrite Hrel. change ("/" +:+ e_rel e) with (String "/" (e_rel e)).
    simpl. apply lstrip_char_kept. exact Hstart. }
  assert (Hfile : DownloadRun.local_file s3_prefix local_dir key =
                  {| Paths.root := Paths.root local_dir;
                     Paths.parts := Paths.parts local_dir ++ rel_parts |}).
  { unfold DownloadRun.local_file, Paths.joinpath. rewrite Hpath, Hstart.
    unfold Paths.parse_parts. rewrite Hjoin, (split_join "/" rel_parts Hne Hslash).
    rewrite (filter_all _ _ Hproper). reflexivity. }
  split; [exact Hpath|]. split; [exact Hfile|].
  rewrite Hfile. unfold Paths.parent. simpl. f_equal.
  apply removelast_app. exact Hne.
Qed.

Lemma download_path_of_uploaded_key_witness :
  let e := mkEntry "weights/a.safetensors" true 10 in
  let s3_prefix := S3EvaluationStorage.s3_prefix "m" "v1" "run7" in
  let key := S3EvaluationStorage.key_of "m" "v1" "run7" e in
  s3_prefix = "evaluations/m/v1/run7" /\
  Download.relative_path s3_prefix key = "weights/a.safetensors" /\
  DownloadRun.local_name s3_prefix (Paths.Path "/tmp/out") key
    = "/tmp/out/weights/a.safetensors" /\
  DownloadRun.parent_name s3_prefix (Paths.Path "/tmp/out") key
    = "/tmp/out/weights".
Proof.
  intros e s3_prefix key.
  destruct download_path_of_uploaded_key as [_ H].
  destruct (H "m" "v1" "run7" e (Paths.Path "/tmp/out") ["weights"; "a.safetensors"])
    as (Hrel & Hfile & Hparent).
  - discriminate.
  - repeat constructor.
  - repeat constructor.
  - reflexivity.
  - split; [reflexivity|]. split; [exact Hrel|].
    unfold DownloadRun.local_name, DownloadRun.parent_name.
    fold s3_prefix key in Hfile, Hparent.
    rewrite Hparent, Hfile. split; vm_compute; reflexivity.
Defined.

Ltac wunfold :=
  unfold mbind, Download.W_bind, mret, Download.W_ret, Download.wbind, Download.wret,
         Download.act, Download.call, Download.wtry in *.

Section DownloadAnyRun.

Variable svc : Download.Service.
Variables bucket s3_prefix : string.
Variable local_dir : Paths.path.

Let downloads := DownloadRun.downloads svc bucket s3_prefix local_dir.
Let block := DownloadRun.block svc bucket s3_prefix local_dir.

(** The keys the loop gets past: the directory of each can be made, and
    its download is answered or refused with the client error. *)
Let tolerated (keys : list string) : Prop :=
  forall key, In key keys ->
    Download.mkdir svc (DownloadRun.parent_name s3_prefix local_dir key) = Ok tt /\
    (DownloadRun.answer_for svc bucket s3_prefix local_dir key = Ok tt \/
     exists code, DownloadRun.answer_for svc bucket s3_prefix local_dir key
                  = Err (ClientError code)).

Lemma download_keys_cons (key : string) (rest : list string) (n : nat) :
  Download.download_keys svc bucket s3_prefix local_dir (key :: rest) n =
  match Download.mkdir svc (DownloadRun.parent_name s3_prefix local_dir key) with
  | Err e => (Raise e, [Download.MkDir (DownloadRun.parent_name s3_prefix local_dir key)])
  | Ok _ =>
      match DownloadRun.answer_for svc bucket s3_prefix local_dir key with
      | Ok _ =>
          let (o, t) := Download.download_keys svc bucket s3_prefix local_dir rest (S n) in
          (o, block key ++ t)
      | Err e =>
          if is_ClientError e then
            let (o, t) := Download.download_keys svc bucket s3_prefix local_dir rest n in
            (o, block key ++ t)
          else
            (Raise e,
             [Download.MkDir (DownloadRun.parent_name s3_prefix local_dir key);
              Download.DownloadFile bucket key
                (DownloadRun.local_name s3_prefix local_dir key)])
      end
  end.
Proof.
  cbn [Download.download_keys]. unfold block, DownloadRun.block, DownloadRun.answer_for,
    DownloadRun.local_name, DownloadRun.parent_name, DownloadRun.local_file.
  wunfold.
  destruct (Download.mkdir svc _) as [[]|e0]; [|reflexivity].
  destruct (Download.download_file svc bucket key _) as [[]|e]; cbn.
  - destruct (Download.download_keys svc bucket s3_prefix local_dir rest (S n)). reflexivity.
  - destruct (is_ClientError e); cbn; [|reflexivity].
    destruct (Download.download_keys svc bucket s3_prefix local_dir rest n). reflexivity.
Qed.

Lemma tolerated_cons (key : string) (rest : list string) :
  tolerated (key :: rest) ->
  Download.mkdir svc (DownloadRun.parent_name s3_prefix local_dir key) = Ok tt /\
  (DownloadRun.answer_for svc bucket s3_prefix local_dir key = Ok tt \/
   exists code, DownloadRun.answer_for svc bucket s3_prefix local_dir key
                = Err (ClientError code)) /\
  tolerated rest.
Proof.
  intros H. destruct (H key) as [Hdir Hanswer]; [left; reflexivity|].
  split; [exact Hdir|]. split; [exact Hanswer|].
  intros k Hk. apply H. right. exact Hk.
Qed.

Lemma tolerated_app (l1 l2 : list string) :
  tolerated (l1 ++ l2) -> tolerated l1 /\ tolerated l2.
Proof.
  intros H. split; intros k Hk; apply H; apply in_or_app; [left | right]; exact Hk.
Qed.

Lemma tolerated_intro (keys : list string) :
  DownloadRun.dirs_made svc s3_prefix local_dir keys ->
  DownloadRun.only_client_errors svc bucket s3_prefix local_dir keys ->
  tolerated keys.
Proof.
  intros [_ Hdirs] Hanswers key Hkey. split; [apply Hdirs | apply Hanswers]; exact Hkey.
Qed.

Lemma download_keys_tolerant (keys : list string) (n : nat) :
  tolerated keys ->
  Download.download_keys svc bucket s3_prefix local_dir keys n =
  (Ret (n + length (List.filter downloads keys)), flat_map block keys).
Proof.
  revert n. induction keys as [|key rest IH]; intros n Hall.
  - cbn. rewrite Nat.add_0_r. reflexivity.
  - apply tolerated_cons in Hall. destruct Hall as (Hdir & Hkey & Hrest).
    rewrite download_keys_cons, Hdir. cbn [List.filter flat_map].
    unfold downloads at 1, DownloadRun.downloads.
    destruct Hkey as [-> | [code ->]].
    + rewrite (IH (S n) Hrest). cbn [length]. f_equal. f_equal. lia.
    + cbn [is_ClientError]. rewrite (IH n Hrest). reflexivity.
Qed.

(** The loop stops at the first key at which one pass raises. *)
Lemma download_keys_stops (before after : list string) (bad : string) (e : exn)
    (tail : list Download.action) (n : nat) :
  tolerated before ->
  (forall rest m,
     Download.download_keys svc bucket s3_prefix local_dir (bad :: rest) m
     = (Raise e, tail)) ->
  Download.download_keys svc bucket s3_prefix local_dir (before ++ bad :: after) n =
  (Raise e, flat_map block before ++ tail).
Proof.
  intros Hall Hbad. revert n.
  induction before as [|key rest IH]; intros n.
  - cbn [app flat_map]. apply Hbad.
  - apply tolerated_cons in Hall. destruct Hall as (Hdir & Hkey & Hrest).
    rewrite <- app_comm_cons, download_keys_cons, Hdir. cbn [flat_map].
    destruct Hkey as [-> | [code ->]]; cbn [is_ClientError];
      rewrite (IH Hrest); rewrite <- app_assoc; reflexivity.
Qed.

Lemma download_pages_tolerant (pages : list (option (list string))) (n : nat) :
  tolerated (DownloadRun.all_keys pages) ->
  Download.download_pages svc bucket s3_prefix local_dir pages n =
  (Ret (n + length (List.filter downloads (DownloadRun.all_keys pages))),
   flat_map block (DownloadRun.all_keys pages)).
Proof.
  revert n. induction pages as [|[keys|] rest IH]; intros n Hall.
  - cbn. rewrite Nat.add_0_r. reflexivity.
  - unfold DownloadRun.all_keys in *. cbn [map concat default from_option id] in *.
    apply tolerated_app in Hall. destruct Hall as [Hkeys Hrest].
    cbn [Download.download_pages]. wunfold.
    rewrite (download_keys_tolerant _ _ Hkeys), (IH _ Hrest).
    rewrite List.filter_app, List.length_app, flat_map_app. f_equal. f_equal. lia.
  - unfold DownloadRun.all_keys in *. cbn [map concat default from_option id app] in *.
    cbn [Download.download_pages]. apply IH. exact Hall.
Qed.

Lemma download_pages_stops (pages_before pages_after : list (option (list string)))
    (before after : list string) (bad : string) (e : exn)
    (tail : list Download.action) (n : nat) :
  tolerated (DownloadRun.all_keys pages_before ++ before) ->
  (forall rest m,
     Download.download_keys svc bucket s3_prefix local_dir (bad :: rest) m
     = (Raise e, tail)) ->
  Download.download_pages svc bucket s3_prefix local_dir
    (pages_before ++ Some (before ++ bad :: after) :: pages_after) n =
  (Raise e, flat_map block (DownloadRun.all_keys pages_before ++ before) ++ tail).
Proof.
  intros Hall Hbad. revert n.
  induction pages_before as [|[keys|] rest IH]; intros n.
  - cbn [app DownloadRun.all_keys map concat] in *.
    cbn [Download.download_pages]. wunfold.
    rewrite (download_keys_stops _ _ _ _ _ _ Hall Hbad). reflexivity.
  - unfold DownloadRun.all_keys in *. cbn [map concat default from_option id] in *.
    rewrite <- app_assoc in Hall.
    apply tolerated_app in Hall. destruct Hall as [Hkeys Hrest].
    try rewrite <- app_comm_cons. cbn [Download.download_pages]. wunfold.
    rewrite (download_keys_tolerant _ _ Hkeys), (IH Hrest).
    rewrite <- (app_assoc keys), (flat_map_app block keys), <- app_assoc. reflexivity.
  - unfold DownloadRun.all_keys in *. cbn [map concat default from_option id app] in *.
    try rewrite <- app_comm_cons. cbn [Download.download_pages]. apply IH. exact Hall.
Qed.

End DownloadAnyRun.

(** The call, by what the loop over the pages gives. *)
Lemma download_unfold (svc : Download.Service) (self : S3EvaluationStorage.t)
    (s3_prefix : string) (local_dir : Paths.path) :
  let bucket := S3EvaluationStorage.bucket_name self in
  Download.download_evaluation_results svc self s3_prefix local_dir =
  match Download.mkdir svc (Paths.str local_dir) with
  | Err e => (Raise e, [Download.MkDir (Paths.str local_dir)])
  | Ok _ =>
      match Download.download_pages svc bucket s3_prefix local_dir
              (Download.list_objects svc bucket s3_prefix) 0 with
      | (Ret n, t) =>
          match Download.list_error svc bucket s3_prefix with
          | Some e => (Raise e, DownloadRun.opening bucket s3_prefix local_dir ++ t)
          | None =>
              (Ret tt,
               DownloadRun.opening bucket s3_prefix local_dir ++ t ++
               [Download.Logged INFO "Downloaded {} files" [ANat n]])
          end
      | (Exit c, t) => (Exit c, DownloadRun.opening bucket s3_prefix local_dir ++ t)
      | (Raise e, t) => (Raise e, DownloadRun.opening bucket s3_prefix local_dir ++ t)
      end
  end.
Proof.
  intros bucket. unfold Download.download_evaluation_results. fold bucket. wunfold.
  destruct (Download.mkdir svc (Paths.str local_dir)) as [[]|e0]; [|reflexivity].
  destruct (Download.download_pages svc bucket s3_prefix local_dir _ 0)
    as [[n | c | e] t]; try reflexivity.
  destruct (Download.list_error svc bucket s3_prefix); cbn; [|reflexivity].
  rewrite app_nil_r. reflexivity.
Qed.

(** X17.  The download tolerates the client error object by object: when
    every directory can be made and no download is refused with anything
    else, the call has made the target directory, listed the prefix, and
    then, for every key of every page that has Contents, in order, made the
    parent directory of the local file, asked for the object and logged the
    outcome; pages without Contents add nothing.  With every page request
    answered it then reports the number of objects whose download succeeded
    and returns; with a page request that raises it ends with that exception
    and reports no count. *)
Theorem download_tolerates_client_errors (svc : Download.Service)
    (self : S3EvaluationStorage.t) (s3_prefix : string) (local_dir : Paths.path) :
  let bucket := S3EvaluationStorage.bucket_name self in
  let keys := DownloadRun.all_keys (Download.list_objects svc bucket s3_prefix) in
  let visited :=
    DownloadRun.opening bucket s3_prefix local_dir ++
    flat_map (DownloadRun.block svc bucket s3_prefix local_dir) keys in
  DownloadRun.dirs_made svc s3_prefix local_dir keys ->
  DownloadRun.only_client_errors svc bucket s3_prefix local_dir keys ->
  Download.download_evaluation_results svc self s3_prefix local_dir =
  match Download.list_error svc bucket s3_prefix with
  | None =>
      (Ret tt,
       visited ++
       [Download.Logged INFO "Downloaded {} files"
          [ANat (length (List.filter
                           (DownloadRun.downloads svc bucket s3_prefix local_dir) keys))]])
  | Some e => (Raise e, visited)
  end.
Proof.
  intros bucket keys visited Hdirs Hall.
  rewrite download_unfold. fold bucket. cbv zeta.
  destruct Hdirs as [Htarget Hparents]. rewrite Htarget.
  rewrite (download_pages_tolerant svc bucket s3_prefix local_dir _ 0
             (tolerated_intro svc bucket s3_prefix local_dir keys
                (conj Htarget Hparents) Hall)).
  fold keys. unfold visited.
  destruct (Download.list_error svc bucket s3_prefix);
    rewrite <- ?app_assoc; reflexivity.
Qed.

Lemma download_tolerates_client_errors_witness :
  let svc := DownloadRun.service
               [Some ["p/a.json"; "p/sub/b.json"]; None; Some ["p/c.json"]]
               "p/sub/b.json" (ClientError "403") in
  let self := S3EvaluationStorage.mkStorage "results" in
  Download.download_evaluation_results svc self "p" (Paths.Path "out") =
  (Ret tt,
   [Download.MkDir "out";
    Download.Logged INFO "Downloading results from S3..." [];
    Download.Logged INFO "   S3 prefix: s3://{}/{}" [AStr "results"; AStr "p"];
    Download.Logged INFO "   Local path: {}" [AStr "out"];
    Download.ListObjects "results" "p";
    Download.MkDir "out";
    Download.DownloadFile "results" "p/a.json" "out/a.json";
    Download.Logged DEBUG "   v {}" [AStr "a.json"];
    Download.MkDir "out/sub";
    Download.DownloadFile "results" "p/sub/b.json" "out/sub/b.json";
    Download.Logged ERROR "   x Failed to download {}: {}"
      [AStr "p/sub/b.json"; AExn (ClientError "403")];
    Download.MkDir "out";
    Download.DownloadFile "results" "p/c.json" "out/c.json";
    Download.Logged DEBUG "   v {}" [AStr "c.json"];
    Download.Logged INFO "Downloaded {} files" [ANat 2]]) /\
  fst (Download.download_evaluation_results
         (DownloadRun.with_failing_page (ClientError "SlowDown") svc) self "p"
         (Paths.Path "out"))
  = Raise (ClientError "SlowDown").
Proof.
  intros svc self. split.
  - rewrite (download_tolerates_client_errors svc self "p" (Paths.Path "out")).
    + vm_compute. reflexivity.
    + split; [reflexivity | intros key _; reflexivity].
    + intros key Hkey. vm_compute in Hkey.
      destruct Hkey as [<- | [<- | [<- | []]]]; vm_compute;
        [left | right; eexists | left]; reflexivity.
  - rewrite (download_tolerates_client_errors
               (DownloadRun.with_failing_page (ClientError "SlowDown") svc) self "p"
               (Paths.Path "out")).
    + reflexivity.
    + split; [reflexivity | intros key _; reflexivity].
    + intros key Hkey. vm_compute in Hkey.
      destruct Hkey as [<- | [<- | [<- | []]]]; vm_compute;
        [left | right; eexists | left]; reflexivity.
Defined.

(** X18.  The tolerance is for the client error only: with the
    directories made and the keys before it tolerated, the first download
    refused with any other exception ends the call with that exception,
    right after the request; the objects before it have been handled, no key
    after it is visited, and no count is reported. *)
Theorem unexpected_download_error_ends_download (svc : Download.Service)
    (self : S3EvaluationStorage.t) (s3_prefix : string) (local_dir : Paths.path)
    (pages_before pages_after : list (option (list string)))
    (before after : list string) (bad : string) (e : exn) :
  let bucket := S3EvaluationStorage.bucket_name self in
  Download.list_objects svc bucket s3_prefix =
    pages_before ++ Some (before ++ bad :: after) :: pages_after ->
  DownloadRun.dirs_made svc s3_prefix local_dir
    (DownloadRun.all_keys pages_before ++ before ++ [bad]) ->
  DownloadRun.only_client_errors svc bucket s3_prefix local_dir
    (DownloadRun.all_keys pages_before ++ before) ->
  DownloadRun.answer_for svc bucket s3_prefix local_dir bad = Err e ->
  is_ClientError e = false ->
  Download.download_evaluation_results svc self s3_prefix local_dir =
  (Raise e,
   DownloadRun.opening bucket s3_prefix local_dir ++
   flat_map (DownloadRun.block svc bucket s3_prefix local_dir)
     (DownloadRun.all_keys pages_before ++ before) ++
   [Download.MkDir (DownloadRun.parent_name s3_prefix local_dir bad);
    Download.DownloadFile bucket bad (DownloadRun.local_name s3_prefix local_dir bad)]).
Proof.
  intros bucket Hpages [Htarget Hparents] Hall Hbad He.
  rewrite download_unfold. fold bucket. cbv zeta. rewrite Htarget, Hpages.
  rewrite (download_pages_stops svc bucket s3_prefix local_dir _ _ _ _ bad e
             [Download.MkDir (DownloadRun.parent_name s3_prefix local_dir bad);
              Download.DownloadFile bucket bad
                (DownloadRun.local_name s3_prefix local_dir bad)] 0).
  - reflexivity.
  - intros key Hkey. split; [|apply Hall; exact Hkey].
    apply Hparents. rewrite app_assoc. apply in_or_app. left. exact Hkey.
  - intros rest m. rewrite download_keys_cons, Hbad, He.
    rewrite Hparents; [reflexivity|].
    rewrite app_assoc. apply in_or_app. right. left. reflexivity.
Qed.

Lemma unexpected_download_error_ends_download_witness :
  let svc := DownloadRun.service
               [None; Some ["p/a.json"; "p/sub/b.json"; "p/c.json"]]
               "p/sub/b.json" (OtherError "disk full") in
  let self := S3EvaluationStorage.mkStorage "results" in
  Download.download_evaluation_results svc self "p" (Paths.Path "out") =
  (Raise (OtherError "disk full"),
   [Download.MkDir "out";
    Download.Logged INFO "Downloading results from S3..." [];
    Download.Logged INFO "   S3 prefix: s3://{}/{}" [AStr "results"; AStr "p"];
    Download.Logged INFO "   Local path: {}" [AStr "out"];
    Download.ListObjects "results" "p";
    Download.MkDir "out";
    Download.DownloadFile "results" "p/a.json" "out/a.json";
    Download.Logged DEBUG "   v {}" [AStr "a.json"];
    Download.MkDir "out/sub";
    Download.DownloadFile "results" "p/sub/b.json" "out/sub/b.json"]).
Proof.
  intros svc self.
  rewrite (unexpected_download_error_ends_download svc self "p" (Paths.Path "out")
             [None] [] ["p/a.json"] ["p/c.json"] "p/sub/b.json" (OtherError "disk full")).
  - vm_compute. reflexivity.
  - reflexivity.
  - split; [reflexivity | intros key _; reflexivity].
  - intros key Hkey. vm_compute in Hkey.
    destruct Hkey as [<- | []]. left. vm_compute. reflexivity.
  - vm_compute. reflexivity.
  - reflexivity.
Defined.

(** X29.  Making a directory is outside the per-object tolerance: when
    the target directory cannot be made the call ends with that exception
    before anything is listed, and when the parent directory of an object's
    local file cannot be made (a file stands in its place, as after the
    download of a key that ends in a slash) the call ends with that
    exception at that key, whatever the exception is; the object is not
    requested and no key after it is visited. *)
Theorem blocked_directory_ends_download (svc : Download.Service)
    (self : S3EvaluationStorage.t) (s3_prefix : string) (local_dir : Paths.path) :
  let bucket := S3EvaluationStorage.bucket_name self in
  (forall e,
     Download.mkdir svc (Paths.str local_dir) = Err e ->
     Download.download_evaluation_results svc self s3_prefix local_dir =
     (Raise e, [Download.MkDir (Paths.str local_dir)])) /\
  (forall (pages_before pages_after : list (option (list string)))
          (before after : list string) (bad : string) (e : exn),
     Download.list_objects svc bucket s3_prefix =
       pages_before ++ Some (before ++ bad :: after) :: pages_after ->
     DownloadRun.dirs_made svc s3_prefix local_dir
       (DownloadRun.all_keys pages_before ++ before) ->
     DownloadRun.only_client_errors svc bucket s3_prefix local_dir
       (DownloadRun.all_keys pages_before ++ before) ->
     Download.mkdir svc (DownloadRun.parent_name s3_prefix local_dir bad) = Err e ->
     Download.download_evaluation_results svc self s3_prefix local_dir =
     (Raise e,
      DownloadRun.opening bucket s3_prefix local_dir ++
      flat_map (DownloadRun.block svc bucket s3_prefix local_dir)
        (DownloadRun.all_keys pages_before ++ before) ++
      [Download.MkDir (DownloadRun.parent_name s3_prefix local_dir bad)])).
Proof.
  intros bucket. split.
  - intros e Htarget. rewrite download_unfold. cbv zeta. rewrite Htarget. reflexivity.
  - intros pages_before pages_after before after bad e Hpages [Htarget Hparents]
      Hall Hbad.
    rewrite download_unfold. fold bucket. cbv zeta. rewrite Htarget, Hpages.
    rewrite (download_pages_stops svc bucket s3_prefix local_dir _ _ _ _ bad e
               [Download.MkDir (DownloadRun.parent_name s3_prefix local_dir bad)] 0).
    + reflexivity.
    + intros key Hkey. split; [apply Hparents | apply Hall]; exact Hkey.
    + intros rest m. rewrite download_keys_cons, Hbad. reflexivity.
Qed.

Lemma blocked_directory_ends_download_witness :
  let svc := DownloadRun.with_blocked_dir "out/sub" (OtherError "FileExistsError")
               (DownloadRun.service [Some ["p/a.json"; "p/sub/"; "p/sub/b.json"; "p/z.json"]]
                  "" (ClientError "unused")) in
  let self := S3EvaluationStorage.mkStorage "results" in
  Download.download_evaluation_results svc self "p" (Paths.Path "out") =
  (Raise (OtherError "FileExistsError"),
   [Download.MkDir "out";
    Download.Logged INFO "Downloading results from S3..." [];
    Download.Logged INFO "   S3 prefix: s3://{}/{}" [AStr "results"; AStr "p"];
    Download.Logged INFO "   Local path: {}" [AStr "out"];
    Download.ListObjects "results" "p";
    Download.MkDir "out";
    Download.DownloadFile "results" "p/a.json" "out/a.json";
    Download.Logged DEBUG "   v {}" [AStr "a.json"];
    Download.MkDir "out";
    Download.DownloadFile "results" "p/sub/" "out/sub";
    Download.Logged DEBUG "   v {}" [AStr "sub/"];
    Download.MkDir "out/sub"]).
Proof.
  intros svc self.
  destruct (blocked_directory_ends_download svc self "p" (Paths.Path "out")) as [_ H].
  rewrite (H [] [] ["p/a.json"; "p/sub/"] ["p/z.json"] "p/sub/b.json"
             (OtherError "FileExistsError")).
  - vm_compute. reflexivity.
  - reflexivity.
  - split; [reflexivity|]. intros key Hkey. vm_compute in Hkey.
    destruct Hkey as [<- | [<- | []]]; reflexivity.
  - intros key Hkey. vm_compute in Hkey.
    destruct Hkey as [<- | [<- | []]]; left; reflexivity.
  - reflexivity.
Defined.

(* ===================================================================== *)
(** ** The Registrar, path by path                                        *)
(* ===================================================================== *)

Ltac run_registrar :=
  unfold Registrar.register, Registrar.register_body,
    Registrar.on_store_error, Registrar.on_other_error, Registrar.get_model_version,
    Registrar.attr_id, try_except, write_file, of_answer, is_Exception;
  munfold; mstate.

Lemma registrar_connects (w : World) :
  RegistrarRun.configured w ->
  run Registrar.main w =
    match w_environ w !! "MODEL_NAME" with
    | None => (Raise AttributeError, RegistrarRun.connected w)
    | Some raw_name =>
        (s3_uri ← Registrar.resolve_s3_uri (Py.lower raw_name) (RegistrarRun.version_of w);
         Registrar.register w (RegistrarRun.cluster_domain_of w) (Py.lower raw_name)
           (RegistrarRun.version_of w) (RegistrarRun.huggingface_model_of w) s3_uri)
          (RegistrarRun.connected w)
    end.
Proof.
  intros (Hskip & [ns Hns] & Haddr).
  rewrite (registrar_not_skipped w Hskip).
  unfold Registrar.task, after_banner, read_file. munfold. mstate.
  rewrite Hns. mstate. rewrite Haddr. cbn [negb]. mstate.
  rewrite !lookup_insert_ne by discriminate.
  unfold RegistrarRun.connected, RegistrarRun.version_of,
    RegistrarRun.cluster_domain_of, RegistrarRun.huggingface_model_of.
  destruct (w_environ w !! "MODEL_NAME") as [raw|]; mstate; [|reflexivity].
  rewrite !lookup_insert_ne by discriminate. reflexivity.
Qed.

Lemma registrar_resolves (w : World) (model_name : string)
    (model_version : option string) :
  Registrar.resolve_s3_uri model_name model_version (RegistrarRun.connected w) =
    match w_files w !! Registrar.s3_uri_file with
    | Some content =>
        (Ret (Py.strip content),
         logged (RegistrarRun.connected w)
           [Print "Using S3 URI from upload task: {}" [AStr (Py.strip content)]])
    | None =>
        if Py.truthy (w_environ w !! "S3_BUCKET") then
          let s3_uri := Registrar.fallback_s3_uri
                          (default "" (w_environ w !! "S3_BUCKET"))
                          model_name model_version in
          (Ret s3_uri,
           logged (RegistrarRun.connected w) [Print "Constructed S3 URI: {}" [AStr s3_uri]])
        else
          (Exit 1,
           logged (RegistrarRun.connected w)
             [Print "Error: Cannot determine S3 URI. S3_BUCKET not set and model_s3_uri file not found." []])
    end.
Proof.
  unfold Registrar.resolve_s3_uri, file_exists, read_file, logged. munfold. mstate.
  unfold RegistrarRun.connected. mstate.
  destruct (w_files w !! Registrar.s3_uri_file) as [content|] eqn:Hfile.
  - rewrite bool_decide_eq_true_2 by (eexists; reflexivity). mstate.
    rewrite Hfile. reflexivity.
  - rewrite bool_decide_eq_false_2 by (intros [? ?]; discriminate). mstate.
    rewrite !lookup_insert_ne by discriminate.
    destruct (Py.truthy (w_environ w !! "S3_BUCKET")); reflexivity.
Qed.

Section RegistrationAnyRun.

Variable w : World.
Variables cluster_domain model_name : string.
Variable model_version : option string.
Variables huggingface_model s3_uri : string.

Let register :=
  Registrar.register w cluster_domain model_name model_version huggingface_model s3_uri.

Let call : event :=
  RegisterModel model_name s3_uri model_version
    (Registrar.description huggingface_model)
    (Registrar.metadata huggingface_model s3_uri).

(** Every path through the registration: one registration call, then
    lookups and console lines; the identifier file is written at most once,
    and only on a path that ends with status 0. *)
Lemma register_any (s : State) :
  exists o s' added,
    register s = (o, s') /\
    st_trace s' = st_trace s ++ call :: added /\
    omap registered_uri added = [] /\
    ((exit_code o = 1 /\ st_files s' = st_files s /\ writes_nothing added = true) \/
     (exists id,
        exit_code o = 0 /\
        st_files s' = <[Registrar.version_id_file := id]> (st_files s) /\
        List.filter is_file_write added = [WriteFile Registrar.version_id_file id])).
Proof.
  unfold register, call. run_registrar.
  destruct (w_register_model w model_name s3_uri model_version) as [[]|e]; mstate;
    repeat (mstate;
            match goal with
            | |- context [match w_get_model_version ?w0 ?n ?a ?b with _ => _ end] =>
                destruct (w_get_model_version w0 n a b) as [[?mv|]|?e]
            | |- context [is_StoreError ?e0] => destruct (is_StoreError e0)
            end);
    mstate;
    (do 3 eexists; split; [reflexivity|]; mstate;
     split; [rewrite <- !app_assoc; reflexivity|];
     split; [reflexivity|];
     first [left; repeat split; reflexivity
           | right; eexists; repeat split; reflexivity]).
Qed.

End RegistrationAnyRun.

Lemma registrar_unconfigured (w : World) :
  skip_requested (w_environ w) = false ->
  match w_files w !! Registrar.namespace_file_path with
  | None =>
      run Registrar.main w =
        (Raise (FileNotFoundError Registrar.namespace_file_path), after_banner w)
  | Some _ =>
      Py.truthy (w_environ w !! "MODEL_REGISTRY_URL") = false ->
      run Registrar.main w =
        (Exit 1,
         logged (after_banner w)
           [Print "Error: MODEL_REGISTRY_URL environment variable not set" []])
  end.
Proof.
  intros Hskip. rewrite (registrar_not_skipped w Hskip).
  unfold Registrar.task, after_banner, read_file, logged. munfold. mstate.
  destruct (w_files w !! Registrar.namespace_file_path) as [ns|]; [|reflexivity].
  intros Haddr. mstate. rewrite Haddr. reflexivity.
Qed.

Lemma registrar_with_locator_file (w : World) (raw_name content : string) :
  RegistrarRun.configured w ->
  w_environ w !! "MODEL_NAME" = Some raw_name ->
  w_files w !! Registrar.s3_uri_file = Some content ->
  run Registrar.main w =
    Registrar.register w (RegistrarRun.cluster_domain_of w) (Py.lower raw_name)
      (RegistrarRun.version_of w) (RegistrarRun.huggingface_model_of w)
      (Py.strip content)
      (logged (RegistrarRun.connected w)
         [Print "Using S3 URI from upload task: {}" [AStr (Py.strip content)]]).
Proof.
  intros Hconf Hname Hfile. rewrite (registrar_connects w Hconf), Hname.
  unfold mbind, M_bind, bind. rewrite registrar_resolves, Hfile. reflexivity.
Qed.

Lemma registrar_with_fallback (w : World) (raw_name : string) :
  RegistrarRun.configured w ->
  w_environ w !! "MODEL_NAME" = Some raw_name ->
  w_files w !! Registrar.s3_uri_file = None ->
  Py.truthy (w_environ w !! "S3_BUCKET") = true ->
  let s3_uri := Registrar.fallback_s3_uri (default "" (w_environ w !! "S3_BUCKET"))
                  (Py.lower raw_name) (RegistrarRun.version_of w) in
  run Registrar.main w =
    Registrar.register w (RegistrarRun.cluster_domain_of w) (Py.lower raw_name)
      (RegistrarRun.version_of w) (RegistrarRun.huggingface_model_of w) s3_uri
      (logged (RegistrarRun.connected w) [Print "Constructed S3 URI: {}" [AStr s3_uri]]).
Proof.
  intros Hconf Hname Hfile Hbucket s3_uri. rewrite (registrar_connects w Hconf), Hname.
  unfold mbind, M_bind, bind. rewrite registrar_resolves, Hfile, Hbucket. reflexivity.
Qed.

Lemma registrar_without_locator (w : World) (raw_name : string) :
  RegistrarRun.configured w ->
  w_environ w !! "MODEL_NAME" = Some raw_name ->
  w_files w !! Registrar.s3_uri_file = None ->
  Py.truthy (w_environ w !! "S3_BUCKET") = false ->
  run Registrar.main w =
    (Exit 1,
     logged (RegistrarRun.connected w)
       [Print "Error: Cannot determine S3 URI. S3_BUCKET not set and model_s3_uri file not found." []]).
Proof.
  intros Hconf Hname Hfile Hbucket. rewrite (registrar_connects w Hconf), Hname.
  unfold mbind, M_bind, bind. rewrite registrar_resolves, Hfile, Hbucket. reflexivity.
Qed.

(** X19.  In every run, whatever the environment, the files and the
    answers of the registry, the Registrar writes at most one file, the
    identifier file /workspace/shared-workspace/model_version_id, and only in
    a run that ends with status 0; a run that writes nothing leaves every
    file as it was, and ends with status 0 only when the task was skipped. *)
Theorem registrar_writes_identifier_only_on_success (w : World) :
  (exists id,
     exit_code (fst (run Registrar.main w)) = 0 /\
     st_files (snd (run Registrar.main w)) =
       <[Registrar.version_id_file := id]> (w_files w) /\
     List.filter is_file_write (st_trace (snd (run Registrar.main w))) =
       [WriteFile Registrar.version_id_file id]) \/
  (st_files (snd (run Registrar.main w)) = w_files w /\
   writes_nothing (st_trace (snd (run Registrar.main w))) = true /\
   (exit_code (fst (run Registrar.main w)) = 0 -> skip_requested (w_environ w) = true)).
Proof.
  assert (Hreg : forall cd name ver hf uri line,
            let r := Registrar.register w cd name ver hf uri
                       (logged (RegistrarRun.connected w) [line]) in
            is_file_write line = false ->
            (exists id,
               exit_code (fst r) = 0 /\
               st_files (snd r) = <[Registrar.version_id_file := id]> (w_files w) /\
               List.filter is_file_write (st_trace (snd r)) =
                 [WriteFile Registrar.version_id_file id]) \/
            (st_files (snd r) = w_files w /\
             writes_nothing (st_trace (snd r)) = true /\
             (exit_code (fst r) = 0 -> skip_requested (w_environ w) = true))).
  { intros cd name ver hf uri line r Hline. subst r.
    destruct (register_any w cd name ver hf uri
                (logged (RegistrarRun.connected w) [line]))
      as (o & s' & added & -> & Htrace & _ & Hcases).
    mstate. rewrite Htrace. cbn [logged RegistrarRun.connected st_trace st_files] in *.
    destruct Hcases as [(Hexit & Hfiles & Hw) | (id & Hexit & Hfiles & Hw)].
    - right. split; [exact Hfiles|]. split; [|rewrite Hexit; discriminate].
      rewrite writes_nothing_app. apply andb_true_intro. split.
      + unfold writes_nothing. cbn. rewrite Hline. reflexivity.
      + unfold writes_nothing in *. cbn. exact Hw.
    - left. exists id. split; [exact Hexit|]. split; [exact Hfiles|].
      rewrite List.filter_app. cbn. rewrite Hline. exact Hw. }
  destruct (skip_requested (w_environ w)) eqn:Hskip.
  { rewrite (registrar_skipped w Hskip). right. repeat split. }
  pose proof (registrar_unconfigured w Hskip) as Hun.
  destruct (w_files w !! Registrar.namespace_file_path) as [ns|] eqn:Hns.
  2:{ rewrite Hun. right. split; [reflexivity|]. split; [reflexivity|]. discriminate. }
  destruct (Py.truthy (w_environ w !! "MODEL_REGISTRY_URL")) eqn:Haddr.
  2:{ rewrite (Hun eq_refl). right.
      split; [reflexivity|]. split; [reflexivity|]. discriminate. }
  assert (Hconf : RegistrarRun.configured w).
  { split; [exact Hskip|]. split; [exists ns; exact Hns | exact Haddr]. }
  destruct (w_environ w !! "MODEL_NAME") as [raw|] eqn:Hname.
  2:{ rewrite (registrar_connects w Hconf), Hname. right.
      split; [reflexivity|]. split; [reflexivity|]. discriminate. }
  destruct (w_files w !! Registrar.s3_uri_file) as [content|] eqn:Hfile.
  { rewrite (registrar_with_locator_file w raw content Hconf Hname Hfile).
    apply Hreg. reflexivity. }
  destruct (Py.truthy (w_environ w !! "S3_BUCKET")) eqn:Hbucket.
  - rewrite (registrar_with_fallback w raw Hconf Hname Hfile Hbucket).
    apply Hreg. reflexivity.
  - rewrite (registrar_without_locator w raw Hconf Hname Hfile Hbucket). right.
    split; [reflexivity|]. split; [reflexivity|]. discriminate.
Qed.

Lemma registered_once (w : World) (cd name : string) (ver : option string)
    (hf uri : string) (s : State) :
  omap registered_uri (st_trace s) = [] ->
  omap registered_uri
    (st_trace (snd (Registrar.register w cd name ver hf uri s))) = [uri].
Proof.
  intros Hnone.
  destruct (register_any w cd name ver hf uri s)
    as (o & s' & added & -> & Htrace & Hadded & _).
  mstate. rewrite Htrace, omap_app, Hnone. cbn. rewrite Hadded. reflexivity.
Qed.



Lemma uploader_success_files (w : World) (bucket model version dir : string)
    (entries : list dir_entry) :
  Uploader.reaches_loop w bucket model version dir entries ->
  Uploader.all_uploads_succeed w bucket model version dir entries ->
  fst (run Uploader.main w) = Ret tt /\
  st_files (snd (run Uploader.main w)) =
    <[Uploader.uri_file := Uploader.s3_uri bucket model version]> (w_files w).
Proof.
  intros Hreach Hall.
  destruct (uploader_reaches_loop w bucket model version dir entries Hreach)
    as (s0 & Hrun & _ & Hf0 & _).
  destruct (uploader_loop_all_ok w dir bucket model version entries Hall (0, 0) s0)
    as (s1 & Hloop & _ & Hf1 & _).
  cbn [fst snd Nat.add] in Hloop.
  rewrite Hrun. munfold. rewrite Hloop.
  destruct (uploader_finish bucket model version
              (length (regular_files entries), total_bytes entries) s1)
    as (tail & Hfin & _).
  mstate. rewrite Hfin. mstate. split; [reflexivity|]. rewrite Hf1, Hf0. reflexivity.
Qed.





(** X22.  With neither the locator file nor a bucket name, a configured
    Registrar with a model name prints that it cannot determine the locator
    and exits 1: the client has been constructed, but no call goes to the
    registry and no file is written. *)
Theorem no_locator_no_registration (w : World) (raw_name : string) :
  RegistrarRun.configured w ->
  w_environ w !! "MODEL_NAME" = Some raw_name ->
  w_files w !! Registrar.s3_uri_file = None ->
  Py.truthy (w_environ w !! "S3_BUCKET") = false ->
  run Registrar.main w =
    (Exit 1,
     logged (RegistrarRun.connected w)
       [Print "Error: Cannot determine S3 URI. S3_BUCKET not set and model_s3_uri file not found." []]) /\
  forallb (fun e => negb (is_network_call e))
    (st_trace (snd (run Registrar.main w))) = true /\
  st_files (snd (run Registrar.main w)) = w_files w.
Proof.
  intros Hconf Hname Hfile Hbucket.
  rewrite (registrar_without_locator w raw_name Hconf Hname Hfile Hbucket).
  repeat split.
Qed.

Lemma no_locator_no_registration_witness :
  let environ := [("S3_BUCKET", ""); ("MODEL_NAME", "llama");
                  ("MODEL_REGISTRY_URL", "registry.example")] in
  let w := Examples.world environ Examples.files [] in
  fst (run Registrar.main w) = Exit 1 /\
  st_trace (snd (run Registrar.main w)) =
    [Print banner [];
     Print "Server address: {}" [AStr "registry.example"];
     Print "Token path set in environment" [];
     RegistryClient "registry.example" 443 "modelcar-pipeline" false;
     Print "Error: Cannot determine S3 URI. S3_BUCKET not set and model_s3_uri file not found." []].
Proof.
  intros environ w.
  destruct (no_locator_no_registration w "llama") as (Hrun & _).
  - split; [vm_compute; reflexivity|].
    split; [eexists; vm_compute; reflexivity | vm_compute; reflexivity].
  - vm_compute. reflexivity.
  - vm_compute. reflexivity.
  - vm_compute. reflexivity.
  - rewrite Hrun. split; vm_compute; reflexivity.
Defined.

(** X23.  The Registrar does not check MODEL_NAME: with the variable
    unset, a configured run constructs its client and then ends with an
    uncaught AttributeError (status 1), without a message of its own, before
    the locator is resolved and before any call to the registry. *)
Theorem missing_model_name_ends_registrar (w : World) :
  RegistrarRun.configured w ->
  w_environ w !! "MODEL_NAME" = None ->
  run Registrar.main w = (Raise AttributeError, RegistrarRun.connected w) /\
  exit_code (fst (run Registrar.main w)) = 1.
Proof.
  intros Hconf Hname. rewrite (registrar_connects w Hconf), Hname.
  split; reflexivity.
Qed.

Lemma missing_model_name_ends_registrar_witness :
  let environ := Examples.credentials ++ [("MODEL_REGISTRY_URL", "registry.example")] in
  let w := Examples.world environ Examples.files [] in
  fst (run Registrar.main w) = Raise AttributeError /\
  st_trace (snd (run Registrar.main w)) =
    [Print banner [];
     Print "Server address: {}" [AStr "registry.example"];
     Print "Token path set in environment" [];
     RegistryClient "registry.example" 443 "modelcar-pipeline" false].
Proof.
  intros environ w.
  destruct (missing_model_name_ends_registrar w) as (Hrun & _).
  - split; [vm_compute; reflexivity|].
    split; [eexists; vm_compute; reflexivity | vm_compute; reflexivity].
  - vm_compute. reflexivity.
  - rewrite Hrun. split; vm_compute; reflexivity.
Defined.

(** X24.  The namespace file is read before anything is checked: when it
    is missing, a Registrar that is not skipped ends with an uncaught
    FileNotFoundError (status 1) right after the banner, whether or not the
    registry address is set, with no client constructed and nothing
    written. *)
Theorem missing_namespace_file_ends_registrar (w : World) :
  skip_requested (w_environ w) = false ->
  w_files w !! Registrar.namespace_file_path = None ->
  run Registrar.main w =
    (Raise (FileNotFoundError Registrar.namespace_file_path), after_banner w) /\
  exit_code (fst (run Registrar.main w)) = 1 /\
  offline (st_trace (snd (run Registrar.main w))) = true.
Proof.
  intros Hskip Hns. pose proof (registrar_unconfigured w Hskip) as Hrun.
  rewrite Hns in Hrun. rewrite Hrun. repeat split.
Qed.

Lemma missing_namespace_file_ends_registrar_witness :
  let environ := Examples.credentials ++
                 [("MODEL_NAME", "llama"); ("MODEL_REGISTRY_URL", "registry.example")] in
  let w := Examples.world environ ∅ [] in
  fst (run Registrar.main w)
    = Raise (FileNotFoundError "/var/run/secrets/kubernetes.io/serviceaccount/namespace") /\
  st_trace (snd (run Registrar.main w)) = [Print banner []].
Proof.
  intros environ w.
  destruct (missing_namespace_file_ends_registrar w) as (Hrun & _).
  - vm_compute. reflexivity.
  - vm_compute. reflexivity.
  - rewrite Hrun. split; reflexivity.
Defined.

Section RegistrationPaths.

Variable w : World.
Variables cluster_domain model_name : string.
Variable model_version : option string.
Variables huggingface_model s3_uri : string.

Let register :=
  Registrar.register w cluster_domain model_name model_version huggingface_model s3_uri.

Let call : event :=
  RegisterModel model_name s3_uri model_version
    (Registrar.description huggingface_model)
    (Registrar.metadata huggingface_model s3_uri).

Let lookup (n : nat) := w_get_model_version w n model_name model_version.

(** The registration call refused with something else than the store
    error. *)
Lemma register_unexpected (s : State) (e : exn) :
  w_register_model w model_name s3_uri model_version = Err e ->
  is_StoreError e = false ->
  register s =
    (Exit 1, logged s [call; Print "Error registering model: {}" [AExn e]; Traceback]).
Proof.
  intros Hreg He. unfold register, call, logged. run_registrar.
  rewrite Hreg. mstate. rewrite He. mstate. rewrite <- !app_assoc. reflexivity.
Qed.

Lemma register_lookup_fails (s : State) (n : nat) (e : exn) :
  w_register_model w model_name s3_uri model_version = Ok tt ->
  n <= 1 ->
  (forall k, k < n -> exists shown, lookup (st_lookups s + k) = Ok (Some shown)) ->
  RegistrarRun.lookup_fails w model_name model_version (st_lookups s + n) e ->
  exists added s',
    register s = (Exit 1, s') /\
    st_files s' = st_files s /\
    st_trace s' =
      st_trace s ++ call :: added ++
      [Print "Error registering model: {}" [AExn e]; Traceback] /\
    writes_nothing added = true.
Proof.
  intros Hreg Hn Hbefore Hfail. unfold register, call, RegistrarRun.lookup_fails, lookup in *.
  run_registrar. rewrite Hreg. mstate.
  destruct n as [|[|n]]; [| |lia].
  - rewrite Nat.add_0_r in Hfail.
    exists [Print "Successfully registered model: {} version {}"
              [AStr model_name; AStr (Py.fmt model_version)];
            Print "Model URI: {}" [AStr s3_uri];
            GetModelVersion model_name model_version].
    destruct Hfail as [[Hl ->] | [Hl He]]; rewrite Hl; mstate; try rewrite He;
      cbn [is_StoreError]; mstate;
      (eexists; split; [reflexivity|]; mstate; split; [reflexivity|];
       split; [rewrite <- !app_assoc; reflexivity | reflexivity]).
  - destruct (Hbefore 0) as [shown Hshown]; [lia|].
    rewrite Nat.add_0_r in Hshown. rewrite Hshown. mstate.
    rewrite Nat.add_1_r in Hfail.
    exists [Print "Successfully registered model: {} version {}"
              [AStr model_name; AStr (Py.fmt model_version)];
            Print "Model URI: {}" [AStr s3_uri];
            GetModelVersion model_name model_version;
            Print "Model details available at: https://rhods-dashboard-redhat-ods-applications.{}/modelRegistry/modelcar-pipeline-registry/registeredModels/1/versions/{}/details"
              [AStr cluster_domain; AStr (mv_id shown)];
            GetModelVersion model_name model_version].
    destruct Hfail as [[Hl ->] | [Hl He]]; rewrite Hl; mstate; try rewrite He;
      cbn [is_StoreError]; mstate;
      (eexists; split; [reflexivity|]; mstate; split; [reflexivity|];
       split; [rewrite <- !app_assoc; reflexivity | reflexivity]).
Qed.

(** What the conflict branch does after its message when the lookup finds
    the version. *)
Let conflict_tail (mv : model_version_rec) : list event :=
  [GetModelVersion model_name model_version;
   Print "Existing model details:" [];
   Print "Model ID: {}" [AStr (mv_id mv)];
   Print "Model Name: {}" [AStr (mv_name mv)];
   WriteFile Registrar.version_id_file (mv_id mv);
   Print "Task completed successfully - using existing model version" []].

(** The store error raised by a lookup, after the registration went
    through, with the lookup that follows finding the version. *)
Lemma register_lookup_store_error (s : State) (n : nat) (mv : model_version_rec) :
  w_register_model w model_name s3_uri model_version = Ok tt ->
  n <= 1 ->
  (forall k, k < n -> exists shown, lookup (st_lookups s + k) = Ok (Some shown)) ->
  lookup (st_lookups s + n) = Err StoreError ->
  lookup (S (st_lookups s + n)) = Ok (Some mv) ->
  exists before after s',
    register s = (Exit 0, s') /\
    st_files s' = <[Registrar.version_id_file := mv_id mv]> (st_files s) /\
    st_trace s' =
      st_trace s ++
      [call;
       Print "Successfully registered model: {} version {}"
         [AStr model_name; AStr (Py.fmt model_version)]] ++
      before ++
      [Print "Model version already exists: {} version {}"
         [AStr model_name; AStr (Py.fmt model_version)]] ++
      after /\
    List.filter is_file_write (before ++ after)
      = [WriteFile Registrar.version_id_file (mv_id mv)].
Proof.
  intros Hreg Hn Hbefore Herr Hnext. unfold register, call, lookup, conflict_tail in *.
  run_registrar. rewrite Hreg. mstate.
  destruct n as [|[|n]]; [| |lia].
  - rewrite Nat.add_0_r in Herr, Hnext. rewrite Herr. cbn [is_StoreError]. mstate.
    rewrite Hnext. mstate.
    exists [Print "Model URI: {}" [AStr s3_uri];
            GetModelVersion model_name model_version].
    exists (conflict_tail mv).
    eexists. split; [reflexivity|]. mstate. split; [reflexivity|].
    split; [rewrite <- !app_assoc; reflexivity | reflexivity].
  - destruct (Hbefore 0) as [shown Hshown]; [lia|].
    rewrite Nat.add_0_r in Hshown. rewrite Hshown. mstate.
    rewrite Nat.add_1_r in Herr, Hnext. rewrite Herr. cbn [is_StoreError]. mstate.
    rewrite Hnext. mstate.
    exists [Print "Model URI: {}" [AStr s3_uri];
            GetModelVersion model_name model_version;
            Print "Model details available at: https://rhods-dashboard-redhat-ods-applications.{}/modelRegistry/modelcar-pipeline-registry/registeredModels/1/versions/{}/details"
              [AStr cluster_domain; AStr (mv_id shown)];
            GetModelVersion model_name model_version].
    exists (conflict_tail mv).
    eexists. split; [reflexivity|]. mstate. split; [reflexivity|].
    split; [rewrite <- !app_assoc; reflexivity | reflexivity].
Qed.

End RegistrationPaths.

Lemma no_lookup_offline (trace : list event) :
  forallb (fun e => negb (is_network_call e)) trace = true ->
  List.filter RegistrarRun.is_lookup trace = [].
Proof.
  induction trace as [|ev trace IH]; [reflexivity|].
  cbn [forallb List.filter]. intros H. apply andb_prop in H. destruct H as [Hev Ht].
  rewrite (IH Ht). destruct ev; try reflexivity; discriminate Hev.
Qed.

(** X25.  A registration call refused with anything but the registry's
    store error is fatal: the Registrar prints the error and the traceback
    and exits 1; the refused call is the only one that went to the registry
    (no lookup is made), and no file is written. *)
Theorem unexpected_registration_error_is_fatal (w : World)
    (cluster_domain model_name : string) (model_version : option string)
    (huggingface_model s3_uri : string) (e : exn) :
  Registrar.reaches_registration w cluster_domain model_name model_version
    huggingface_model s3_uri ->
  w_register_model w model_name s3_uri model_version = Err e ->
  is_StoreError e = false ->
  fst (run Registrar.main w) = Exit 1 /\
  st_files (snd (run Registrar.main w)) = w_files w /\
  writes_nothing (st_trace (snd (run Registrar.main w))) = true /\
  List.filter RegistrarRun.is_lookup (st_trace (snd (run Registrar.main w))) = [] /\
  exists before,
    st_trace (snd (run Registrar.main w)) =
      before ++
      [RegisterModel model_name s3_uri model_version
         (Registrar.description huggingface_model)
         (Registrar.metadata huggingface_model s3_uri);
       Print "Error registering model: {}" [AExn e];
       Traceback] /\
    forallb (fun ev => negb (is_network_call ev)) before = true.
Proof.
  intros Hreach Hreg He.
  destruct (registrar_reaches_registration w _ _ _ _ _ Hreach)
    as (s0 & Hrun & Hfiles & _ & Hw & Hoff).
  rewrite Hrun, (register_unexpected w _ _ _ _ _ s0 e Hreg He).
  unfold logged. mstate.
  split; [reflexivity|]. split; [exact Hfiles|].
  split; [rewrite writes_nothing_app, Hw; reflexivity|].
  split; [rewrite List.filter_app, (no_lookup_offline _ Hoff); reflexivity|].
  exists (st_trace s0). split; [reflexivity | exact Hoff].
Qed.

Lemma unexpected_registration_error_is_fatal_witness :
  let environ := Examples.credentials ++
                 [("MODEL_NAME", "llama"); ("MODEL_VERSION", "2");
                  ("MODEL_REGISTRY_URL", "registry.example")] in
  let w := Examples.with_registry (Err (OtherError "ConnectionError"))
             (fun _ => Ok (Some (mkVersion "42" "llama")))
             (Examples.world environ Examples.files []) in
  fst (run Registrar.main w) = Exit 1 /\
  st_files (snd (run Registrar.main w)) = w_files w /\
  List.filter RegistrarRun.is_lookup (st_trace (snd (run Registrar.main w))) = [].
Proof.
  intros environ w.
  destruct (unexpected_registration_error_is_fatal w "cluster.local" "llama" (Some "2")
              "unknown" "s3://models/model-data/llama/2" (OtherError "ConnectionError"))
    as (Hexit & Hfiles & _ & Hlook & _).
  - split; [vm_compute; reflexivity|].
    split; [eexists; vm_compute; reflexivity|].
    split; [vm_compute; reflexivity|].
    split; [vm_compute; reflexivity|].
    split; [exists "llama"; split; vm_compute; reflexivity|].
    split; [vm_compute; reflexivity|].
    split; [vm_compute; reflexivity|].
    right. split; [vm_compute; reflexivity|].
    exists "models". repeat split; vm_compute; reflexivity.
  - reflexivity.
  - reflexivity.
  - repeat split; assumption.
Defined.

(** X26.  A registration that went through can still end in failure: when
    the lookup for the details line, or the lookup for the identifier after
    it, finds nothing or raises anything but the store error, the Registrar
    reports an error registering the model, prints the traceback and exits 1,
    and the identifier file is not written, although the registration call
    was accepted. *)
Theorem lookup_failure_after_registration_is_fatal (w : World)
    (cluster_domain model_name : string) (model_version : option string)
    (huggingface_model s3_uri : string) (n : nat) (e : exn) :
  Registrar.reaches_registration w cluster_domain model_name model_version
    huggingface_model s3_uri ->
  w_register_model w model_name s3_uri model_version = Ok tt ->
  n <= 1 ->
  (forall k, k < n ->
     exists shown, w_get_model_version w k model_name model_version = Ok (Some shown)) ->
  RegistrarRun.lookup_fails w model_name model_version n e ->
  fst (run Registrar.main w) = Exit 1 /\
  st_files (snd (run Registrar.main w)) = w_files w /\
  writes_nothing (st_trace (snd (run Registrar.main w))) = true /\
  In (RegisterModel model_name s3_uri model_version
        (Registrar.description huggingface_model)
        (Registrar.metadata huggingface_model s3_uri))
     (st_trace (snd (run Registrar.main w))) /\
  exists before,
    st_trace (snd (run Registrar.main w)) =
      before ++ [Print "Error registering model: {}" [AExn e]; Traceback].
Proof.
  intros Hreach Hreg Hn Hbefore Hfail.
  destruct (registrar_reaches_registration w _ _ _ _ _ Hreach)
    as (s0 & Hrun & Hfiles & Hl0 & Hw & _).
  destruct (register_lookup_fails w cluster_domain model_name model_version
              huggingface_model s3_uri s0 n e Hreg Hn)
    as (added & s' & Hregister & Hf & Ht & Hadded).
  { intros k Hk. rewrite Hl0. exact (Hbefore k Hk). }
  { rewrite Hl0. exact Hfail. }
  rewrite Hrun, Hregister. mstate. rewrite Ht.
  split; [reflexivity|]. split; [rewrite Hf; exact Hfiles|].
  split.
  { rewrite writes_nothing_app, Hw. cbn [andb].
    change (writes_nothing (?c :: ?l)) with (writes_nothing l).
    rewrite writes_nothing_app, Hadded. reflexivity. }
  split; [apply in_or_app; right; left; reflexivity|].
  eexists (st_trace s0 ++ _ :: added).
  rewrite <- app_assoc. reflexivity.
Qed.

Lemma lookup_failure_after_registration_is_fatal_witness :
  let environ := Examples.credentials ++
                 [("MODEL_NAME", "llama"); ("MODEL_VERSION", "2");
                  ("MODEL_REGISTRY_URL", "registry.example")] in
  let w := Examples.with_registry (Ok tt)
             (fun n => match n with
                       | 0 => Ok (Some (mkVersion "42" "llama"))
                       | _ => Ok None
                       end)
             (Examples.world environ Examples.files []) in
  fst (run Registrar.main w) = Exit 1 /\
  st_files (snd (run Registrar.main w)) = w_files w.
Proof.
  intros environ w.
  destruct (lookup_failure_after_registration_is_fatal w "cluster.local" "llama"
              (Some "2") "unknown" "s3://models/model-data/llama/2" 1 AttributeError)
    as (Hexit & Hfiles & _).
  - split; [vm_compute; reflexivity|].
    split; [eexists; vm_compute; reflexivity|].
    split; [vm_compute; reflexivity|].
    split; [vm_compute; reflexivity|].
    split; [exists "llama"; split; vm_compute; reflexivity|].
    split; [vm_compute; reflexivity|].
    split; [vm_compute; reflexivity|].
    right. split; [vm_compute; reflexivity|].
    exists "models". repeat split; vm_compute; reflexivity.
  - reflexivity.
  - lia.
  - intros k Hk. assert (k = 0) as -> by lia. eexists. reflexivity.
  - left. split; reflexivity.
  - split; assumption.
Defined.

(** X27.  The store error is taken for a conflict wherever it is raised
    inside the registration block: when the registration call is accepted
    and one of the two lookups after it raises the store error, the Registrar
    prints that the model version already exists, although it has printed
    that the model was registered, and looks the version up once more; with
    the version found it writes the identifier and exits 0. *)
Theorem store_error_from_lookup_is_taken_for_conflict (w : World)
    (cluster_domain model_name : string) (model_version : option string)
    (huggingface_model s3_uri : string) (n : nat) (mv : model_version_rec) :
  Registrar.reaches_registration w cluster_domain model_name model_version
    huggingface_model s3_uri ->
  w_register_model w model_name s3_uri model_version = Ok tt ->
  n <= 1 ->
  (forall k, k < n ->
     exists shown, w_get_model_version w k model_name model_version = Ok (Some shown)) ->
  w_get_model_version w n model_name model_version = Err StoreError ->
  w_get_model_version w (S n) model_name model_version = Ok (Some mv) ->
  fst (run Registrar.main w) = Exit 0 /\
  st_files (snd (run Registrar.main w)) =
    <[Registrar.version_id_file := mv_id mv]> (w_files w) /\
  List.filter is_file_write (st_trace (snd (run Registrar.main w))) =
    [WriteFile Registrar.version_id_file (mv_id mv)] /\
  exists before between after,
    st_trace (snd (run Registrar.main w)) =
      before ++
      [Print "Successfully registered model: {} version {}"
         [AStr model_name; AStr (Py.fmt model_version)]] ++
      between ++
      [Print "Model version already exists: {} version {}"
         [AStr model_name; AStr (Py.fmt model_version)]] ++
      after.
Proof.
  intros Hreach Hreg Hn Hbefore Herr Hnext.
  destruct (registrar_reaches_registration w _ _ _ _ _ Hreach)
    as (s0 & Hrun & Hfiles & Hl0 & Hw & _).
  destruct (register_lookup_store_error w cluster_domain model_name model_version
              huggingface_model s3_uri s0 n mv Hreg Hn)
    as (between & after & s' & Hregister & Hf & Ht & Hwrite).
  { intros k Hk. rewrite Hl0. exact (Hbefore k Hk). }
  { rewrite Hl0. exact Herr. }
  { rewrite Hl0. exact Hnext. }
  rewrite Hrun, Hregister. mstate. rewrite Ht.
  split; [reflexivity|]. split; [rewrite Hf, Hfiles; reflexivity|].
  split.
  { assert (H0 : List.filter is_file_write (st_trace s0) = []).
    { clear - Hw. unfold writes_nothing in Hw.
      induction (st_trace s0) as [|ev l IH]; [reflexivity|].
      cbn [forallb List.filter] in *. apply andb_prop in Hw. destruct Hw as [Hev Hl].
      destruct (is_file_write ev); [discriminate Hev | exact (IH Hl)]. }
    rewrite List.filter_app, H0. cbn [app List.filter is_file_write].
    rewrite List.filter_app in *. cbn [app List.filter is_file_write]. exact Hwrite. }
  eexists (st_trace s0 ++ [_]), between, after.
  rewrite <- app_assoc. reflexivity.
Qed.

Lemma store_error_from_lookup_is_taken_for_conflict_witness :
  let environ := Examples.credentials ++
                 [("MODEL_NAME", "llama"); ("MODEL_VERSION", "2");
                  ("MODEL_REGISTRY_URL", "registry.example")] in
  let w := Examples.with_registry (Ok tt)
             (fun n => match n with
                       | 0 => Err StoreError
                       | _ => Ok (Some (mkVersion "42" "llama"))
                       end)
             (Examples.world environ Examples.files []) in
  fst (run Registrar.main w) = Exit 0 /\
  st_files (snd (run Registrar.main w)) !! Registrar.version_id_file = Some "42".
Proof.
  intros environ w.
  destruct (store_error_from_lookup_is_taken_for_conflict w "cluster.local" "llama"
              (Some "2") "unknown" "s3://models/model-data/llama/2" 0
              (mkVersion "42" "llama"))
    as (Hexit & Hfiles & _).
  - split; [vm_compute; reflexivity|].
    split; [eexists; vm_compute; reflexivity|].
    split; [vm_compute; reflexivity|].
    split; [vm_compute; reflexivity|].
    split; [exists "llama"; split; vm_compute; reflexivity|].
    split; [vm_compute; reflexivity|].
    split; [vm_compute; reflexivity|].
    right. split; [vm_compute; reflexivity|].
    exists "models". repeat split; vm_compute; reflexivity.
  - reflexivity.
  - lia.
  - intros k Hk. lia.
  - reflexivity.
  - reflexivity.
  - split; [exact Hexit|]. rewrite Hfiles. apply lookup_insert_eq.
Defined.

Lemma length_lower (s : string) : String.length (Py.lower s) = String.length s.
Proof. induction s as [|c s IH]; [reflexivity|]. cbn [Py.lower String.length]. rewrite IH. reflexivity. Qed.

(** X28.  The two scripts do not default the version alike: with
    MODEL_VERSION unset the Uploader works with version 1.0.0 and persists a
    locator that ends in /1.0.0, while the Registrar, when it falls back on
    the environment for the locator, registers one that ends in /None; the
    two locators differ for every bucket and every model name. *)
Theorem unset_version_locators_differ (w : World) (bucket model dir : string)
    (entries : list dir_entry) :
  w_environ w !! "MODEL_VERSION" = None ->
  Uploader.reaches_loop w bucket model "1.0.0" dir entries ->
  Uploader.all_uploads_succeed w bucket model "1.0.0" dir entries ->
  (exists namespace_text,
     w_files w !! Registrar.namespace_file_path = Some namespace_text) ->
  Py.truthy (w_environ w !! "MODEL_REGISTRY_URL") = true ->
  w_files w !! Registrar.s3_uri_file = None ->
  st_files (snd (run Uploader.main w)) !! Uploader.uri_file
    = Some (Uploader.s3_uri bucket model "1.0.0") /\
  omap registered_uri (st_trace (snd (run Registrar.main w)))
    = [Registrar.fallback_s3_uri bucket (Py.lower model) None] /\
  Registrar.fallback_s3_uri bucket (Py.lower model) None
    = "s3://" +:+ bucket +:+ "/model-data/" +:+ Py.lower model +:+ "/None" /\
  Uploader.s3_uri bucket model "1.0.0"
    <> Registrar.fallback_s3_uri bucket (Py.lower model) None.
Proof.
  intros Hver Hreach Hall Hns Haddr Hfile.
  destruct (uploader_success_files w bucket model "1.0.0" dir entries Hreach Hall)
    as [_ Hfiles].
  split; [rewrite Hfiles; apply lookup_insert_eq|].
  destruct Hreach as (Hskip & Hbucket & Hne & _ & _ & Hmodel & _).
  assert (Hconf : RegistrarRun.configured w) by (split; [|split]; assumption).
  assert (Htruthy : Py.truthy (w_environ w !! "S3_BUCKET") = true)
    by (rewrite Hbucket; exact Hne).
  split.
  { rewrite (registrar_with_fallback w model Hconf Hmodel Hfile Htruthy).
    unfold RegistrarRun.version_of. rewrite Hver, Hbucket. cbn [default from_option id].
    apply registered_once. reflexivity. }
  split; [reflexivity|].
  intros Heq. apply (f_equal String.length) in Heq.
  unfold Uploader.s3_uri, Uploader.s3_prefix, Registrar.fallback_s3_uri, Py.fmt in Heq.
  cbn [default from_option id] in Heq.
  rewrite !length_append, length_lower in Heq. cbn [String.length] in Heq. lia.
Qed.

Lemma unset_version_locators_differ_witness :
  let environ := Examples.credentials ++
                 [("MODEL_NAME", "llama"); ("MODEL_REGISTRY_URL", "registry.example")] in
  let w := Examples.world environ Examples.files [] in
  st_files (snd (run Uploader.main w)) !! Uploader.uri_file
    = Some "s3://models/model-data/llama/1.0.0" /\
  omap registered_uri (st_trace (snd (run Registrar.main w)))
    = ["s3://models/model-data/llama/None"].
Proof.
  intros environ w.
  destruct (unset_version_locators_differ w "models" "llama"
              "/workspace/shared-workspace/model" Examples.model_dir)
    as (Hup & Hreg & _).
  - vm_compute. reflexivity.
  - repeat split; vm_compute; reflexivity.
  - intros e _ _. reflexivity.
  - eexists. vm_compute. reflexivity.
  - vm_compute. reflexivity.
  - vm_compute. reflexivity.
  - split; [exact Hup | exact Hreg].
Defined.
